(** * Sparse Gaussian-process regression (GPflow, [sgpr.py])

    A shallow embedding of the two models of [GPflow/sgpr.py], [SGPR] (the
    variational bound of Titsias) and [GPRFITC], over exact real arithmetic.
    Tensors are lists (rank 1), lists of rows (rank 2) and lists of lists of
    rows (rank 3); the TensorFlow operations the file calls are modelled in
    [Module tf], with the errors they raise on incompatible shapes and on a
    failed factorisation; the methods of the two classes are programs in the
    error monad [result]. *)

From Stdlib Require Import Reals Lra List Arith Lia Bool.
Import ListNotations.
Open Scope R_scope.

(** ** Errors and the error monad *)

(** TensorFlow raises [InvalidArgumentError] both for incompatible shapes and
    for a Cholesky factorisation that does not succeed; the two causes are kept
    apart here. *)
Inductive tf_error : Type :=
| ShapeMismatch
| NumericalError.

Inductive result (A : Type) : Type :=
| Ok (a : A)
| Err (e : tf_error).

Arguments Ok {A} a.
Arguments Err {A} e.

Definition bind {A B : Type} (r : result A) (k : A -> result B) : result B :=
  match r with
  | Ok a => k a
  | Err e => Err e
  end.

Definition fmap {A B : Type} (f : A -> B) (r : result A) : result B :=
  match r with
  | Ok a => Ok (f a)
  | Err e => Err e
  end.

Definition succeeds {A : Type} (r : result A) : Prop :=
  exists a, r = Ok a.

(** Two outcomes are related: both values, related by [P], or the same
    error. *)
Definition result_rel {A : Type} (P : A -> A -> Prop) (r r' : result A) : Prop :=
  match r, r' with
  | Ok a, Ok a' => P a a'
  | Err e, Err e' => e = e'
  | _, _ => False
  end.

(** An outcome that fails, if at all, on shapes. *)
Definition shape_errors_only {A : Type} (r : result A) : Prop :=
  forall e, r = Err e -> e = ShapeMismatch.

Notation "x <- e ;; k" := (bind e (fun x => k))
  (at level 61, e at next level, right associativity).

(** ** Tensors *)

Abbreviation vec := (list R).
Abbreviation mat := (list (list R)).
Abbreviation tensor3 := (list (list (list R))).

Fixpoint zip_with {A B C : Type} (f : A -> B -> C) (u : list A) (v : list B)
  : list C :=
  match u, v with
  | a :: u', b :: v' => f a b :: zip_with f u' v'
  | _, _ => []
  end.

(** Sum of the entries of a vector, and of a matrix. *)
Definition vsum (u : vec) : R := fold_right Rplus 0 u.
Definition msum (A : mat) : R := vsum (map vsum A).

Definition dot (u v : vec) : R := vsum (zip_with Rmult u v).

(** Column [j] of a matrix. *)
Definition col (j : nat) (A : mat) : vec := map (fun r => nth j r 0) A.

(** [A] has [n] rows, each of [d] entries. *)
Definition is_mat (n d : nat) (A : mat) : Prop :=
  length A = n /\ Forall (fun r => length r = d) A.

(** Same shape, row by row. *)
Definition same_shape (A B : mat) : Prop := map (@length R) A = map (@length R) B.

(** ** The TensorFlow operations used by [sgpr.py] *)

Module tf.

(** [tf.shape(A)[0]] and [tf.shape(A)[1]] of a rank-2 tensor.  A matrix
    without rows carries no column count in this representation. *)
Definition shape0 (A : mat) : nat := length A.
Definition shape1 (A : mat) : nat := length (hd [] A).

Definition eye (n : nat) : mat :=
  map (fun i => map (fun j => if Nat.eqb i j then 1 else 0) (seq 0 n)) (seq 0 n).

Definition square (A : mat) : mat := map (map (fun x => x * x)) A.
Definition log (u : vec) : vec := map ln u.

(** [tf.reduce_sum(A)] and [tf.reduce_sum(A, 0)]. *)
Definition reduce_sum (A : mat) : R := msum A.
Definition reduce_sum1 (u : vec) : R := vsum u.
Definition reduce_sum_axis0 (A : mat) : vec :=
  map (fun j => vsum (col j A)) (seq 0 (shape1 A)).

(** [tf.diag_part]; the file applies it to square matrices only (a Cholesky
    factor, or [A A^T]). *)
Definition diag_part (A : mat) : vec :=
  map (fun i => nth i (nth i A []) 0) (seq 0 (shape0 A)).

Definition transpose (A : mat) : mat :=
  map (fun j => col j A) (seq 0 (shape1 A)).

(** *** Broadcasting element-wise operations *)

(** The common size of two dimensions: equal, or one of them is 1. *)
Definition bdim (a b : nat) : option nat :=
  if Nat.eqb a b then Some a
  else if Nat.eqb a 1 then Some b
  else if Nat.eqb b 1 then Some a
  else None.

(** A dimension of size 1 is repeated; any other is left as it is. *)
Definition stretch {A : Type} (n : nat) (l : list A) : list A :=
  match l with
  | [x] => repeat x n
  | _ => l
  end.

Definition bcast1 (f : R -> R -> R) (u v : vec) : result vec :=
  match bdim (length u) (length v) with
  | Some n => Ok (zip_with f (stretch n u) (stretch n v))
  | None => Err ShapeMismatch
  end.

Definition bcast2 (f : R -> R -> R) (A B : mat) : result mat :=
  match bdim (shape0 A) (shape0 B), bdim (shape1 A) (shape1 B) with
  | Some n, Some d =>
      Ok (zip_with (fun ra rb => zip_with f (stretch d ra) (stretch d rb))
            (stretch n A) (stretch n B))
  | _, _ => Err ShapeMismatch
  end.

Definition add : mat -> mat -> result mat := bcast2 Rplus.
Definition sub : mat -> mat -> result mat := bcast2 Rminus.
Definition div : mat -> mat -> result mat := bcast2 Rdiv.
Definition add1 : vec -> vec -> result vec := bcast1 Rplus.
Definition sub1 : vec -> vec -> result vec := bcast1 Rminus.

(** A rank-1 operand next to a rank-2 one is a single row. *)
Definition div_row (A : mat) (u : vec) : result mat := bcast2 Rdiv A [u].

(** Operations with a scalar (rank 0) operand. *)
Definition scale (A : mat) (s : R) : mat := map (map (fun x => x * s)) A.
Definition div_scalar (A : mat) (s : R) : mat := map (map (fun x => x / s)) A.
Definition add_scalar (u : vec) (s : R) : vec := map (fun x => x + s) u.

(** *** Matrix product *)

Definition mul (A B : mat) : mat :=
  map (fun r => map (fun j => dot r (col j B)) (seq 0 (shape1 B))) A.

(** [tf.matmul(A, B, transpose_a, transpose_b)]. *)
Definition matmul (A B : mat) (transpose_a transpose_b : bool) : result mat :=
  let A' := if transpose_a then transpose A else A in
  let B' := if transpose_b then transpose B else B in
  if Nat.eqb (shape1 A') (shape0 B') then Ok (mul A' B') else Err ShapeMismatch.

(** *** Factorisation and triangular systems *)

Definition is_square (A : mat) : bool :=
  forallb (fun r => Nat.eqb (length r) (length A)) A.

(** The entries left of the diagonal in one row of the Cholesky factor:
    [prev] are the rows already computed, [a] the rest of the row of the
    input, [acc] the entries found so far. *)
Fixpoint chol_row (prev : mat) (a : vec) (acc : vec) : vec :=
  match prev, a with
  | lj :: prev', aj :: a' =>
      chol_row prev' a' (acc ++ [(aj - dot acc lj) / nth (length acc) lj 0])
  | _, _ => acc
  end.

(** Row by row (Cholesky-Banachiewicz); only the lower triangle of the input
    is read, and a pivot that is not positive is a failure. *)
Fixpoint chol_rows (n : nat) (rows : mat) (prev : mat) : result mat :=
  match rows with
  | [] => Ok prev
  | a :: rest =>
      let off := chol_row prev a [] in
      let d := nth (length prev) a 0 - dot off off in
      if Rlt_dec 0 d
      then chol_rows n rest
             (prev ++ [off ++ sqrt d :: repeat 0 (n - S (length prev))])
      else Err NumericalError
  end.

Definition cholesky (A : mat) : result mat :=
  if is_square A then chol_rows (length A) A [] else Err ShapeMismatch.

(** Entry by entry of a row of the solution, with its column index. *)
Definition imap {A B : Type} (f : nat -> A -> B) (l : list A) : list B :=
  map (fun p => f (fst p) (snd p)) (combine (seq 0 (length l)) l).

(** Forward substitution: [X] are the rows of the solution found so far. *)
Fixpoint solve_lower (L B X : mat) : mat :=
  match L, B with
  | l :: L', b :: B' =>
      solve_lower L' B'
        (X ++ [imap (fun j bj => (bj - dot l (col j X)) / nth (length X) l 0) b])
  | _, _ => X
  end.

(** Back substitution: row [i] of the solution from the rows below it. *)
Fixpoint solve_upper (i : nat) (U B : mat) : mat :=
  match U, B with
  | u :: U', b :: B' =>
      let X' := solve_upper (S i) U' B' in
      imap (fun j bj => (bj - dot (skipn (S i) u) (col j X')) / nth i u 0) b :: X'
  | _, _ => []
  end.

(** [tf.matrix_triangular_solve(L, B, lower)]. *)
Definition matrix_triangular_solve (L B : mat) (lower : bool) : result mat :=
  if is_square L && Nat.eqb (shape0 L) (shape0 B)
  then Ok (if lower then solve_lower L B [] else solve_upper 0 L B)
  else Err ShapeMismatch.

(** *** Reshaping *)

(** [tf.expand_dims(u, 1)] of a vector and [tf.expand_dims(A, 2)] of a
    matrix: a new last axis of size 1. *)
Definition expand_dims1 (u : vec) : mat := map (fun x => [x]) u.
Definition expand_dims2 (A : mat) : tensor3 := map expand_dims1 A.

(** [tf.tile]: the tensor is repeated [m] times along an axis. *)
Definition tile_axis {A : Type} (m : nat) (l : list A) : list A :=
  concat (repeat l m).

Definition tile2 (A : mat) (m0 m1 : nat) : mat :=
  tile_axis m0 (map (tile_axis m1) A).

Definition tile3 (T : tensor3) (m0 m1 m2 : nat) : tensor3 :=
  tile_axis m0 (map (fun A => tile_axis m1 (map (tile_axis m2) A)) T).

End tf.

(** ** The model objects *)

(** A kernel object: the four methods the file calls on [self.kern]. *)
Record Kern : Type := {
  K : mat -> mat;
  Kdiag : mat -> vec;
  Kzx : mat -> mat -> mat;
  Kzz : mat -> mat
}.

(** The Gaussian likelihood; the file reads its [variance] only. *)
Record Gaussian : Type := { variance : R }.

(** The attributes of a model that the methods read.  [SGPR] and [GPRFITC]
    have the same ones. *)
Record GPModel : Type := {
  X : mat;
  Y : mat;
  kern : Kern;
  likelihood : Gaussian;
  mean_function : mat -> mat;
  Z : mat;
  num_data : nat;
  num_latent : nat
}.

(** The variance returned by [build_predict]: rank 3 with [full_cov], rank 2
    without. *)
Inductive pred_var : Type :=
| FullCov (v : tensor3)
| DiagCov (v : mat).

(** The intermediate matrices shared by the bound and the prediction of
    [SGPR]. *)
Record sgpr_terms : Type := {
  t_err : mat;
  t_L : mat;
  t_A : mat;
  t_AAT : mat;
  t_B : mat;
  t_LB : mat;
  t_c : mat
}.

(** ** Methods as programs on the model object *)

(** A method runs on the object [self]: it returns a value or raises, and
    leaves an object behind.  [attr] is an attribute access [self.a],
    [set_attr] an assignment [self.a = v], [op] a TensorFlow operation,
    which touches no attribute.  The kernel, the mean function and the
    likelihood are defined outside [sgpr.py]; their methods are taken as
    functions of their arguments, as in the rest of the model. *)
Definition Method (A : Type) : Type := GPModel -> result A * GPModel.

Definition mret {A : Type} (a : A) : Method A := fun self => (Ok a, self).

Definition mbind {A B : Type} (m : Method A) (k : A -> Method B) : Method B :=
  fun self =>
    match m self with
    | (Ok a, self') => k a self'
    | (Err e, self') => (Err e, self')
    end.

Definition attr {A : Type} (a : GPModel -> A) : Method A :=
  fun self => (Ok (a self), self).

Definition set_attr (assign : GPModel -> GPModel) : Method unit :=
  fun self => (Ok tt, assign self).

Definition op {A : Type} (r : result A) : Method A := fun self => (r, self).

Notation "x <~ e ;; k" := (mbind e (fun x => k))
  (at level 61, e at next level, right associativity).

(** ** [class SGPR] *)

Module SGPR.
Section WithSettings.

(** [settings.numerics.jitter_level], and the object that
    [likelihoods.Gaussian()] returns; both are defined outside the file. *)
Variable jitter_level : R.
Variable likelihoods_Gaussian : Gaussian.

(** [SGPR.__init__]: the data holders and [Param] wrap their argument, and
    the base initialiser stores the five objects the methods read back. *)
Definition init (X0 Y0 : mat) (kern0 : Kern) (Z0 : mat)
  (mean_function0 : mat -> mat) : GPModel :=
  {| X := X0;
     Y := Y0;
     kern := kern0;
     likelihood := likelihoods_Gaussian;
     mean_function := mean_function0;
     Z := Z0;
     num_data := tf.shape0 X0;
     num_latent := tf.shape1 Y0 |}.

(** [SGPR.build_likelihood]. *)
Definition build_likelihood (self : GPModel) : result R :=
  let num_inducing := tf.shape0 (Z self) in
  let num_data := INR (tf.shape0 (Y self)) in
  let output_dim := INR (tf.shape1 (Y self)) in
  err <- tf.sub (Y self) (mean_function self (X self)) ;;
  let Kdiag := Kdiag (kern self) (X self) in
  let Kuf := Kzx (kern self) (Z self) (X self) in
  Kuu <- tf.add (Kzz (kern self) (Z self))
           (tf.scale (tf.eye num_inducing) jitter_level) ;;
  L <- tf.cholesky Kuu ;;
  let sigma := sqrt (variance (likelihood self)) in
  LinvKuf <- tf.matrix_triangular_solve L Kuf true ;;
  let A := tf.div_scalar LinvKuf sigma in
  AAT <- tf.matmul A A false true ;;
  B <- tf.add AAT (tf.eye num_inducing) ;;
  LB <- tf.cholesky B ;;
  Aerr <- tf.matmul A err false false ;;
  LBinvAerr <- tf.matrix_triangular_solve LB Aerr true ;;
  let c := tf.div_scalar LBinvAerr sigma in
  let bound := -0.5 * num_data * output_dim * ln (2 * PI) in
  let bound := bound + - output_dim * tf.reduce_sum1 (tf.log (tf.diag_part LB)) in
  let bound := bound - 0.5 * num_data * output_dim * ln (variance (likelihood self)) in
  let bound := bound + -0.5 * tf.reduce_sum (tf.square err) / variance (likelihood self) in
  let bound := bound + 0.5 * tf.reduce_sum (tf.square c) in
  let bound := bound + -0.5 * output_dim * tf.reduce_sum1 Kdiag / variance (likelihood self) in
  let bound := bound + 0.5 * output_dim * tf.reduce_sum1 (tf.diag_part AAT) in
  Ok bound.

(** [SGPR.build_predict]. *)
Definition build_predict (self : GPModel) (Xnew : mat) (full_cov : bool)
  : result (mat * pred_var) :=
  let num_inducing := tf.shape0 (Z self) in
  err <- tf.sub (Y self) (mean_function self (X self)) ;;
  let Kuf := Kzx (kern self) (Z self) (X self) in
  Kuu <- tf.add (Kzz (kern self) (Z self))
           (tf.scale (tf.eye num_inducing) jitter_level) ;;
  let Kus := Kzx (kern self) (Z self) Xnew in
  let sigma := sqrt (variance (likelihood self)) in
  L <- tf.cholesky Kuu ;;
  LinvKuf <- tf.matrix_triangular_solve L Kuf true ;;
  let A := tf.div_scalar LinvKuf sigma in
  AAT <- tf.matmul A A false true ;;
  B <- tf.add AAT (tf.eye num_inducing) ;;
  LB <- tf.cholesky B ;;
  Aerr <- tf.matmul A err false false ;;
  LBinvAerr <- tf.matrix_triangular_solve LB Aerr true ;;
  let c := tf.div_scalar LBinvAerr sigma in
  tmp1 <- tf.matrix_triangular_solve L Kus true ;;
  tmp2 <- tf.matrix_triangular_solve LB tmp1 true ;;
  mean <- tf.matmul tmp2 c true false ;;
  var <-
    (if full_cov then
       t2 <- tf.matmul tmp2 tmp2 true false ;;
       s <- tf.add (K (kern self) Xnew) t2 ;;
       t1 <- tf.matmul tmp1 tmp1 true false ;;
       var <- tf.sub s t1 ;;
       Ok (FullCov (tf.tile3 (tf.expand_dims2 var) 1 1 (tf.shape1 (Y self))))
     else
       s <- tf.add1 (Kdiag (kern self) Xnew)
              (tf.reduce_sum_axis0 (tf.square tmp2)) ;;
       var <- tf.sub1 s (tf.reduce_sum_axis0 (tf.square tmp1)) ;;
       Ok (DiagCov (tf.tile2 (tf.expand_dims1 var) 1 (tf.shape1 (Y self))))) ;;
  m <- tf.add mean (mean_function self Xnew) ;;
  Ok (m, var).

(** Lines 78-91 of [build_likelihood]: the intermediate matrices, in the
    order the method computes them. *)
Definition likelihood_terms (self : GPModel) : result sgpr_terms :=
  let num_inducing := tf.shape0 (Z self) in
  err <- tf.sub (Y self) (mean_function self (X self)) ;;
  let Kuf := Kzx (kern self) (Z self) (X self) in
  Kuu <- tf.add (Kzz (kern self) (Z self))
           (tf.scale (tf.eye num_inducing) jitter_level) ;;
  L <- tf.cholesky Kuu ;;
  let sigma := sqrt (variance (likelihood self)) in
  LinvKuf <- tf.matrix_triangular_solve L Kuf true ;;
  let A := tf.div_scalar LinvKuf sigma in
  AAT <- tf.matmul A A false true ;;
  B <- tf.add AAT (tf.eye num_inducing) ;;
  LB <- tf.cholesky B ;;
  Aerr <- tf.matmul A err false false ;;
  LBinvAerr <- tf.matrix_triangular_solve LB Aerr true ;;
  let c := tf.div_scalar LBinvAerr sigma in
  Ok {| t_err := err; t_L := L; t_A := A; t_AAT := AAT; t_B := B;
        t_LB := LB; t_c := c |}.

(** Lines 93-102 of [build_likelihood]: the bound from the matrices. *)
Definition bound_of_terms (self : GPModel) (t : sgpr_terms) : R :=
  let num_data := INR (tf.shape0 (Y self)) in
  let output_dim := INR (tf.shape1 (Y self)) in
  let Kdiag := Kdiag (kern self) (X self) in
  let bound := -0.5 * num_data * output_dim * ln (2 * PI) in
  let bound := bound + - output_dim * tf.reduce_sum1 (tf.log (tf.diag_part (t_LB t))) in
  let bound := bound - 0.5 * num_data * output_dim * ln (variance (likelihood self)) in
  let bound := bound + -0.5 * tf.reduce_sum (tf.square (t_err t)) / variance (likelihood self) in
  let bound := bound + 0.5 * tf.reduce_sum (tf.square (t_c t)) in
  let bound := bound + -0.5 * output_dim * tf.reduce_sum1 Kdiag / variance (likelihood self) in
  let bound := bound + 0.5 * output_dim * tf.reduce_sum1 (tf.diag_part (t_AAT t)) in
  bound.

(** Lines 110-121 of [build_predict]: the same matrices, in the order that
    method computes them; the product [A A^T] is the unnamed operand of the
    sum that gives [B]. *)
Definition predict_terms (self : GPModel) : result sgpr_terms :=
  let num_inducing := tf.shape0 (Z self) in
  err <- tf.sub (Y self) (mean_function self (X self)) ;;
  let Kuf := Kzx (kern self) (Z self) (X self) in
  Kuu <- tf.add (Kzz (kern self) (Z self))
           (tf.scale (tf.eye num_inducing) jitter_level) ;;
  let sigma := sqrt (variance (likelihood self)) in
  L <- tf.cholesky Kuu ;;
  LinvKuf <- tf.matrix_triangular_solve L Kuf true ;;
  let A := tf.div_scalar LinvKuf sigma in
  AAT <- tf.matmul A A false true ;;
  B <- tf.add AAT (tf.eye num_inducing) ;;
  LB <- tf.cholesky B ;;
  Aerr <- tf.matmul A err false false ;;
  LBinvAerr <- tf.matrix_triangular_solve LB Aerr true ;;
  let c := tf.div_scalar LBinvAerr sigma in
  Ok {| t_err := err; t_L := L; t_A := A; t_AAT := AAT; t_B := B;
        t_LB := LB; t_c := c |}.

(** Lines 122-135 of [build_predict]: mean and variance from the matrices. *)
Definition predict_of_terms (self : GPModel) (Xnew : mat) (full_cov : bool)
  (t : sgpr_terms) : result (mat * pred_var) :=
  let Kus := Kzx (kern self) (Z self) Xnew in
  tmp1 <- tf.matrix_triangular_solve (t_L t) Kus true ;;
  tmp2 <- tf.matrix_triangular_solve (t_LB t) tmp1 true ;;
  mean <- tf.matmul tmp2 (t_c t) true false ;;
  var <-
    (if full_cov then
       t2 <- tf.matmul tmp2 tmp2 true false ;;
       s <- tf.add (K (kern self) Xnew) t2 ;;
       t1 <- tf.matmul tmp1 tmp1 true false ;;
       var <- tf.sub s t1 ;;
       Ok (FullCov (tf.tile3 (tf.expand_dims2 var) 1 1 (tf.shape1 (Y self))))
     else
       s <- tf.add1 (Kdiag (kern self) Xnew)
              (tf.reduce_sum_axis0 (tf.square tmp2)) ;;
       var <- tf.sub1 s (tf.reduce_sum_axis0 (tf.square tmp1)) ;;
       Ok (DiagCov (tf.tile2 (tf.expand_dims1 var) 1 (tf.shape1 (Y self))))) ;;
  m <- tf.add mean (mean_function self Xnew) ;;
  Ok (m, var).

(** [build_likelihood] as the method is written, attribute access by
    attribute access. *)
Definition evidence : Method R :=
  Z0 <~ attr Z ;;
  let num_inducing := tf.shape0 Z0 in
  Y0 <~ attr Y ;;
  let num_data := INR (tf.shape0 Y0) in
  Y1 <~ attr Y ;;
  let output_dim := INR (tf.shape1 Y1) in
  Y2 <~ attr Y ;; mf <~ attr mean_function ;; X0 <~ attr X ;;
  err <~ op (tf.sub Y2 (mf X0)) ;;
  k0 <~ attr kern ;; X1 <~ attr X ;;
  let Kdiag := Kdiag k0 X1 in
  k1 <~ attr kern ;; Z1 <~ attr Z ;; X2 <~ attr X ;;
  let Kuf := Kzx k1 Z1 X2 in
  k2 <~ attr kern ;; Z2 <~ attr Z ;;
  Kuu <~ op (tf.add (Kzz k2 Z2) (tf.scale (tf.eye num_inducing) jitter_level)) ;;
  L <~ op (tf.cholesky Kuu) ;;
  lik0 <~ attr likelihood ;;
  let sigma := sqrt (variance lik0) in
  LinvKuf <~ op (tf.matrix_triangular_solve L Kuf true) ;;
  let A := tf.div_scalar LinvKuf sigma in
  AAT <~ op (tf.matmul A A false true) ;;
  B <~ op (tf.add AAT (tf.eye num_inducing)) ;;
  LB <~ op (tf.cholesky B) ;;
  Aerr <~ op (tf.matmul A err false false) ;;
  LBinvAerr <~ op (tf.matrix_triangular_solve LB Aerr true) ;;
  let c := tf.div_scalar LBinvAerr sigma in
  let bound := -0.5 * num_data * output_dim * ln (2 * PI) in
  let bound := bound + - output_dim * tf.reduce_sum1 (tf.log (tf.diag_part LB)) in
  lik1 <~ attr likelihood ;;
  let bound := bound - 0.5 * num_data * output_dim * ln (variance lik1) in
  lik2 <~ attr likelihood ;;
  let bound := bound + -0.5 * tf.reduce_sum (tf.square err) / variance lik2 in
  let bound := bound + 0.5 * tf.reduce_sum (tf.square c) in
  lik3 <~ attr likelihood ;;
  let bound := bound + -0.5 * output_dim * tf.reduce_sum1 Kdiag / variance lik3 in
  let bound := bound + 0.5 * output_dim * tf.reduce_sum1 (tf.diag_part AAT) in
  mret bound.

(** [build_predict] as the method is written. *)
Definition predict (Xnew : mat) (full_cov : bool)
  : Method (mat * pred_var) :=
  Z0 <~ attr Z ;;
  let num_inducing := tf.shape0 Z0 in
  Y0 <~ attr Y ;; mf <~ attr mean_function ;; X0 <~ attr X ;;
  err <~ op (tf.sub Y0 (mf X0)) ;;
  k0 <~ attr kern ;; Z1 <~ attr Z ;; X1 <~ attr X ;;
  let Kuf := Kzx k0 Z1 X1 in
  k1 <~ attr kern ;; Z2 <~ attr Z ;;
  Kuu <~ op (tf.add (Kzz k1 Z2) (tf.scale (tf.eye num_inducing) jitter_level)) ;;
  k2 <~ attr kern ;; Z3 <~ attr Z ;;
  let Kus := Kzx k2 Z3 Xnew in
  lik0 <~ attr likelihood ;;
  let sigma := sqrt (variance lik0) in
  L <~ op (tf.cholesky Kuu) ;;
  LinvKuf <~ op (tf.matrix_triangular_solve L Kuf true) ;;
  let A := tf.div_scalar LinvKuf sigma in
  AAT <~ op (tf.matmul A A false true) ;;
  B <~ op (tf.add AAT (tf.eye num_inducing)) ;;
  LB <~ op (tf.cholesky B) ;;
  Aerr <~ op (tf.matmul A err false false) ;;
  LBinvAerr <~ op (tf.matrix_triangular_solve LB Aerr true) ;;
  let c := tf.div_scalar LBinvAerr sigma in
  tmp1 <~ op (tf.matrix_triangular_solve L Kus true) ;;
  tmp2 <~ op (tf.matrix_triangular_solve LB tmp1 true) ;;
  mean <~ op (tf.matmul tmp2 c true false) ;;
  var <~
    (if full_cov then
       k3 <~ attr kern ;;
       t2 <~ op (tf.matmul tmp2 tmp2 true false) ;;
       s <~ op (tf.add (K k3 Xnew) t2) ;;
       t1 <~ op (tf.matmul tmp1 tmp1 true false) ;;
       var <~ op (tf.sub s t1) ;;
       Y1 <~ attr Y ;;
       mret (FullCov (tf.tile3 (tf.expand_dims2 var) 1 1 (tf.shape1 Y1)))
     else
       k3 <~ attr kern ;;
       s <~ op (tf.add1 (Kdiag k3 Xnew) (tf.reduce_sum_axis0 (tf.square tmp2))) ;;
       var <~ op (tf.sub1 s (tf.reduce_sum_axis0 (tf.square tmp1))) ;;
       Y1 <~ attr Y ;;
       mret (DiagCov (tf.tile2 (tf.expand_dims1 var) 1 (tf.shape1 Y1)))) ;;
  mf1 <~ attr mean_function ;;
  m <~ op (tf.add mean (mf1 Xnew)) ;;
  mret (m, var).

End WithSettings.
End SGPR.

(** ** [class GPRFITC] *)

Module GPRFITC.
Section WithSettings.

Variable jitter_level : R.
Variable likelihoods_Gaussian : Gaussian.

(** [GPRFITC.__init__], the same statements as [SGPR.__init__]. *)
Definition init (X0 Y0 : mat) (kern0 : Kern) (Z0 : mat)
  (mean_function0 : mat -> mat) : GPModel :=
  {| X := X0;
     Y := Y0;
     kern := kern0;
     likelihood := likelihoods_Gaussian;
     mean_function := mean_function0;
     Z := Z0;
     num_data := tf.shape0 X0;
     num_latent := tf.shape1 Y0 |}.

(** The tuple [err, nu, Luu, L, alpha, beta, gamma]. *)
Definition common_terms : Type := (mat * vec * mat * mat * mat * mat * mat)%type.

(** [GPRFITC.build_common_terms]. *)
Definition build_common_terms (self : GPModel) : result common_terms :=
  let num_inducing := tf.shape0 (Z self) in
  err <- tf.sub (Y self) (mean_function self (X self)) ;;
  let Kdiag := Kdiag (kern self) (X self) in
  let Kuf := Kzx (kern self) (Z self) (X self) in
  Kuu <- tf.add (Kzz (kern self) (Z self))
           (tf.scale (tf.eye num_inducing) jitter_level) ;;
  Luu <- tf.cholesky Kuu ;;
  V <- tf.matrix_triangular_solve Luu Kuf true ;;
  let diagQff := tf.reduce_sum_axis0 (tf.square V) in
  d <- tf.sub1 Kdiag diagQff ;;
  let nu := tf.add_scalar d (variance (likelihood self)) in
  Vnu <- tf.div_row V nu ;;
  VnuVT <- tf.matmul Vnu V false true ;;
  B <- tf.add (tf.eye num_inducing) VnuVT ;;
  L <- tf.cholesky B ;;
  beta <- tf.div err (tf.expand_dims1 nu) ;;
  alpha <- tf.matmul V beta false false ;;
  gamma <- tf.matrix_triangular_solve L alpha true ;;
  Ok (err, nu, Luu, L, alpha, beta, gamma).

(** [GPRFITC.build_likelihood]. *)
Definition build_likelihood (self : GPModel) : result R :=
  t <- build_common_terms self ;;
  let '(err, nu, Luu, L, alpha, beta, gamma) := t in
  q <- tf.div (tf.square err) (tf.expand_dims1 nu) ;;
  let mahalanobisTerm :=
    -0.5 * tf.reduce_sum q + 0.5 * tf.reduce_sum (tf.square gamma) in
  let constantTerm := -0.5 * INR (num_data self) * ln (2 * PI) in
  let logDeterminantTerm :=
    -0.5 * tf.reduce_sum1 (tf.log nu)
    - tf.reduce_sum1 (tf.log (tf.diag_part L)) in
  let logNormalizingTerm := constantTerm + logDeterminantTerm in
  Ok (mahalanobisTerm + logNormalizingTerm * INR (num_latent self)).

(** [GPRFITC.build_predict]. *)
Definition build_predict (self : GPModel) (Xnew : mat) (full_cov : bool)
  : result (mat * pred_var) :=
  t <- build_common_terms self ;;
  let '(_, _, Luu, L, _, _, gamma) := t in
  let Kus := Kzx (kern self) (Z self) Xnew in
  w <- tf.matrix_triangular_solve Luu Kus true ;;
  tmp <- tf.matrix_triangular_solve (tf.transpose L) gamma false ;;
  wTtmp <- tf.matmul w tmp true false ;;
  mean <- tf.add wTtmp (mean_function self Xnew) ;;
  intermediateA <- tf.matrix_triangular_solve L w true ;;
  var <-
    (if full_cov then
       wTw <- tf.matmul w w true false ;;
       s <- tf.sub (K (kern self) Xnew) wTw ;;
       aTa <- tf.matmul intermediateA intermediateA true false ;;
       var <- tf.add s aTa ;;
       Ok (FullCov (tf.tile3 (tf.expand_dims2 var) 1 1 (tf.shape1 (Y self))))
     else
       s <- tf.sub1 (Kdiag (kern self) Xnew)
              (tf.reduce_sum_axis0 (tf.square w)) ;;
       var <- tf.add1 s (tf.reduce_sum_axis0 (tf.square intermediateA)) ;;
       Ok (DiagCov (tf.tile2 (tf.expand_dims1 var) 1 (tf.shape1 (Y self))))) ;;
  Ok (mean, var).

(** Lines 244-260 of [build_predict]: what the method computes from the
    three matrices [Luu], [L] and [gamma] it keeps of the common terms. *)
Definition predict_of_terms (self : GPModel) (Xnew : mat) (full_cov : bool)
  (Luu L gamma : mat) : result (mat * pred_var) :=
  let Kus := Kzx (kern self) (Z self) Xnew in
  w <- tf.matrix_triangular_solve Luu Kus true ;;
  tmp <- tf.matrix_triangular_solve (tf.transpose L) gamma false ;;
  wTtmp <- tf.matmul w tmp true false ;;
  mean <- tf.add wTtmp (mean_function self Xnew) ;;
  intermediateA <- tf.matrix_triangular_solve L w true ;;
  var <-
    (if full_cov then
       wTw <- tf.matmul w w true false ;;
       s <- tf.sub (K (kern self) Xnew) wTw ;;
       aTa <- tf.matmul intermediateA intermediateA true false ;;
       var <- tf.add s aTa ;;
       Ok (FullCov (tf.tile3 (tf.expand_dims2 var) 1 1 (tf.shape1 (Y self))))
     else
       s <- tf.sub1 (Kdiag (kern self) Xnew)
              (tf.reduce_sum_axis0 (tf.square w)) ;;
       var <- tf.add1 s (tf.reduce_sum_axis0 (tf.square intermediateA)) ;;
       Ok (DiagCov (tf.tile2 (tf.expand_dims1 var) 1 (tf.shape1 (Y self))))) ;;
  Ok (mean, var).

(** [build_common_terms], [build_likelihood] and [build_predict] as the
    methods are written, attribute access by attribute access. *)
Definition common_terms_method : Method common_terms :=
  Z0 <~ attr Z ;;
  let num_inducing := tf.shape0 Z0 in
  Y0 <~ attr Y ;; mf <~ attr mean_function ;; X0 <~ attr X ;;
  err <~ op (tf.sub Y0 (mf X0)) ;;
  k0 <~ attr kern ;; X1 <~ attr X ;;
  let Kdiag := Kdiag k0 X1 in
  k1 <~ attr kern ;; Z1 <~ attr Z ;; X2 <~ attr X ;;
  let Kuf := Kzx k1 Z1 X2 in
  k2 <~ attr kern ;; Z2 <~ attr Z ;;
  Kuu <~ op (tf.add (Kzz k2 Z2) (tf.scale (tf.eye num_inducing) jitter_level)) ;;
  Luu <~ op (tf.cholesky Kuu) ;;
  V <~ op (tf.matrix_triangular_solve Luu Kuf true) ;;
  let diagQff := tf.reduce_sum_axis0 (tf.square V) in
  d <~ op (tf.sub1 Kdiag diagQff) ;;
  lik0 <~ attr likelihood ;;
  let nu := tf.add_scalar d (variance lik0) in
  Vnu <~ op (tf.div_row V nu) ;;
  VnuVT <~ op (tf.matmul Vnu V false true) ;;
  B <~ op (tf.add (tf.eye num_inducing) VnuVT) ;;
  L <~ op (tf.cholesky B) ;;
  beta <~ op (tf.div err (tf.expand_dims1 nu)) ;;
  alpha <~ op (tf.matmul V beta false false) ;;
  gamma <~ op (tf.matrix_triangular_solve L alpha true) ;;
  mret (err, nu, Luu, L, alpha, beta, gamma).

Definition evidence : Method R :=
  t <~ common_terms_method ;;
  let '(err, nu, Luu, L, alpha, beta, gamma) := t in
  q <~ op (tf.div (tf.square err) (tf.expand_dims1 nu)) ;;
  let mahalanobisTerm :=
    -0.5 * tf.reduce_sum q + 0.5 * tf.reduce_sum (tf.square gamma) in
  nd <~ attr num_data ;;
  let constantTerm := -0.5 * INR nd * ln (2 * PI) in
  let logDeterminantTerm :=
    -0.5 * tf.reduce_sum1 (tf.log nu)
    - tf.reduce_sum1 (tf.log (tf.diag_part L)) in
  let logNormalizingTerm := constantTerm + logDeterminantTerm in
  nl <~ attr num_latent ;;
  mret (mahalanobisTerm + logNormalizingTerm * INR nl).

Definition predict (Xnew : mat) (full_cov : bool)
  : Method (mat * pred_var) :=
  t <~ common_terms_method ;;
  let '(_, _, Luu, L, _, _, gamma) := t in
  k0 <~ attr kern ;; Z0 <~ attr Z ;;
  let Kus := Kzx k0 Z0 Xnew in
  w <~ op (tf.matrix_triangular_solve Luu Kus true) ;;
  tmp <~ op (tf.matrix_triangular_solve (tf.transpose L) gamma false) ;;
  wTtmp <~ op (tf.matmul w tmp true false) ;;
  mf <~ attr mean_function ;;
  mean <~ op (tf.add wTtmp (mf Xnew)) ;;
  intermediateA <~ op (tf.matrix_triangular_solve L w true) ;;
  var <~
    (if full_cov then
       k1 <~ attr kern ;;
       wTw <~ op (tf.matmul w w true false) ;;
       s <~ op (tf.sub (K k1 Xnew) wTw) ;;
       aTa <~ op (tf.matmul intermediateA intermediateA true false) ;;
       var <~ op (tf.add s aTa) ;;
       Y0 <~ attr Y ;;
       mret (FullCov (tf.tile3 (tf.expand_dims2 var) 1 1 (tf.shape1 Y0)))
     else
       k1 <~ attr kern ;;
       s <~ op (tf.sub1 (Kdiag k1 Xnew) (tf.reduce_sum_axis0 (tf.square w))) ;;
       var <~ op (tf.add1 s (tf.reduce_sum_axis0 (tf.square intermediateA))) ;;
       Y0 <~ attr Y ;;
       mret (DiagCov (tf.tile2 (tf.expand_dims1 var) 1 (tf.shape1 Y0)))) ;;
  mret (mean, var).

End WithSettings.
End GPRFITC.

(** ** The formulas of the specification *)

Module Spec.
Section WithJitter.

Variable jitter : R.

(** Section 4.1: the two primitives. *)
Definition cholesky_lower (A : mat) : result mat := tf.cholesky A.
Definition triangular_solve (L B : mat) (lower : bool) : result mat :=
  tf.matrix_triangular_solve L B lower.

(** Section 3: sizes, noise, residual and the stabilised [Kzz]. *)
Definition N (m : GPModel) : nat := length (X m).
Definition Rout (m : GPModel) : nat := length (hd [] (Y m)).
Definition Mind (m : GPModel) : nat := length (Z m).
Definition sigma2 (m : GPModel) : R := variance (likelihood m).
Definition sigma (m : GPModel) : R := sqrt (sigma2 m).

Definition identity (n : nat) : mat := tf.eye n.
Definition smul (s : R) (A : mat) : mat := map (map (Rmult s)) A.
Definition sdiv (A : mat) (s : R) : mat := map (map (fun x => x / s)) A.
Definition squares (A : mat) : mat := map (map (fun x => x ^ 2)) A.
Definition mprod (A B : mat) : result mat := tf.matmul A B false false.
Definition colsum (A : mat) : vec := tf.reduce_sum_axis0 A.
Definition sum_log (u : vec) : R := vsum (map ln u).

(** A value repeated over the [r] output replicates. *)
Definition replicate2 (r : nat) (u : vec) : mat := map (fun x => repeat x r) u.
Definition replicate3 (r : nat) (A : mat) : tensor3 := map (replicate2 r) A.

Definition residual (m : GPModel) : result mat :=
  tf.sub (Y m) (mean_function m (X m)).

Definition stabilized_Kuu (m : GPModel) : result mat :=
  tf.add (Kzz (kern m) (Z m)) (smul jitter (identity (Mind m))).

(** Section 4.2, steps 1 to 4. *)
Definition sgpr_steps (m : GPModel) : result sgpr_terms :=
  err <- residual m ;;
  Kuu <- stabilized_Kuu m ;;
  L <- cholesky_lower Kuu ;;
  LinvKzx <- triangular_solve L (Kzx (kern m) (Z m) (X m)) true ;;
  let A := sdiv LinvKzx (sigma m) in
  AAt <- mprod A (tf.transpose A) ;;
  B <- tf.add AAt (identity (Mind m)) ;;
  LB <- cholesky_lower B ;;
  Aerr <- mprod A err ;;
  LBinvAerr <- triangular_solve LB Aerr true ;;
  let c := sdiv LBinvAerr (sigma m) in
  Ok {| t_err := err; t_L := L; t_A := A; t_AAT := AAt; t_B := B;
        t_LB := LB; t_c := c |}.

(** Section 4.2, step 5. *)
Definition sgpr_bound (m : GPModel) (t : sgpr_terms) : R :=
  - (1 / 2) * INR (N m) * INR (Rout m) * ln (2 * PI)
  - INR (Rout m) * sum_log (tf.diag_part (t_LB t))
  - (1 / 2) * INR (N m) * INR (Rout m) * ln (sigma2 m)
  - (1 / 2) * msum (squares (t_err t)) / sigma2 m
  + (1 / 2) * msum (squares (t_c t))
  - (1 / 2) * INR (Rout m) * vsum (Kdiag (kern m) (X m)) / sigma2 m
  + (1 / 2) * INR (Rout m) * vsum (tf.diag_part (t_AAT t)).

Definition sgpr_evidence (m : GPModel) : result R :=
  t <- sgpr_steps m ;;
  Ok (sgpr_bound m t).

(** Section 4.3. *)
Definition sgpr_predict (m : GPModel) (Xnew : mat) (full_cov : bool)
  : result (mat * pred_var) :=
  t <- sgpr_steps m ;;
  tmp1 <- triangular_solve (t_L t) (Kzx (kern m) (Z m) Xnew) true ;;
  tmp2 <- triangular_solve (t_LB t) tmp1 true ;;
  tmp2tc <- mprod (tf.transpose tmp2) (t_c t) ;;
  mean <- tf.add tmp2tc (mean_function m Xnew) ;;
  if full_cov then
    t2 <- mprod (tf.transpose tmp2) tmp2 ;;
    s <- tf.add (K (kern m) Xnew) t2 ;;
    t1 <- mprod (tf.transpose tmp1) tmp1 ;;
    var <- tf.sub s t1 ;;
    Ok (mean, FullCov (replicate3 (Rout m) var))
  else
    s <- tf.add1 (Kdiag (kern m) Xnew) (colsum (squares tmp2)) ;;
    var <- tf.sub1 s (colsum (squares tmp1)) ;;
    Ok (mean, DiagCov (replicate2 (Rout m) var)).

(** Section 4.4: [Luu], [V], [nu], [B], [L] and [gamma]. *)
Definition fitc_nu (m : GPModel) (V : mat) : result vec :=
  d <- tf.sub1 (Kdiag (kern m) (X m)) (colsum (squares V)) ;;
  Ok (map (fun x => x + sigma2 m) d).

Definition fitc_B (m : GPModel) (V : mat) (nu : vec) : result mat :=
  Vnu <- tf.div_row V nu ;;
  VnuVt <- mprod Vnu (tf.transpose V) ;;
  tf.add (identity (Mind m)) VnuVt.

Definition fitc_terms (m : GPModel) : result (mat * vec * mat * mat * mat) :=
  err <- residual m ;;
  Kuu <- stabilized_Kuu m ;;
  Luu <- cholesky_lower Kuu ;;
  V <- triangular_solve Luu (Kzx (kern m) (Z m) (X m)) true ;;
  nu <- fitc_nu m V ;;
  B <- fitc_B m V nu ;;
  L <- cholesky_lower B ;;
  beta <- tf.div err (tf.expand_dims1 nu) ;;
  alpha <- mprod V beta ;;
  gamma <- triangular_solve L alpha true ;;
  Ok (err, nu, Luu, L, gamma).

(** Section 4.5. *)
Definition fitc_evidence (m : GPModel) : result R :=
  t <- fitc_terms m ;;
  let '(err, nu, Luu, L, gamma) := t in
  e2nu <- tf.div (squares err) (tf.expand_dims1 nu) ;;
  let mahalanobis := - (1 / 2) * msum e2nu + (1 / 2) * msum (squares gamma) in
  let log_normalizer :=
    - (1 / 2) * INR (N m) * ln (2 * PI) - (1 / 2) * sum_log nu
    - sum_log (tf.diag_part L) in
  Ok (mahalanobis + INR (Rout m) * log_normalizer).

(** Section 4.6, from [Luu], [L] and [gamma] alone. *)
Definition fitc_predict_from (m : GPModel) (Xnew : mat) (full_cov : bool)
  (Luu L gamma : mat) : result (mat * pred_var) :=
  w <- triangular_solve Luu (Kzx (kern m) (Z m) Xnew) true ;;
  tmp <- triangular_solve (tf.transpose L) gamma false ;;
  wttmp <- mprod (tf.transpose w) tmp ;;
  mean <- tf.add wttmp (mean_function m Xnew) ;;
  intermediateA <- triangular_solve L w true ;;
  if full_cov then
    wtw <- mprod (tf.transpose w) w ;;
    s <- tf.sub (K (kern m) Xnew) wtw ;;
    ata <- mprod (tf.transpose intermediateA) intermediateA ;;
    var <- tf.add s ata ;;
    Ok (mean, FullCov (replicate3 (Rout m) var))
  else
    s <- tf.sub1 (Kdiag (kern m) Xnew) (colsum (squares w)) ;;
    var <- tf.add1 s (colsum (squares intermediateA)) ;;
    Ok (mean, DiagCov (replicate2 (Rout m) var)).

End WithJitter.
End Spec.

(** ** Valid model states *)

(** Section 3: [X] is [n] by [d], [Y] is [n] by [r], [Z] is [m] by [d], the
    noise variance is positive, and the sizes recorded at construction are
    those of the data. *)
Record valid_state (self : GPModel) (n d r m : nat) : Prop := {
  valid_X : is_mat n d (X self);
  valid_Y : is_mat n r (Y self);
  valid_Z : is_mat m d (Z self);
  valid_noise : 0 < variance (likelihood self);
  valid_num_data : num_data self = tf.shape0 (X self);
  valid_num_latent : num_latent self = tf.shape1 (Y self)
}.

(** The five matrices of the common terms that the specification names. *)
Definition named_terms (t : GPRFITC.common_terms) : mat * vec * mat * mat * mat :=
  let '(err, nu, Luu, L, alpha, beta, gamma) := t in (err, nu, Luu, L, gamma).

(** The kernel returns matrices of the sizes of its arguments, and its
    diagonal method is the diagonal of its full method. *)
Record valid_kern_at (k : Kern) (Zs Xs : mat) : Prop := {
  kern_Kzx : is_mat (length Zs) (length Xs) (Kzx k Zs Xs);
  kern_K : is_mat (length Xs) (length Xs) (K k Xs);
  kern_Kdiag : tf.diag_part (K k Xs) = Kdiag k Xs
}.

(** The diagonal [v[i][i][:]] of a rank-3 variance. *)
Definition diag3 (T : tensor3) : mat :=
  map (fun i => nth i (nth i T []) []) (seq 0 (length T)).

Definition diag_of_var (v : pred_var) : pred_var :=
  match v with
  | FullCov T => DiagCov (diag3 T)
  | DiagCov A => DiagCov A
  end.

(** The same model with other values for the two sizes that the
    constructor records. *)
Definition set_sizes (self : GPModel) (nd nl : nat) : GPModel :=
  {| X := X self; Y := Y self; kern := kern self; likelihood := likelihood self;
     mean_function := mean_function self; Z := Z self;
     num_data := nd; num_latent := nl |}.

Definition set_Y (self : GPModel) (Y' : mat) : GPModel :=
  {| X := X self; Y := Y'; kern := kern self; likelihood := likelihood self;
     mean_function := mean_function self; Z := Z self;
     num_data := num_data self; num_latent := num_latent self |}.

(** A method that is not in [sgpr.py], for comparison: it returns
    [num_data] and counts its calls in that attribute. *)
Definition counting_method : Method nat :=
  nd <~ attr num_data ;;
  nl <~ attr num_latent ;;
  _ <~ set_attr (fun s => set_sizes s (S nd) nl) ;;
  mret nd.

(** ** Example models *)

Module Examples.

(** A mean function that is zero, one column wide. *)
Definition zero_mean (A : mat) : mat := map (fun _ => [0]) A.

(** The linear kernel [K(A, B) = A B^T]. *)
Definition linear_kern : Kern :=
  {| K := fun A => map (fun a => map (fun b => dot a b) A) A;
     Kdiag := fun A => map (fun a => dot a a) A;
     Kzx := fun Zs Xs => map (fun z => map (fun x => dot z x) Xs) Zs;
     Kzz := fun Zs => map (fun z => map (fun z' => dot z z') Zs) Zs |}.

(** A constant kernel: every entry is [c], whatever the points are. *)
Definition const_kern (c : R) : Kern :=
  {| K := fun A => map (fun _ => map (fun _ => c) A) A;
     Kdiag := fun A => map (fun _ => c) A;
     Kzx := fun Zs Xs => map (fun _ => map (fun _ => c) Xs) Zs;
     Kzz := fun Zs => map (fun _ => map (fun _ => c) Zs) Zs |}.

Definition unit_noise : Gaussian := {| variance := 1 |}.

(** Two points on a line, one inducing point, one output. *)
Definition sgpr_line : GPModel :=
  SGPR.init unit_noise [[1]; [1 / 2]] [[1]; [1]] linear_kern [[2]] zero_mean.

Definition fitc_line : GPModel :=
  GPRFITC.init unit_noise [[1]; [1 / 2]] [[1]; [1]] linear_kern [[2]] zero_mean.

(** [X] has two columns and [Z] has one. *)
Definition sgpr_columns : GPModel :=
  SGPR.init unit_noise [[1; 2]; [3; 4]] [[1]; [2]] (const_kern 1) [[0]] zero_mean.

End Examples.

(** ** Notions for the properties of whole models *)

Definition set_mean_function (self : GPModel) (mf : mat -> mat) : GPModel :=
  {| X := X self; Y := Y self; kern := kern self; likelihood := likelihood self;
     mean_function := mf; Z := Z self;
     num_data := num_data self; num_latent := num_latent self |}.

Definition set_kern (self : GPModel) (k : Kern) : GPModel :=
  {| X := X self; Y := Y self; kern := k; likelihood := likelihood self;
     mean_function := mean_function self; Z := Z self;
     num_data := num_data self; num_latent := num_latent self |}.

(** The same kernel with another method [K]. *)
Definition set_K (k : Kern) (K' : mat -> mat) : Kern :=
  {| K := K'; Kdiag := Kdiag k; Kzx := Kzx k; Kzz := Kzz k |}.

(** Every entry is zero. *)
Definition all_zero (A : mat) : Prop := Forall (Forall (fun x => x = 0)) A.

(** [A[i][j] = A[j][i]], and the same for the leading two axes of a rank-3
    tensor. *)
Definition symmetric (A : mat) : Prop :=
  forall i j : nat, nth j (nth i A []) 0 = nth i (nth j A []) 0.

Definition symmetric3 (T : tensor3) : Prop :=
  forall i j : nat, nth j (nth i T []) [] = nth i (nth j T []) [].

(** The product [T^T T] of a matrix of [s] columns, entry by entry. *)
Definition gram (s : nat) (T : mat) : mat :=
  map (fun i => map (fun j => dot (col i T) (col j T)) (seq 0 s)) (seq 0 s).

(** The shape of a rank-3 tensor. *)
Definition is_tensor3 (a b c : nat) (T : tensor3) : Prop :=
  length T = a /\ Forall (is_mat b c) T.

(** The combination [a A + b B] of two vectors and of two matrices. *)
Definition vlin (a b : R) (u v : vec) : vec :=
  zip_with (fun x y => a * x + b * y) u v.

Definition lincomb (a b : R) (A B : mat) : mat := zip_with (vlin a b) A B.

(** Three outcomes: when the first two are values, so is the third, and the
    three values are related by [P]. *)
Definition rel3 {A : Type} (P : A -> A -> A -> Prop) (r1 r2 r3 : result A)
  : Prop :=
  match r1, r2 with
  | Ok x1, Ok x2 => exists x3, r3 = Ok x3 /\ P x1 x2 x3
  | _, _ => True
  end.

(** The third matrix is the combination of the first two, which have the
    same shape. *)
Definition lin3 (a b : R) (A1 A2 A3 : mat) : Prop :=
  same_shape A1 A2 /\ A3 = lincomb a b A1 A2.

(** The variance has the form the flag asks for, and the shape of that
    form for [s] query points and [r] outputs. *)
Definition var_has_shape (full_cov : bool) (s r : nat) (v : pred_var) : Prop :=
  match v with
  | FullCov T => full_cov = true /\ is_tensor3 s s r T
  | DiagCov A => full_cov = false /\ is_mat s r A
  end.

(** One of the two Cholesky factorisations of [SGPR] does not succeed, all
    the steps before it having succeeded. *)
Definition sgpr_factorisation_fails (j : R) (self : GPModel) : Prop :=
  exists err Kuu,
    tf.sub (Y self) (mean_function self (X self)) = Ok err /\
    tf.add (Kzz (kern self) (Z self))
      (tf.scale (tf.eye (tf.shape0 (Z self))) j) = Ok Kuu /\
    (tf.cholesky Kuu = Err NumericalError \/
     exists L LinvKuf AAT B,
       tf.cholesky Kuu = Ok L /\
       tf.matrix_triangular_solve L (Kzx (kern self) (Z self) (X self)) true
         = Ok LinvKuf /\
       tf.matmul (tf.div_scalar LinvKuf (sqrt (variance (likelihood self))))
         (tf.div_scalar LinvKuf (sqrt (variance (likelihood self))))
         false true = Ok AAT /\
       tf.add AAT (tf.eye (tf.shape0 (Z self))) = Ok B /\
       tf.cholesky B = Err NumericalError).

(** One of the two Cholesky factorisations of [GPRFITC.build_common_terms]
    does not succeed, all the steps before it having succeeded: the operands
    are those the method computes, [V] from [Luu] and [Kuf], [nu] from [V],
    [B] from [V] and [nu]. *)
Definition fitc_factorisation_fails (j : R) (self : GPModel) : Prop :=
  exists err Kuu,
    tf.sub (Y self) (mean_function self (X self)) = Ok err /\
    tf.add (Kzz (kern self) (Z self))
      (tf.scale (tf.eye (tf.shape0 (Z self))) j) = Ok Kuu /\
    (tf.cholesky Kuu = Err NumericalError \/
     exists Luu V d Vnu VnuVT B,
       tf.cholesky Kuu = Ok Luu /\
       tf.matrix_triangular_solve Luu (Kzx (kern self) (Z self) (X self)) true
         = Ok V /\
       tf.sub1 (Kdiag (kern self) (X self))
         (tf.reduce_sum_axis0 (tf.square V)) = Ok d /\
       tf.div_row V (tf.add_scalar d (variance (likelihood self))) = Ok Vnu /\
       tf.matmul Vnu V false true = Ok VnuVT /\
       tf.add (tf.eye (tf.shape0 (Z self))) VnuVT = Ok B /\
       tf.cholesky B = Err NumericalError).

(** The sizes of the data and of what the kernel and the mean function
    return, for [n] data points, [r] outputs, [m] inducing points and [s]
    query points. *)
Record valid_shapes (self : GPModel) (Xnew : mat) (n r m s : nat) : Prop := {
  shapes_Y : is_mat n r (Y self);
  shapes_mean : is_mat n r (mean_function self (X self));
  shapes_mean_new : is_mat s r (mean_function self Xnew);
  shapes_Kzx : is_mat m n (Kzx (kern self) (Z self) (X self));
  shapes_Kzs : is_mat m s (Kzx (kern self) (Z self) Xnew);
  shapes_Kdiag : length (Kdiag (kern self) (X self)) = n;
  shapes_K : is_mat s s (K (kern self) Xnew);
  shapes_Kdiag_new : length (Kdiag (kern self) Xnew) = s;
  shapes_n : (0 < n)%nat;
  shapes_m : (0 < m)%nat;
  shapes_s : (0 < s)%nat
}.

(** * Properties *)

(** ** The error monad *)

Lemma bind_ext {A B : Type} (r : result A) (k1 k2 : A -> result B) :
  (forall a, k1 a = k2 a) -> bind r k1 = bind r k2.
Proof. intros H. destruct r; simpl; [apply H | reflexivity]. Qed.

Lemma bind_assoc {A B C : Type} (r : result A) (k : A -> result B)
  (h : B -> result C) :
  bind (bind r k) h = bind r (fun a => bind (k a) h).
Proof. destruct r; reflexivity. Qed.

Lemma bind_Ok_inv {A B : Type} (r : result A) (k : A -> result B) (b : B) :
  bind r k = Ok b -> exists a, r = Ok a /\ k a = Ok b.
Proof. destruct r; simpl; intros H; [eauto | discriminate]. Qed.

(** ** The formulas of the specification in terms of the operations *)

Lemma smul_scale (s : R) (A : mat) : Spec.smul s A = tf.scale A s.
Proof.
  unfold Spec.smul, tf.scale. apply map_ext. intros r.
  apply map_ext. intros x. apply Rmult_comm.
Qed.

Lemma squares_square (A : mat) : Spec.squares A = tf.square A.
Proof.
  unfold Spec.squares, tf.square. apply map_ext. intros r.
  apply map_ext. intros x. simpl. ring.
Qed.

Lemma mprod_transpose_r (A B : mat) :
  Spec.mprod A (tf.transpose B) = tf.matmul A B false true.
Proof. reflexivity. Qed.

Lemma mprod_transpose_l (A B : mat) :
  Spec.mprod (tf.transpose A) B = tf.matmul A B true false.
Proof. reflexivity. Qed.

Lemma spec_sgpr_steps (j : R) (self : GPModel) :
  Spec.sgpr_steps j self = SGPR.likelihood_terms j self.
Proof.
  unfold Spec.sgpr_steps, SGPR.likelihood_terms, Spec.residual,
    Spec.stabilized_Kuu, Spec.cholesky_lower, Spec.triangular_solve,
    Spec.identity, Spec.Mind, Spec.sigma, Spec.sigma2, tf.shape0.
  rewrite smul_scale.
  repeat (apply bind_ext; intro).
  reflexivity.
Qed.

Lemma build_likelihood_terms (j : R) (self : GPModel) :
  SGPR.build_likelihood j self =
  t <- SGPR.likelihood_terms j self ;; Ok (SGPR.bound_of_terms self t).
Proof.
  unfold SGPR.build_likelihood, SGPR.likelihood_terms.
  repeat (rewrite bind_assoc; apply bind_ext; intro).
  reflexivity.
Qed.

Lemma build_predict_terms (j : R) (self : GPModel) (Xnew : mat) (fc : bool) :
  SGPR.build_predict j self Xnew fc =
  t <- SGPR.predict_terms j self ;; SGPR.predict_of_terms self Xnew fc t.
Proof.
  unfold SGPR.build_predict, SGPR.predict_terms, SGPR.predict_of_terms.
  repeat (rewrite bind_assoc; apply bind_ext; intro).
  reflexivity.
Qed.

Lemma sgpr_bound_of_terms (self : GPModel) (t : sgpr_terms) :
  length (X self) = length (Y self) ->
  0 < variance (likelihood self) ->
  SGPR.bound_of_terms self t = Spec.sgpr_bound self t.
Proof.
  intros HN Hv.
  unfold SGPR.bound_of_terms, Spec.sgpr_bound, Spec.N, Spec.Rout, Spec.sigma2,
    Spec.sum_log, tf.reduce_sum, tf.reduce_sum1, tf.log, tf.shape0, tf.shape1.
  rewrite !squares_square, HN.
  replace (-0.5) with (- (1 / 2)) by lra.
  replace 0.5 with (1 / 2) by lra.
  field. lra.
Qed.

(** ** Lists and shapes *)

Lemma zip_with_length {A B C : Type} (f : A -> B -> C) (u : list A) (v : list B) :
  length (zip_with f u v) = Nat.min (length u) (length v).
Proof.
  revert v. induction u as [|a u IH]; intros [|b v]; simpl; auto.
Qed.

Lemma zip_with_nth {A B C : Type} (f : A -> B -> C) (u : list A) (v : list B)
  (i : nat) (da : A) (db : B) (dc : C) :
  (i < length u)%nat -> (i < length v)%nat ->
  nth i (zip_with f u v) dc = f (nth i u da) (nth i v db).
Proof.
  revert v i. induction u as [|a u IH]; intros [|b v] [|i]; simpl; intros Hu Hv;
    try lia; auto.
  apply IH; lia.
Qed.

Lemma zip_with_diag {A C : Type} (f : A -> A -> C) (u : list A) :
  zip_with f u u = map (fun x => f x x) u.
Proof. induction u as [|a u IH]; simpl; congruence. Qed.

Lemma zip_with_map_length {A B C : Type} (f g : A -> B -> list C)
  (u : list A) (v : list B) :
  (forall a b, length (f a b) = length (g a b)) ->
  map (@length C) (zip_with f u v) = map (@length C) (zip_with g u v).
Proof.
  intros H. revert v. induction u as [|a u IH]; intros [|b v]; simpl; auto.
  rewrite H, IH. reflexivity.
Qed.

Lemma imap_length {A B : Type} (f : nat -> A -> B) (l : list A) :
  length (tf.imap f l) = length l.
Proof.
  unfold tf.imap. rewrite length_map, length_combine, length_seq. lia.
Qed.

Lemma same_shape_length (A B : mat) : same_shape A B -> length A = length B.
Proof.
  unfold same_shape. intros H. apply (f_equal (@length nat)) in H.
  rewrite !length_map in H. exact H.
Qed.

Lemma is_mat_same_shape (n d : nat) (A B : mat) :
  is_mat n d A -> same_shape B A -> is_mat n d B.
Proof.
  intros [Hn Hd] HS. split.
  - rewrite (same_shape_length _ _ HS). exact Hn.
  - clear Hn. unfold same_shape in HS. revert B HS. induction Hd as [|r A Hr Hd IH]; intros [|s B] HS;
      simpl in HS; try discriminate; constructor.
    + injection HS as H1 _. lia.
    + apply IH. injection HS as _ H2. exact H2.
Qed.

Lemma same_shape_refl (A : mat) : same_shape A A.
Proof. reflexivity. Qed.

Lemma same_shape_sym (A B : mat) : same_shape A B -> same_shape B A.
Proof. unfold same_shape. intros H. symmetry. exact H. Qed.

Lemma same_shape_trans (A B C : mat) :
  same_shape A B -> same_shape B C -> same_shape A C.
Proof. unfold same_shape. intros H1 H2. rewrite H1. exact H2. Qed.


Lemma same_shape_shape1 (A B : mat) :
  same_shape A B -> tf.shape1 A = tf.shape1 B.
Proof.
  unfold same_shape, tf.shape1. destruct A, B; simpl; intros H;
    try discriminate; auto.
  injection H as H _. exact H.
Qed.

Lemma same_shape_map (f g : R -> R) (A : mat) :
  same_shape (map (map f) A) (map (map g) A).
Proof.
  unfold same_shape. rewrite !map_map. apply map_ext. intros r.
  rewrite !length_map. reflexivity.
Qed.

Lemma same_shape_map_l (f : R -> R) (A B : mat) :
  same_shape A B -> same_shape (map (map f) A) B.
Proof.
  unfold same_shape. intros H. rewrite <- H, map_map. apply map_ext.
  intros r. apply length_map.
Qed.

(** The solution of a triangular system has the shape of the right-hand
    side. *)
Lemma solve_lower_shape (L B X : mat) :
  map (@length R) (tf.solve_lower L B X) =
  map (@length R) X ++ map (@length R) (firstn (length L) B).
Proof.
  revert B X. induction L as [|l L IH]; intros B X; simpl.
  - rewrite app_nil_r. reflexivity.
  - destruct B as [|b B]; simpl.
    + rewrite app_nil_r. reflexivity.
    + rewrite IH, map_app, <- app_assoc. simpl. rewrite imap_length.
      reflexivity.
Qed.

Lemma solve_upper_shape (i : nat) (U B : mat) :
  map (@length R) (tf.solve_upper i U B) =
  map (@length R) (firstn (length U) B).
Proof.
  revert i B. induction U as [|u U IH]; intros i B; simpl; auto.
  destruct B as [|b B]; simpl; auto.
  rewrite imap_length, IH. reflexivity.
Qed.

Lemma triangular_solve_shape (L B X : mat) (lower : bool) :
  tf.matrix_triangular_solve L B lower = Ok X -> same_shape X B.
Proof.
  unfold tf.matrix_triangular_solve, same_shape, tf.shape0.
  destruct (tf.is_square L); simpl; [|discriminate].
  destruct (Nat.eqb_spec (length L) (length B)) as [E|]; [|discriminate].
  intros H. injection H as <-.
  destruct lower.
  - rewrite solve_lower_shape, E, firstn_all. reflexivity.
  - rewrite solve_upper_shape, E, firstn_all. reflexivity.
Qed.

(** Whether a triangular system is accepted depends on the shape of the
    right-hand side only. *)
Lemma triangular_solve_congr (L B B' : mat) (lower : bool) :
  same_shape B B' ->
  result_rel same_shape (tf.matrix_triangular_solve L B lower)
    (tf.matrix_triangular_solve L B' lower).
Proof.
  intros HS. unfold result_rel.
  destruct (tf.matrix_triangular_solve L B lower) as [X|e] eqn:E1;
    destruct (tf.matrix_triangular_solve L B' lower) as [X'|e'] eqn:E2.
  - apply triangular_solve_shape in E1, E2.
    eapply same_shape_trans; [exact E1|].
    eapply same_shape_trans; [exact HS|]. apply same_shape_sym. exact E2.
  - unfold tf.matrix_triangular_solve, tf.shape0 in *.
    rewrite <- (same_shape_length _ _ HS) in E2.
    destruct (tf.is_square L && Nat.eqb (length L) (length B)); discriminate.
  - unfold tf.matrix_triangular_solve, tf.shape0 in *.
    rewrite <- (same_shape_length _ _ HS) in E2.
    destruct (tf.is_square L && Nat.eqb (length L) (length B)); discriminate.
  - unfold tf.matrix_triangular_solve in *.
    destruct (tf.is_square L && Nat.eqb (tf.shape0 L) (tf.shape0 B));
      destruct (tf.is_square L && Nat.eqb (tf.shape0 L) (tf.shape0 B'));
      congruence.
Qed.

Lemma result_rel_bind {A B : Type} (P : A -> A -> Prop) (Q : B -> B -> Prop)
  (r r' : result A) (k k' : A -> result B) :
  result_rel P r r' ->
  (forall a a', P a a' -> result_rel Q (k a) (k' a')) ->
  result_rel Q (bind r k) (bind r' k').
Proof.
  unfold result_rel. destruct r, r'; simpl; intros H Hk; try contradiction; auto.
  apply Hk. exact H.
Qed.

Lemma result_rel_refl {A : Type} (r : result A) : result_rel eq r r.
Proof. destruct r; simpl; reflexivity. Qed.

Lemma result_rel_same {A B : Type} (Q : B -> B -> Prop) (r : result A)
  (k k' : A -> result B) :
  (forall a, result_rel Q (k a) (k' a)) ->
  result_rel Q (bind r k) (bind r k').
Proof. intros H. destruct r; simpl; [apply H | reflexivity]. Qed.

(** *** Broadcasting *)

Lemma stretch_length {A : Type} (n : nat) (l : list A) :
  length (tf.stretch n l) = if Nat.eqb (length l) 1 then n else length l.
Proof.
  destruct l as [|x [|y l]]; simpl; auto. apply repeat_length.
Qed.

Lemma stretch_id {A : Type} (n : nat) (l : list A) :
  length l = n -> tf.stretch n l = l.
Proof.
  destruct l as [|x [|y l]]; simpl; auto. intros <-. reflexivity.
Qed.

Lemma bdim_same (n : nat) : tf.bdim n n = Some n.
Proof. unfold tf.bdim. rewrite Nat.eqb_refl. reflexivity. Qed.

Lemma stretch_same_shape (n : nat) (A A' : mat) :
  same_shape A A' -> same_shape (tf.stretch n A) (tf.stretch n A').
Proof.
  unfold same_shape.
  destruct A as [|x [|y A]], A' as [|x' [|y' A']]; simpl; intros H;
    try discriminate; auto.
  injection H as H. clear - H. induction n; simpl; congruence.
Qed.

Lemma zip_rows_shape (f g : R -> R -> R) (d : nat) (A A' B : mat) :
  same_shape A A' ->
  same_shape
    (zip_with (fun ra rb => zip_with f (tf.stretch d ra) (tf.stretch d rb)) A B)
    (zip_with (fun ra rb => zip_with g (tf.stretch d ra) (tf.stretch d rb)) A' B).
Proof.
  unfold same_shape. revert A' B.
  induction A as [|a A IH]; intros [|a' A'] B H; simpl in H; try discriminate;
    auto.
  destruct B as [|b B]; simpl; auto.
  injection H as Ha HA. f_equal; [|apply IH; exact HA].
  rewrite !zip_with_length, !stretch_length, Ha. reflexivity.
Qed.

(** An element-wise operation is accepted, and shapes its result, by the
    shapes of its operands only. *)
Lemma bcast2_congr (f g : R -> R -> R) (A A' B : mat) :
  same_shape A A' ->
  result_rel same_shape (tf.bcast2 f A B) (tf.bcast2 g A' B).
Proof.
  intros HS. unfold tf.bcast2, tf.shape0.
  rewrite <- (same_shape_length _ _ HS), <- (same_shape_shape1 _ _ HS).
  destruct (tf.bdim (length A) (length B)) as [n|]; simpl; [|reflexivity].
  destruct (tf.bdim (tf.shape1 A) (tf.shape1 B)) as [d|]; simpl; [|reflexivity].
  apply zip_rows_shape. apply stretch_same_shape. exact HS.
Qed.

Lemma zip_rows_same (f : R -> R -> R) (d : nat) (A B : mat) :
  Forall (fun r => length r = d) A -> Forall (fun r => length r = d) B ->
  zip_with (fun ra rb => zip_with f (tf.stretch d ra) (tf.stretch d rb)) A B =
  zip_with (zip_with f) A B.
Proof.
  intros FA. revert B. induction FA as [|a A Ha FA IH]; intros B FB; simpl; auto.
  destruct FB as [|b B Hb FB]; simpl; auto.
  rewrite !stretch_id by assumption. f_equal. apply IH. exact FB.
Qed.

Lemma bcast2_same (f : R -> R -> R) (n d : nat) (A B : mat) :
  is_mat n d A -> is_mat n d B ->
  tf.bcast2 f A B = Ok (zip_with (zip_with f) A B).
Proof.
  intros [HA FA] [HB FB]. unfold tf.bcast2, tf.shape0.
  rewrite HA, HB, bdim_same, !stretch_id by assumption.
  destruct A as [|a A], B as [|b B]; try (simpl in *; lia).
  - reflexivity.
  - inversion FA as [|? ? Ha FA']; subst. inversion FB as [|? ? Hb FB']; subst.
    unfold tf.shape1, hd. rewrite Hb, bdim_same.
    rewrite (zip_rows_same f (length a) (a :: A) (b :: B)) by assumption.
    reflexivity.
Qed.

Lemma bcast1_same (f : R -> R -> R) (u v : vec) :
  length u = length v -> tf.bcast1 f u v = Ok (zip_with f u v).
Proof.
  intros E. unfold tf.bcast1. rewrite E, bdim_same, !stretch_id by auto.
  reflexivity.
Qed.

(** *** Matrix products *)

Lemma mul_shape (A B : mat) :
  map (@length R) (tf.mul A B) = map (fun _ => tf.shape1 B) A.
Proof.
  unfold tf.mul. rewrite map_map. apply map_ext. intros r.
  rewrite length_map, length_seq. reflexivity.
Qed.

Lemma matmul_congr_r (A B B' : mat) (ta : bool) :
  same_shape B B' ->
  result_rel same_shape (tf.matmul A B ta false) (tf.matmul A B' ta false).
Proof.
  intros HS. unfold tf.matmul, tf.shape0.
  rewrite <- (same_shape_length _ _ HS).
  destruct (Nat.eqb _ (length B)); simpl; [|reflexivity].
  unfold same_shape. rewrite !mul_shape, (same_shape_shape1 _ _ HS).
  reflexivity.
Qed.

Lemma same_shape_map2 (f g : R -> R) (A B : mat) :
  same_shape A B -> same_shape (map (map f) A) (map (map g) B).
Proof.
  unfold same_shape. intros H. rewrite !map_map.
  rewrite (map_ext (fun r => length (map f r)) (@length R))
    by (intros; apply length_map).
  rewrite (map_ext (fun r => length (map g r)) (@length R))
    by (intros; apply length_map).
  exact H.
Qed.

Lemma nth_map_seq {A : Type} (f : nat -> A) (n i : nat) (d : A) :
  (i < n)%nat -> nth i (map f (seq 0 n)) d = f i.
Proof.
  intros H. rewrite (nth_indep _ d (f 0%nat)) by (rewrite length_map, length_seq; lia).
  rewrite map_nth, seq_nth by lia. reflexivity.
Qed.

Lemma zip_with_map {A B C D : Type} (f : B -> C -> D) (g : A -> B) (h : A -> C)
  (l : list A) :
  zip_with f (map g l) (map h l) = map (fun x => f (g x) (h x)) l.
Proof. induction l as [|a l IH]; simpl; congruence. Qed.

Lemma shape1_is_mat (n d : nat) (A : mat) :
  is_mat n d A -> (0 < n)%nat -> tf.shape1 A = d.
Proof.
  intros [Hn F] Hpos. unfold tf.shape1.
  destruct F; simpl in *; [lia | assumption].
Qed.

Lemma is_mat_row (n d : nat) (A : mat) (i : nat) :
  is_mat n d A -> (i < n)%nat -> length (nth i A []) = d.
Proof.
  intros [Hn F] Hi. rewrite Forall_forall in F. apply F, nth_In. lia.
Qed.

Lemma nth_map_square (r : vec) (j : nat) :
  nth j (map (fun x => x * x) r) 0 = nth j r 0 * nth j r 0.
Proof.
  revert j. induction r as [|x r IH]; intros [|j]; simpl; auto; ring.
Qed.

(** The product [T^T T] of a matrix with itself. *)
Lemma matmul_gram (m s : nat) (T : mat) :
  is_mat m s T -> (0 < m)%nat -> (0 < s)%nat ->
  tf.matmul T T true false =
  Ok (map (fun i => map (fun j => dot (col i T) (col j T)) (seq 0 s)) (seq 0 s)).
Proof.
  intros HT Hm Hs. unfold tf.matmul, tf.transpose.
  rewrite (shape1_is_mat _ _ _ HT Hm).
  assert (E : tf.shape1 (map (fun j => col j T) (seq 0 s)) = tf.shape0 T).
  { unfold tf.shape1, tf.shape0. destruct s; [lia|]. simpl.
    unfold col. apply length_map. }
  rewrite E, Nat.eqb_refl. f_equal.
  unfold tf.mul. rewrite (shape1_is_mat _ _ _ HT Hm), map_map. reflexivity.
Qed.

Lemma is_mat_tabulate (s : nat) (g : nat -> nat -> R) :
  is_mat s s (map (fun i => map (fun j => g i j) (seq 0 s)) (seq 0 s)).
Proof.
  split.
  - rewrite length_map, length_seq. reflexivity.
  - rewrite Forall_forall. intros r Hr. apply in_map_iff in Hr.
    destruct Hr as [i [<- _]]. rewrite length_map, length_seq. reflexivity.
Qed.

Lemma diag_part_tabulate (s : nat) (g : nat -> nat -> R) :
  tf.diag_part (map (fun i => map (fun j => g i j) (seq 0 s)) (seq 0 s)) =
  map (fun i => g i i) (seq 0 s).
Proof.
  unfold tf.diag_part, tf.shape0. rewrite length_map, length_seq.
  apply map_ext_in. intros i Hi. apply in_seq in Hi.
  rewrite (nth_map_seq (fun i => map (fun j => g i j) (seq 0 s))) by lia.
  apply nth_map_seq. lia.
Qed.

Lemma colsum_square (m s : nat) (T : mat) :
  is_mat m s T -> (0 < m)%nat ->
  tf.reduce_sum_axis0 (tf.square T) = map (fun i => dot (col i T) (col i T)) (seq 0 s).
Proof.
  intros HT Hm. unfold tf.reduce_sum_axis0.
  assert (E : tf.shape1 (tf.square T) = s).
  { rewrite <- (shape1_is_mat _ _ _ HT Hm). apply same_shape_shape1.
    unfold tf.square. apply same_shape_map_l, same_shape_refl. }
  rewrite E. apply map_ext. intros j.
  unfold dot. rewrite zip_with_diag. f_equal.
  unfold col, tf.square. rewrite !map_map. apply map_ext. intros r.
  apply nth_map_square.
Qed.

Lemma gram_diag (m s : nat) (T G : mat) :
  is_mat m s T -> (0 < m)%nat -> (0 < s)%nat ->
  tf.matmul T T true false = Ok G ->
  is_mat s s G /\ tf.diag_part G = tf.reduce_sum_axis0 (tf.square T).
Proof.
  intros HT Hm Hs HG. rewrite (matmul_gram m s T HT Hm Hs) in HG.
  injection HG as <-. split.
  - apply (is_mat_tabulate s (fun i j => dot (col i T) (col j T))).
  - rewrite (colsum_square m s T HT Hm).
    apply (diag_part_tabulate s (fun i j => dot (col i T) (col j T))).
Qed.

Lemma is_mat_zip (f : R -> R -> R) (n d : nat) (A B : mat) :
  is_mat n d A -> is_mat n d B -> is_mat n d (zip_with (zip_with f) A B).
Proof.
  intros [HA FA] [HB FB]. split.
  - rewrite zip_with_length. lia.
  - clear HA HB. revert B FB. induction FA as [|a A Ha FA IH]; intros B FB;
      simpl; [constructor|].
    destruct FB as [|b B Hb FB]; constructor.
    + rewrite zip_with_length. lia.
    + apply IH. exact FB.
Qed.

Lemma diag_part_zip (f : R -> R -> R) (s : nat) (A B : mat) :
  is_mat s s A -> is_mat s s B ->
  tf.diag_part (zip_with (zip_with f) A B) =
  zip_with f (tf.diag_part A) (tf.diag_part B).
Proof.
  intros HA HB. unfold tf.diag_part, tf.shape0.
  destruct HA as [LA FA], HB as [LB FB].
  rewrite zip_with_length, LA, LB, Nat.min_id, zip_with_map.
  apply map_ext_in. intros i Hi. apply in_seq in Hi.
  rewrite (zip_with_nth (zip_with f) A B i [] [] []) by lia.
  apply zip_with_nth.
  - rewrite (is_mat_row s s A i (conj LA FA)) by lia. lia.
  - rewrite (is_mat_row s s B i (conj LB FB)) by lia. lia.
Qed.

(** *** Tiling *)

Lemma tile_axis_1 {A : Type} (l : list A) : tf.tile_axis 1 l = l.
Proof. unfold tf.tile_axis. simpl. apply app_nil_r. Qed.

Lemma tile_axis_singleton {A : Type} (m : nat) (x : A) :
  tf.tile_axis m [x] = repeat x m.
Proof. unfold tf.tile_axis. induction m; simpl; congruence. Qed.

Lemma tile2_expand (r : nat) (u : vec) :
  tf.tile2 (tf.expand_dims1 u) 1 r = Spec.replicate2 r u.
Proof.
  unfold tf.tile2, tf.expand_dims1, Spec.replicate2.
  rewrite tile_axis_1, map_map. apply map_ext. intros x.
  apply tile_axis_singleton.
Qed.

Lemma tile3_expand (r : nat) (A : mat) :
  tf.tile3 (tf.expand_dims2 A) 1 1 r = Spec.replicate3 r A.
Proof.
  unfold tf.tile3, tf.expand_dims2, Spec.replicate3.
  rewrite tile_axis_1, map_map. apply map_ext. intros u.
  rewrite tile_axis_1.
  unfold tf.expand_dims1, Spec.replicate2. rewrite map_map.
  apply map_ext. intros x. apply tile_axis_singleton.
Qed.

Lemma diag3_replicate (r s : nat) (A : mat) :
  is_mat s s A ->
  diag3 (Spec.replicate3 r A) = Spec.replicate2 r (tf.diag_part A).
Proof.
  intros HA. unfold diag3, Spec.replicate3, tf.diag_part, tf.shape0.
  rewrite length_map. unfold Spec.replicate2 at 2. rewrite map_map.
  apply map_ext_in. intros i Hi.
  apply in_seq in Hi. destruct HA as [LA FA].
  change (@nil (list R)) with (Spec.replicate2 r []) at 1.
  rewrite map_nth. unfold Spec.replicate2.
  assert (Hlen : length (nth i A []) = s).
  { apply (is_mat_row s s A i (conj LA FA)). lia. }
  rewrite (nth_indep _ [] (repeat 0 r)) by (rewrite length_map; lia).
  apply (map_nth (fun x => repeat x r)).
Qed.

(** ** The methods and the formulas of the specification *)

Lemma predict_terms_likelihood_terms (j : R) (self : GPModel) :
  SGPR.predict_terms j self = SGPR.likelihood_terms j self.
Proof. reflexivity. Qed.

Lemma spec_fitc_terms (j : R) (self : GPModel) :
  Spec.fitc_terms j self = fmap named_terms (GPRFITC.build_common_terms j self).
Proof.
  unfold Spec.fitc_terms, GPRFITC.build_common_terms, Spec.residual,
    Spec.stabilized_Kuu, Spec.cholesky_lower, Spec.triangular_solve,
    Spec.identity, Spec.Mind, Spec.fitc_nu, Spec.fitc_B, Spec.colsum,
    Spec.sigma2, Spec.mprod, tf.shape0, tf.add_scalar.
  rewrite smul_scale.
  destruct (tf.sub _ _) as [err|]; simpl; [|reflexivity].
  destruct (tf.add _ _) as [Kuu|]; simpl; [|reflexivity].
  destruct (tf.cholesky _) as [Luu|]; simpl; [|reflexivity].
  destruct (tf.matrix_triangular_solve _ _ _) as [V|]; simpl; [|reflexivity].
  rewrite squares_square.
  destruct (tf.sub1 _ _) as [d|]; simpl; [|reflexivity].
  destruct (tf.div_row _ _) as [Vnu|]; simpl; [|reflexivity].
  change (tf.matmul Vnu (tf.transpose V) false false)
    with (tf.matmul Vnu V false true).
  destruct (tf.matmul Vnu V false true) as [P|]; simpl; [|reflexivity].
  destruct (tf.add _ _) as [B|]; simpl; [|reflexivity].
  destruct (tf.cholesky _) as [L|]; simpl; [|reflexivity].
  destruct (tf.div _ _) as [beta|]; simpl; [|reflexivity].
  destruct (tf.matmul _ _ _ _) as [alpha|]; simpl; [|reflexivity].
  destruct (tf.matrix_triangular_solve _ _ _) as [gamma|]; simpl; reflexivity.
Qed.

(** C1. For a valid model state the value of [SGPR.build_likelihood] is the
    bound of section 4.2: the Cholesky factor [L] of [Kzz + jitter I],
    [A = L^-1 Kzx / sigma], [B = A A^T + I], its factor [LB],
    [c = LB^-1 (A err) / sigma], and the seven-term sum over them, with [N]
    the number of rows of [X] and [R] the number of columns of [Y]. *)
Theorem sgpr_evidence_formula (j : R) (self : GPModel) (n d r m : nat) :
  valid_state self n d r m ->
  SGPR.build_likelihood j self = Spec.sgpr_evidence j self.
Proof.
  intros V. rewrite build_likelihood_terms. unfold Spec.sgpr_evidence.
  rewrite spec_sgpr_steps. apply bind_ext. intros t. f_equal.
  apply sgpr_bound_of_terms.
  - destruct (valid_X _ _ _ _ _ V) as [HX _].
    destruct (valid_Y _ _ _ _ _ V) as [HY _]. congruence.
  - exact (valid_noise _ _ _ _ _ V).
Qed.

(** C2. For a valid model state the value of [GPRFITC.build_likelihood] is
    the Mahalanobis term plus [R] times the log-normaliser of section 4.5,
    over the common terms of section 4.4. *)
Theorem fitc_evidence_formula (j : R) (self : GPModel) (n d r m : nat) :
  valid_state self n d r m ->
  GPRFITC.build_likelihood j self = Spec.fitc_evidence j self.
Proof.
  intros V. unfold GPRFITC.build_likelihood, Spec.fitc_evidence.
  rewrite spec_fitc_terms.
  destruct (GPRFITC.build_common_terms j self) as [t|]; simpl; [|reflexivity].
  destruct t as [[[[[[err nu] Luu] L] alpha] beta] gamma]. simpl.
  rewrite squares_square. apply bind_ext. intros q. f_equal.
  rewrite squares_square, (valid_num_data _ _ _ _ _ V),
    (valid_num_latent _ _ _ _ _ V).
  unfold Spec.N, Spec.Rout, Spec.sum_log, tf.reduce_sum, tf.reduce_sum1, tf.log,
    tf.shape0, tf.shape1.
  replace (-0.5) with (- (1 / 2)) by lra.
  replace 0.5 with (1 / 2) by lra.
  ring.
Qed.

(** *** Operations that fail on shapes only *)

Lemma shape_errors_only_Ok {A : Type} (a : A) : shape_errors_only (Ok a).
Proof. intros e H. discriminate. Qed.

Lemma shape_errors_only_bind {A B : Type} (r : result A) (k : A -> result B) :
  shape_errors_only r -> (forall a, shape_errors_only (k a)) ->
  shape_errors_only (bind r k).
Proof.
  intros Hr Hk e. destruct r as [a|e']; simpl.
  - apply Hk.
  - intros H. injection H as <-. apply Hr. reflexivity.
Qed.

Lemma bcast2_shape_errors (f : R -> R -> R) (A B : mat) :
  shape_errors_only (tf.bcast2 f A B).
Proof.
  intros e. unfold tf.bcast2.
  destruct (tf.bdim _ _); [destruct (tf.bdim _ _)|]; congruence.
Qed.

Lemma bcast1_shape_errors (f : R -> R -> R) (u v : vec) :
  shape_errors_only (tf.bcast1 f u v).
Proof. intros e. unfold tf.bcast1. destruct (tf.bdim _ _); congruence. Qed.

Lemma matmul_shape_errors (A B : mat) (ta tb : bool) :
  shape_errors_only (tf.matmul A B ta tb).
Proof. intros e. unfold tf.matmul. destruct (Nat.eqb _ _); congruence. Qed.

Lemma triangular_solve_shape_errors (L B : mat) (lower : bool) :
  shape_errors_only (tf.matrix_triangular_solve L B lower).
Proof.
  intros e. unfold tf.matrix_triangular_solve. destruct (_ && _); congruence.
Qed.

Create HintDb shape_errors.

#[local] Hint Resolve shape_errors_only_Ok bcast2_shape_errors
  bcast1_shape_errors matmul_shape_errors triangular_solve_shape_errors
  : shape_errors.

Ltac shape_errors :=
  repeat (apply shape_errors_only_bind; [|intro]);
  unfold tf.add, tf.sub, tf.div, tf.add1, tf.sub1, tf.div_row;
  auto with shape_errors.

(** Two steps that fail on shapes only can be taken in either order. *)
Lemma bind_swap {A B C : Type} (ra : result A) (rb : result B)
  (k : A -> B -> result C) :
  shape_errors_only ra -> shape_errors_only rb ->
  (a <- ra ;; b <- rb ;; k a b) = (b <- rb ;; a <- ra ;; k a b).
Proof.
  intros Ha Hb. destruct ra as [a|ea], rb as [b|eb]; simpl; try reflexivity.
  rewrite (Ha ea), (Hb eb); reflexivity.
Qed.

(** C4. [SGPR.build_predict] returns the mean [tmp2^T c + mean_function(Xnew)]
    with [tmp1 = L^-1 Kzs] and [tmp2 = LB^-1 tmp1], and the variance
    [K(Xnew) + tmp2^T tmp2 - tmp1^T tmp1] with [full_cov], or
    [Kdiag(Xnew) + colsum(tmp2^2) - colsum(tmp1^2)] without, every entry
    repeated over the [R] output replicates. *)
Theorem sgpr_predict_formula (j : R) (self : GPModel) (Xnew : mat) (fc : bool) :
  SGPR.build_predict j self Xnew fc = Spec.sgpr_predict j self Xnew fc.
Proof.
  rewrite build_predict_terms, predict_terms_likelihood_terms, <- spec_sgpr_steps.
  unfold Spec.sgpr_predict. apply bind_ext. intros t.
  unfold SGPR.predict_of_terms, Spec.triangular_solve.
  apply bind_ext. intros tmp1. apply bind_ext. intros tmp2.
  change (Spec.mprod (tf.transpose tmp2) (t_c t))
    with (tf.matmul tmp2 (t_c t) true false).
  apply bind_ext. intros mean.
  rewrite (bind_swap _ (tf.add mean (mean_function self Xnew))
             (fun var m => Ok (m, var))) by (destruct fc; shape_errors).
  apply bind_ext. intros mu.
  unfold Spec.mprod, Spec.colsum, Spec.Rout, tf.shape1.
  destruct fc; rewrite !bind_assoc.
  - change (tf.matmul (tf.transpose tmp2) tmp2 false false)
      with (tf.matmul tmp2 tmp2 true false).
    apply bind_ext. intros t2. rewrite bind_assoc. apply bind_ext. intros s.
    change (tf.matmul (tf.transpose tmp1) tmp1 false false)
      with (tf.matmul tmp1 tmp1 true false).
    rewrite bind_assoc. apply bind_ext. intros t1.
    rewrite bind_assoc. apply bind_ext. intros var. simpl.
    rewrite tile3_expand. reflexivity.
  - rewrite !squares_square. apply bind_ext. intros s.
    rewrite bind_assoc. apply bind_ext. intros var. simpl.
    rewrite tile2_expand. reflexivity.
Qed.

(** C5. The matrices [L], [A], [B], [LB] and [c] (with [err] and [A A^T])
    that [SGPR.build_predict] computes are those that
    [SGPR.build_likelihood] computes: each method is its own computation of
    the matrices followed by its own use of them, and the two computations
    of the matrices are equal, errors included. *)
Theorem sgpr_predict_recomputes_terms (j : R) (self : GPModel) :
  SGPR.build_likelihood j self =
    (t <- SGPR.likelihood_terms j self ;; Ok (SGPR.bound_of_terms self t)) /\
  (forall Xnew fc,
     SGPR.build_predict j self Xnew fc =
     (t <- SGPR.predict_terms j self ;; SGPR.predict_of_terms self Xnew fc t)) /\
  SGPR.predict_terms j self = SGPR.likelihood_terms j self /\
  SGPR.likelihood_terms j self = Spec.sgpr_steps j self.
Proof.
  split; [apply build_likelihood_terms|].
  split; [intros; apply build_predict_terms|].
  split; [apply predict_terms_likelihood_terms|].
  symmetry. apply spec_sgpr_steps.
Qed.

Lemma fitc_predict_of_terms (self : GPModel) (Xnew : mat) (fc : bool)
  (Luu L gamma : mat) :
  GPRFITC.predict_of_terms self Xnew fc Luu L gamma =
  Spec.fitc_predict_from self Xnew fc Luu L gamma.
Proof.
  unfold GPRFITC.predict_of_terms, Spec.fitc_predict_from,
    Spec.triangular_solve, Spec.mprod, Spec.colsum, Spec.Rout, tf.shape1.
  apply bind_ext. intros w. apply bind_ext. intros tmp.
  change (tf.matmul (tf.transpose w) tmp false false)
    with (tf.matmul w tmp true false).
  apply bind_ext. intros wTtmp. apply bind_ext. intros mean.
  apply bind_ext. intros iA.
  destruct fc; rewrite !bind_assoc.
  - change (tf.matmul (tf.transpose w) w false false)
      with (tf.matmul w w true false).
    apply bind_ext. intros wTw. rewrite bind_assoc. apply bind_ext. intros s.
    change (tf.matmul (tf.transpose iA) iA false false)
      with (tf.matmul iA iA true false).
    rewrite bind_assoc. apply bind_ext. intros aTa.
    rewrite bind_assoc. apply bind_ext. intros var. simpl.
    rewrite tile3_expand. reflexivity.
  - rewrite !squares_square. apply bind_ext. intros s.
    rewrite bind_assoc. apply bind_ext. intros var. simpl.
    rewrite tile2_expand. reflexivity.
Qed.

Lemma fitc_build_predict_terms (j : R) (self : GPModel) (Xnew : mat) (fc : bool) :
  GPRFITC.build_predict j self Xnew fc =
  (t <- GPRFITC.build_common_terms j self ;;
   let '(_, _, Luu, L, _, _, gamma) := t in
   GPRFITC.predict_of_terms self Xnew fc Luu L gamma).
Proof.
  unfold GPRFITC.build_predict. apply bind_ext.
  intros [[[[[[err nu] Luu] L] alpha] beta] gamma]. reflexivity.
Qed.

(** C6. [GPRFITC.build_predict] takes [Luu], [L] and [gamma] from the common
    terms of section 4.4 and computes from these three alone: the mean
    [w^T tmp + mean_function(Xnew)] with [w = Luu^-1 Kzs] and
    [tmp = (L^T)^-1 gamma], and the variance
    [K(Xnew) - w^T w + intermediateA^T intermediateA] with [full_cov], or
    [Kdiag(Xnew) - colsum(w^2) + colsum(intermediateA^2)] without
    ([intermediateA = L^-1 w]), every entry repeated over the [R] output
    replicates. *)
Theorem fitc_predict_formula (j : R) (self : GPModel) (Xnew : mat) (fc : bool) :
  GPRFITC.build_predict j self Xnew fc =
    (t <- GPRFITC.build_common_terms j self ;;
     let '(_, _, Luu, L, _, _, gamma) := t in
     Spec.fitc_predict_from self Xnew fc Luu L gamma) /\
  GPRFITC.build_predict j self Xnew fc =
    (t <- Spec.fitc_terms j self ;;
     let '(_, _, Luu, L, gamma) := t in
     Spec.fitc_predict_from self Xnew fc Luu L gamma).
Proof.
  rewrite fitc_build_predict_terms, spec_fitc_terms.
  destruct (GPRFITC.build_common_terms j self) as [t|]; simpl; [|split; reflexivity].
  destruct t as [[[[[[err nu] Luu] L] alpha] beta] gamma]. simpl.
  split; apply fitc_predict_of_terms.
Qed.

(** ** Diagonal of the full covariance *)

Lemma diag_part_length (s : nat) (A : mat) :
  is_mat s s A -> length (tf.diag_part A) = s.
Proof.
  intros [HA _]. unfold tf.diag_part, tf.shape0.
  rewrite length_map, length_seq. exact HA.
Qed.

(** The variance of both models, in both forms: [f] and [g] are the sum and
    the difference, in the order of the method. *)
Lemma variance_diag (f g : R -> R -> R) (m s r : nat) (KXX Ta Tb : mat) :
  is_mat s s KXX -> is_mat m s Ta -> is_mat m s Tb ->
  (0 < m)%nat -> (0 < s)%nat ->
  exists V : mat,
    (ta <- tf.matmul Ta Ta true false ;;
     s1 <- tf.bcast2 f KXX ta ;;
     tb <- tf.matmul Tb Tb true false ;;
     var <- tf.bcast2 g s1 tb ;;
     Ok (FullCov (tf.tile3 (tf.expand_dims2 var) 1 1 r)))
    = Ok (FullCov (Spec.replicate3 r V)) /\
    (s1 <- tf.bcast1 f (tf.diag_part KXX) (tf.reduce_sum_axis0 (tf.square Ta)) ;;
     var <- tf.bcast1 g s1 (tf.reduce_sum_axis0 (tf.square Tb)) ;;
     Ok (DiagCov (tf.tile2 (tf.expand_dims1 var) 1 r)))
    = Ok (DiagCov (diag3 (Spec.replicate3 r V))).
Proof.
  intros HK Ha Hb Hm Hs.
  destruct (tf.matmul Ta Ta true false) as [Ga|] eqn:Ea;
    [|rewrite (matmul_gram m s Ta Ha Hm Hs) in Ea; discriminate].
  destruct (tf.matmul Tb Tb true false) as [Gb|] eqn:Eb;
    [|rewrite (matmul_gram m s Tb Hb Hm Hs) in Eb; discriminate].
  destruct (gram_diag m s Ta Ga Ha Hm Hs Ea) as [HGa Da].
  destruct (gram_diag m s Tb Gb Hb Hm Hs Eb) as [HGb Db].
  pose proof (is_mat_zip f s s KXX Ga HK HGa) as H1.
  exists (zip_with (zip_with g) (zip_with (zip_with f) KXX Ga) Gb).
  simpl. rewrite (bcast2_same f s s KXX Ga HK HGa). simpl.
  rewrite (bcast2_same g s s _ Gb H1 HGb). simpl.
  rewrite tile3_expand. split; [reflexivity|].
  rewrite <- Da, <- Db.
  rewrite (bcast1_same f) by (rewrite !(diag_part_length s); auto).
  simpl.
  rewrite (bcast1_same g)
    by (rewrite zip_with_length, !(diag_part_length s); auto; lia).
  simpl. rewrite tile2_expand.
  rewrite (diag3_replicate r s) by (apply is_mat_zip; assumption).
  rewrite !(diag_part_zip _ s) by assumption.
  reflexivity.
Qed.

Lemma sgpr_predict_diag (j : R) (self : GPModel) (Xnew : mat) :
  valid_kern_at (kern self) (Z self) Xnew ->
  (0 < length (Z self))%nat -> (0 < length Xnew)%nat ->
  SGPR.build_predict j self Xnew false =
  fmap (fun p => (fst p, diag_of_var (snd p)))
    (SGPR.build_predict j self Xnew true).
Proof.
  intros HK Hm Hs. rewrite !build_predict_terms.
  destruct (SGPR.predict_terms j self) as [t|]; simpl; [|reflexivity].
  unfold SGPR.predict_of_terms.
  destruct (tf.matrix_triangular_solve (t_L t) _ true) as [tmp1|] eqn:E1;
    simpl; [|reflexivity].
  destruct (tf.matrix_triangular_solve (t_LB t) tmp1 true) as [tmp2|] eqn:E2;
    simpl; [|reflexivity].
  destruct (tf.matmul tmp2 (t_c t) true false) as [mean|]; simpl;
    [|reflexivity].
  pose proof (is_mat_same_shape _ _ _ _ (kern_Kzx _ _ _ HK)
                (triangular_solve_shape _ _ _ _ E1)) as H1.
  pose proof (is_mat_same_shape _ _ _ _ H1
                (triangular_solve_shape _ _ _ _ E2)) as H2.
  destruct (variance_diag Rplus Rminus _ _ (tf.shape1 (Y self)) _ tmp2 tmp1
              (kern_K _ _ _ HK) H2 H1 Hm Hs) as [V [HF HD]].
  unfold tf.add, tf.sub, tf.add1, tf.sub1.
  rewrite <- (kern_Kdiag _ _ _ HK), HD, HF. simpl.
  destruct (tf.bcast2 Rplus mean _); reflexivity.
Qed.

Lemma fitc_predict_diag (j : R) (self : GPModel) (Xnew : mat) :
  valid_kern_at (kern self) (Z self) Xnew ->
  (0 < length (Z self))%nat -> (0 < length Xnew)%nat ->
  GPRFITC.build_predict j self Xnew false =
  fmap (fun p => (fst p, diag_of_var (snd p)))
    (GPRFITC.build_predict j self Xnew true).
Proof.
  intros HK Hm Hs. rewrite !fitc_build_predict_terms.
  destruct (GPRFITC.build_common_terms j self) as [t|]; simpl; [|reflexivity].
  destruct t as [[[[[[err nu] Luu] L] alpha] beta] gamma].
  unfold GPRFITC.predict_of_terms.
  destruct (tf.matrix_triangular_solve Luu _ true) as [w|] eqn:E1;
    simpl; [|reflexivity].
  destruct (tf.matrix_triangular_solve (tf.transpose L) gamma false) as [tmp|];
    simpl; [|reflexivity].
  destruct (tf.matmul w tmp true false) as [wTtmp|]; simpl; [|reflexivity].
  destruct (tf.add wTtmp _) as [mean|]; simpl; [|reflexivity].
  destruct (tf.matrix_triangular_solve L w true) as [iA|] eqn:E2;
    simpl; [|reflexivity].
  pose proof (is_mat_same_shape _ _ _ _ (kern_Kzx _ _ _ HK)
                (triangular_solve_shape _ _ _ _ E1)) as H1.
  pose proof (is_mat_same_shape _ _ _ _ H1
                (triangular_solve_shape _ _ _ _ E2)) as H2.
  destruct (variance_diag Rminus Rplus _ _ (tf.shape1 (Y self)) _ w iA
              (kern_K _ _ _ HK) H1 H2 Hm Hs) as [V [HF HD]].
  unfold tf.add, tf.sub, tf.add1, tf.sub1.
  rewrite <- (kern_Kdiag _ _ _ HK), HD, HF. reflexivity.
Qed.

(** C7. For a kernel whose diagonal method is the diagonal of its full
    method, the variance that [build_predict] returns without [full_cov] is
    the diagonal [var[i][i][:]] of the one it returns with [full_cov], and
    the mean is the same, for [SGPR] and for [GPRFITC]; the two calls fail
    together. *)
Theorem predict_full_cov_diagonal (j : R) (self : GPModel) (Xnew : mat) :
  valid_kern_at (kern self) (Z self) Xnew ->
  (0 < length (Z self))%nat -> (0 < length Xnew)%nat ->
  SGPR.build_predict j self Xnew false =
    fmap (fun p => (fst p, diag_of_var (snd p)))
      (SGPR.build_predict j self Xnew true) /\
  GPRFITC.build_predict j self Xnew false =
    fmap (fun p => (fst p, diag_of_var (snd p)))
      (GPRFITC.build_predict j self Xnew true).
Proof.
  intros HK Hm Hs. split.
  - apply sgpr_predict_diag; assumption.
  - apply fitc_predict_diag; assumption.
Qed.

(** ** The variance does not depend on the outputs *)

Lemma result_rel_snd {A B : Type} (r r' : result (A * B)) :
  result_rel (fun p p' => snd p = snd p') r r' -> fmap snd r = fmap snd r'.
Proof.
  unfold result_rel. destruct r, r'; simpl; intros H; try contradiction;
    congruence.
Qed.

Ltac same_step := apply result_rel_same; intro.

Lemma sgpr_predict_var_rel (j : R) (self : GPModel) (Y' Xnew : mat) (fc : bool) :
  same_shape (Y self) Y' ->
  result_rel (fun p p' => snd p = snd p')
    (SGPR.build_predict j self Xnew fc)
    (SGPR.build_predict j (set_Y self Y') Xnew fc).
Proof.
  intros HS. unfold SGPR.build_predict.
  cbn [set_Y X Y kern likelihood mean_function Z].
  rewrite <- (same_shape_shape1 _ _ HS).
  apply (result_rel_bind same_shape);
    [apply bcast2_congr; exact HS | intros err err' Herr].
  do 6 same_step.
  apply (result_rel_bind same_shape);
    [apply matmul_congr_r; exact Herr | intros Aerr Aerr' HAerr].
  apply (result_rel_bind same_shape);
    [apply triangular_solve_congr; exact HAerr | intros c c' Hc].
  do 2 same_step.
  apply (result_rel_bind same_shape);
    [apply matmul_congr_r, same_shape_map2; exact Hc | intros mean mean' Hm].
  same_step.
  apply (result_rel_bind same_shape);
    [apply bcast2_congr; exact Hm | intros mu mu' _].
  reflexivity.
Qed.

Lemma fitc_common_terms_rel (j : R) (self : GPModel) (Y' : mat) :
  same_shape (Y self) Y' ->
  result_rel
    (fun t t' =>
       let '(_, _, Luu, L, _, _, gamma) := t in
       let '(_, _, Luu', L', _, _, gamma') := t' in
       Luu = Luu' /\ L = L' /\ same_shape gamma gamma')
    (GPRFITC.build_common_terms j self)
    (GPRFITC.build_common_terms j (set_Y self Y')).
Proof.
  intros HS. unfold GPRFITC.build_common_terms.
  cbn [set_Y X Y kern likelihood mean_function Z].
  apply (result_rel_bind same_shape);
    [apply bcast2_congr; exact HS | intros err err' Herr].
  do 8 same_step.
  apply (result_rel_bind same_shape);
    [apply bcast2_congr; exact Herr | intros beta beta' Hbeta].
  apply (result_rel_bind same_shape);
    [apply matmul_congr_r; exact Hbeta | intros alpha alpha' Halpha].
  apply (result_rel_bind same_shape);
    [apply triangular_solve_congr; exact Halpha | intros gamma gamma' Hgamma].
  simpl. auto.
Qed.

Lemma fitc_predict_var_rel (j : R) (self : GPModel) (Y' Xnew : mat) (fc : bool) :
  same_shape (Y self) Y' ->
  result_rel (fun p p' => snd p = snd p')
    (GPRFITC.build_predict j self Xnew fc)
    (GPRFITC.build_predict j (set_Y self Y') Xnew fc).
Proof.
  intros HS. rewrite !fitc_build_predict_terms.
  eapply result_rel_bind; [apply fitc_common_terms_rel; exact HS|].
  intros [[[[[[err nu] Luu] L] alpha] beta] gamma]
         [[[[[[err' nu'] Luu'] L'] alpha'] beta'] gamma'] [<- [<- Hg]].
  unfold GPRFITC.predict_of_terms.
  cbn [set_Y X Y kern likelihood mean_function Z].
  rewrite <- (same_shape_shape1 _ _ HS).
  same_step.
  apply (result_rel_bind same_shape);
    [apply triangular_solve_congr; exact Hg | intros tmp tmp' Ht].
  apply (result_rel_bind same_shape);
    [apply matmul_congr_r; exact Ht | intros p p' Hp].
  apply (result_rel_bind same_shape);
    [apply bcast2_congr; exact Hp | intros mean mean' _].
  do 2 same_step.
  reflexivity.
Qed.

(** C10. The variance that [build_predict] returns does not depend on the
    entries of [Y]: two models that differ in [Y] only, the two [Y] of the
    same shape, return the same variance, and fail on the same inputs, for
    every [Xnew] and both values of [full_cov], for [SGPR] and for
    [GPRFITC]. *)
Theorem predict_variance_independent_of_Y (j : R) (self : GPModel)
  (Y' Xnew : mat) (fc : bool) :
  same_shape (Y self) Y' ->
  fmap snd (SGPR.build_predict j self Xnew fc) =
    fmap snd (SGPR.build_predict j (set_Y self Y') Xnew fc) /\
  fmap snd (GPRFITC.build_predict j self Xnew fc) =
    fmap snd (GPRFITC.build_predict j (set_Y self Y') Xnew fc).
Proof.
  intros HS. split; apply result_rel_snd.
  - apply sgpr_predict_var_rel. exact HS.
  - apply fitc_predict_var_rel. exact HS.
Qed.

(** ** Calls leave the model as it is *)







(** The statement below is about what the four methods do, not about
    methods in general: [counting_method] assigns an attribute, leaves
    another model behind, and its second call returns another value. *)
Example counting_method_not_pure (self : GPModel) :
  snd (counting_method self) <> self /\
  fst (counting_method (snd (counting_method self))) <>
  fst (counting_method self).
Proof.
  unfold counting_method. cbv beta iota delta [mbind attr set_attr mret fst snd].
  split.
  - intros E. apply (f_equal num_data) in E. simpl in E. lia.
  - simpl. intros E. injection E as E. lia.
Qed.


(** ** The effective noise of FITC *)

(** An operation that fails on shapes only did not raise a numerical
    error. *)
Ltac not_numerical E H :=
  exfalso; injection H as H; subst;
  unfold tf.sub, tf.add, tf.div, tf.sub1, tf.add1, tf.div_row in E;
  first [ apply bcast2_shape_errors in E
        | apply bcast1_shape_errors in E
        | apply matmul_shape_errors in E
        | apply triangular_solve_shape_errors in E ];
  discriminate.

(** The steps named in [fitc_factorisation_fails] are those of the method:
    with the outcomes of the method's steps at hand, the two agree. *)
Ltac refute_fitc_fails :=
  let H := fresh "H" in
  intros [? [? [? [? [H|H]]]]]; try apply (f_equal Err);
  [ congruence
  | destruct H as [? [? [? [? [? [? [? [? [? [? [? [? ?]]]]]]]]]]]];
    congruence ].

Lemma fitc_common_terms_numerical (j : R) (self : GPModel) :
  GPRFITC.build_common_terms j self = Err NumericalError <->
  fitc_factorisation_fails j self.
Proof.
  unfold GPRFITC.build_common_terms, fitc_factorisation_fails.
  destruct (tf.sub _ _) as [err|e] eqn:E0; simpl.
  2:{ split; [intros H; not_numerical E0 H|].
      intros [? [? [H _]]]. discriminate. }
  destruct (tf.add _ _) as [Kuu|e] eqn:E1; simpl.
  2:{ split; [intros H; not_numerical E1 H|].
      intros [? [? [_ [H _]]]]. discriminate. }
  destruct (tf.cholesky Kuu) as [Luu|e] eqn:E2; simpl.
  2:{ split; [|refute_fitc_fails].
      intros H. injection H as ->. exists err, Kuu. auto. }
  destruct (tf.matrix_triangular_solve Luu _ true) as [V|e] eqn:E3; simpl.
  2:{ split; [intros H; not_numerical E3 H | refute_fitc_fails]. }
  destruct (tf.sub1 _ _) as [d|e] eqn:E4; simpl.
  2:{ split; [intros H; not_numerical E4 H | refute_fitc_fails]. }
  destruct (tf.div_row V _) as [Vnu|e] eqn:E5; simpl.
  2:{ split; [intros H; not_numerical E5 H | refute_fitc_fails]. }
  destruct (tf.matmul Vnu V false true) as [VnuVT|e] eqn:E6; simpl.
  2:{ split; [intros H; not_numerical E6 H | refute_fitc_fails]. }
  destruct (tf.add _ VnuVT) as [B|e] eqn:E7; simpl.
  2:{ split; [intros H; not_numerical E7 H | refute_fitc_fails]. }
  destruct (tf.cholesky B) as [L|e] eqn:E8; simpl.
  2:{ split; [|refute_fitc_fails].
      intros H. injection H as ->. exists err, Kuu.
      split; [reflexivity|]. split; [reflexivity|]. right.
      exists Luu, V, d, Vnu, VnuVT, B. auto 10. }
  destruct (tf.div _ _) as [beta|e] eqn:E9; simpl.
  2:{ split; [intros H; not_numerical E9 H | refute_fitc_fails]. }
  destruct (tf.matmul V beta false false) as [alpha|e] eqn:E10; simpl.
  2:{ split; [intros H; not_numerical E10 H | refute_fitc_fails]. }
  destruct (tf.matrix_triangular_solve L alpha true) as [gamma|e] eqn:E11;
    simpl.
  2:{ split; [intros H; not_numerical E11 H | refute_fitc_fails]. }
  split; [discriminate | refute_fitc_fails].
Qed.

(** C3, as the code has it. [build_common_terms] returns [nu] as
    [Kdiag(X) - diagQff + noise variance], with [diagQff] the column sums of
    the squares of [V = Luu^-1 Kuf], neither floored nor compared with zero,
    and divides the residual by it as it is. The method raises a numerical
    error exactly when one of its two Cholesky factorisations does, that of
    [Kzz + jitter I] or that of [B = I + (V / nu) V^T], the steps before
    that factorisation having succeeded; the sign of [nu] raises none. *)
Theorem fitc_nu_unchecked (j : R) (self : GPModel) :
  (forall err nu Luu L alpha beta gamma,
     GPRFITC.build_common_terms j self =
       Ok (err, nu, Luu, L, alpha, beta, gamma) ->
     exists Kuu V,
       Spec.stabilized_Kuu j self = Ok Kuu /\
       tf.cholesky Kuu = Ok Luu /\
       tf.matrix_triangular_solve Luu (Kzx (kern self) (Z self) (X self)) true
         = Ok V /\
       Spec.fitc_nu self V = Ok nu /\
       tf.div err (tf.expand_dims1 nu) = Ok beta) /\
  (GPRFITC.build_common_terms j self = Err NumericalError <->
   fitc_factorisation_fails j self).
Proof.
  split; [|apply fitc_common_terms_numerical].
  unfold GPRFITC.build_common_terms, Spec.stabilized_Kuu, Spec.fitc_nu,
    Spec.colsum, Spec.identity, Spec.Mind, Spec.sigma2, tf.shape0,
    tf.add_scalar.
  rewrite smul_scale.
  destruct (tf.sub _ _) as [err0|e] eqn:E0; simpl; [|discriminate].
  destruct (tf.add _ _) as [Kuu|e] eqn:E1; simpl; [|discriminate].
  destruct (tf.cholesky Kuu) as [Luu0|e] eqn:E2; simpl; [|discriminate].
  destruct (tf.matrix_triangular_solve Luu0 _ true) as [V|e] eqn:E3; simpl;
    [|discriminate].
  destruct (tf.sub1 _ _) as [d|e] eqn:E4; simpl; [|discriminate].
  destruct (tf.div_row V _) as [Vnu|e] eqn:E5; simpl; [|discriminate].
  destruct (tf.matmul Vnu V false true) as [P|e] eqn:E6; simpl;
    [|discriminate].
  destruct (tf.add _ P) as [B|e] eqn:E7; simpl; [|discriminate].
  destruct (tf.cholesky B) as [L0|e] eqn:E8; simpl; [|discriminate].
  destruct (tf.div _ _) as [beta0|e] eqn:E9; simpl; [|discriminate].
  destruct (tf.matmul V beta0 false false) as [alpha0|e] eqn:E10; simpl;
    [|discriminate].
  destruct (tf.matrix_triangular_solve L0 alpha0 true) as [gamma0|e] eqn:E11;
    simpl; [|discriminate].
  intros err nu Luu L alpha beta gamma H. injection H as <- <- <- <- <- <- <-.
  exists Kuu, V. split; [reflexivity|]. split; [exact E2|].
  split; [exact E3|]. split; [|exact E9].
  rewrite squares_square, E4. reflexivity.
Qed.

(** ** Dimensions that do not fit *)

Lemma bdim_mismatch (a b : nat) :
  a <> b -> a <> 1%nat -> b <> 1%nat -> tf.bdim a b = None.
Proof.
  intros H1 H2 H3. unfold tf.bdim.
  destruct (Nat.eqb_spec a b); [contradiction|].
  destruct (Nat.eqb_spec a 1); [contradiction|].
  destruct (Nat.eqb_spec b 1); [contradiction|].
  reflexivity.
Qed.

Lemma sub_rows_mismatch (A B : mat) :
  length A <> length B -> length A <> 1%nat -> length B <> 1%nat ->
  tf.sub A B = Err ShapeMismatch.
Proof.
  intros H1 H2 H3. unfold tf.sub, tf.bcast2, tf.shape0.
  rewrite (bdim_mismatch _ _ H1 H2 H3). reflexivity.
Qed.

(** C8, as the code has it. The constructors check no dimension. When the
    mean function returns one row for each row of [X], and [X] and [Y]
    differ in their number of rows, neither having a single row, every
    evaluation of the model that was constructed ends in a shape error. *)
Theorem row_mismatch_surfaces (j : R) (lik : Gaussian) (X0 Y0 : mat) (k : Kern)
  (Z0 : mat) (mf : mat -> mat) (Xnew : mat) (fc : bool) :
  length (mf X0) = length X0 ->
  length X0 <> length Y0 ->
  length X0 <> 1%nat -> length Y0 <> 1%nat ->
  SGPR.build_likelihood j (SGPR.init lik X0 Y0 k Z0 mf) = Err ShapeMismatch /\
  SGPR.build_predict j (SGPR.init lik X0 Y0 k Z0 mf) Xnew fc
    = Err ShapeMismatch /\
  GPRFITC.build_likelihood j (GPRFITC.init lik X0 Y0 k Z0 mf)
    = Err ShapeMismatch /\
  GPRFITC.build_predict j (GPRFITC.init lik X0 Y0 k Z0 mf) Xnew fc
    = Err ShapeMismatch.
Proof.
  intros Hmf HXY HX HY.
  assert (E : tf.sub Y0 (mf X0) = Err ShapeMismatch).
  { apply sub_rows_mismatch; rewrite ?Hmf; auto. }
  unfold SGPR.build_likelihood, SGPR.build_predict, GPRFITC.build_likelihood,
    GPRFITC.build_predict, GPRFITC.build_common_terms, SGPR.init, GPRFITC.init.
  cbn [X Y mean_function]. rewrite E. repeat split; reflexivity.
Qed.

(** ** The example models *)

Lemma cholesky_1x1 (a s : R) :
  0 < s -> a = s * s -> tf.cholesky [[a]] = Ok [[s]].
Proof.
  intros Hs ->. unfold tf.cholesky. cbn.
  replace (s * s - 0) with (s * s) by ring.
  destruct (Rlt_dec 0 (s * s)) as [_|H]; [|nra].
  rewrite sqrt_square by lra. reflexivity.
Qed.

Lemma cholesky_1x1_sqrt (a b : R) :
  0 < b -> a = b -> tf.cholesky [[a]] = Ok [[sqrt b]].
Proof.
  intros Hb ->. unfold tf.cholesky. cbn.
  replace (b - 0) with b by ring.
  destruct (Rlt_dec 0 b) as [_|H]; [|lra].
  reflexivity.
Qed.

Lemma cholesky_1x1_fails (a : R) :
  a <= 0 -> tf.cholesky [[a]] = Err NumericalError.
Proof.
  intros Ha. unfold tf.cholesky. cbn.
  destruct (Rlt_dec 0 (a - 0)) as [H|_]; [lra|]. reflexivity.
Qed.

Arguments tf.cholesky : simpl never.

(** Equality of two results, entry by entry. *)
Ltac tensor_eq :=
  repeat match goal with
         | |- Ok _ = Ok _ => apply f_equal
         | |- FullCov _ = FullCov _ => apply f_equal
         | |- DiagCov _ = DiagCov _ => apply f_equal
         | |- (_, _) = (_, _) => apply f_equal2
         | |- _ :: _ = _ :: _ => apply f_equal2
         | |- @nil _ = @nil _ => reflexivity
         end.

Ltac halves :=
  replace (-0.5) with (- (1 / 2)) by lra;
  replace 0.5 with (1 / 2) by lra.

(** The operations on small matrices. *)
Example cholesky_2x2 : tf.cholesky [[4; 2]; [2; 5]] = Ok [[2; 0]; [1; 2]].
Proof.
  unfold tf.cholesky. cbn.
  replace (4 - 0) with (2 * 2) by lra.
  destruct (Rlt_dec 0 (2 * 2)) as [_|H]; [|lra].
  rewrite sqrt_square by lra.
  replace (5 - ((2 - 0) / 2 * ((2 - 0) / 2) + 0)) with (2 * 2) by lra.
  destruct (Rlt_dec 0 (2 * 2)) as [_|H]; [|lra].
  rewrite sqrt_square by lra.
  tensor_eq; lra.
Qed.

Example solve_lower_2x2 :
  tf.matrix_triangular_solve [[2; 0]; [1; 2]] [[2; 4]; [5; 6]] true =
  Ok [[1; 2]; [2; 2]].
Proof. cbn. tensor_eq; lra. Qed.

Example solve_upper_2x2 :
  tf.matrix_triangular_solve [[2; 1]; [0; 2]] [[5; 6]; [2; 4]] false =
  Ok [[2; 2]; [1; 2]].
Proof. cbn. tensor_eq; lra. Qed.

Example matmul_transpose_a :
  tf.matmul [[1; 2]; [3; 4]] [[1]; [1]] true false = Ok [[4]; [6]].
Proof. cbn. tensor_eq; lra. Qed.

Example sub_broadcasts :
  tf.sub [[1; 2]; [3; 4]] [[1]; [2]] = Ok [[0; 1]; [1; 2]].
Proof. cbn. tensor_eq; lra. Qed.

(** On the line, with no jitter: a valid state, and its bound. *)
Example sgpr_line_evidence :
  SGPR.build_likelihood 0 Examples.sgpr_line =
  Ok (- ln (2 * PI) - ln (3 / 2) - 1 / 2).
Proof.
  unfold SGPR.build_likelihood, Examples.sgpr_line, SGPR.init. cbn.
  rewrite (cholesky_1x1 _ 2) by lra. cbn. rewrite sqrt_1.
  rewrite (cholesky_1x1 _ (3 / 2)) by lra. cbn.
  apply f_equal. rewrite ln_1. halves. field.
Qed.

(** Its predictions, and those of the same model with other outputs. *)
Example sgpr_line_predict_full :
  SGPR.build_predict 0 Examples.sgpr_line [[1]; [3]] true =
  Ok ([[2 / 3]; [2]], FullCov [[[4 / 9]; [4 / 3]]; [[4 / 3]; [4]]]).
Proof.
  unfold SGPR.build_predict, Examples.sgpr_line, SGPR.init. cbn.
  rewrite (cholesky_1x1 _ 2) by lra. cbn. rewrite sqrt_1.
  rewrite (cholesky_1x1 _ (3 / 2)) by lra. cbn.
  tensor_eq; lra.
Qed.

Example sgpr_line_predict_diag :
  SGPR.build_predict 0 Examples.sgpr_line [[1]; [3]] false =
  Ok ([[2 / 3]; [2]], DiagCov [[4 / 9]; [4]]).
Proof.
  unfold SGPR.build_predict, Examples.sgpr_line, SGPR.init. cbn.
  rewrite (cholesky_1x1 _ 2) by lra. cbn. rewrite sqrt_1.
  rewrite (cholesky_1x1 _ (3 / 2)) by lra. cbn.
  tensor_eq; lra.
Qed.

Example sgpr_line_predict_other_Y :
  SGPR.build_predict 0 (set_Y Examples.sgpr_line [[5]; [7]]) [[1]; [3]] false =
  Ok ([[34 / 9]; [34 / 3]], DiagCov [[4 / 9]; [4]]).
Proof.
  unfold SGPR.build_predict, Examples.sgpr_line, SGPR.init. cbn.
  rewrite (cholesky_1x1 _ 2) by lra. cbn. rewrite sqrt_1.
  rewrite (cholesky_1x1 _ (3 / 2)) by lra. cbn.
  tensor_eq; lra.
Qed.

Example fitc_line_predict_full :
  GPRFITC.build_predict 0 Examples.fitc_line [[1]; [3]] true =
  Ok ([[2 / 3]; [2]], FullCov [[[4 / 9]; [4 / 3]]; [[4 / 3]; [4]]]).
Proof.
  unfold GPRFITC.build_predict, GPRFITC.build_common_terms,
    Examples.fitc_line, GPRFITC.init. cbn.
  rewrite (cholesky_1x1 _ 2) by lra. cbn.
  rewrite (cholesky_1x1 _ (3 / 2)) by lra. cbn.
  tensor_eq; lra.
Qed.

Example fitc_line_evidence :
  GPRFITC.build_likelihood 0 Examples.fitc_line =
  Ok (- ln (2 * PI) - ln (3 / 2) - 1 / 2).
Proof.
  unfold GPRFITC.build_likelihood, GPRFITC.build_common_terms,
    Examples.fitc_line, GPRFITC.init. cbn.
  rewrite (cholesky_1x1 _ 2) by lra. cbn.
  rewrite (cholesky_1x1 _ (3 / 2)) by lra. cbn.
  repeat match goal with
         | |- context [ln ?e] => progress (replace e with 1 by lra)
         end.
  rewrite ln_1. apply f_equal. halves. lra.
Qed.

(** With a jitter of [-3] the factorisations succeed and the first entry of
    [nu] is negative. *)
Lemma fitc_line_terms :
  GPRFITC.build_common_terms (-3) Examples.fitc_line =
  Ok ([[1]; [1]], [-2; 1 / 4], [[1]], [[sqrt 3]], [[3]], [[- (1 / 2)]; [4]],
      [[3 / sqrt 3]]).
Proof.
  unfold GPRFITC.build_common_terms, Examples.fitc_line, GPRFITC.init. cbn.
  rewrite (cholesky_1x1 _ 1) by lra. cbn.
  rewrite (cholesky_1x1_sqrt _ 3) by lra. cbn.
  tensor_eq; lra.
Qed.

(** With a jitter of [-4] the first pivot is zero. *)
Lemma fitc_line_singular :
  GPRFITC.build_common_terms (-4) Examples.fitc_line = Err NumericalError.
Proof.
  unfold GPRFITC.build_common_terms, Examples.fitc_line, GPRFITC.init. cbn.
  rewrite cholesky_1x1_fails by lra. reflexivity.
Qed.

(** C3 does not hold as stated: an entry of [nu] is [-2], it is returned as
    it is, and both the common terms and the likelihood are computed. *)
Lemma fitc_nonpositive_nu_accepted :
  GPRFITC.build_common_terms (-3) Examples.fitc_line =
    Ok ([[1]; [1]], [-2; 1 / 4], [[1]], [[sqrt 3]], [[3]], [[- (1 / 2)]; [4]],
        [[3 / sqrt 3]]) /\
  Exists (fun x => x <= 0) [-2; 1 / 4] /\
  succeeds (GPRFITC.build_likelihood (-3) Examples.fitc_line).
Proof.
  split; [apply fitc_line_terms|]. split.
  - constructor. lra.
  - unfold succeeds, GPRFITC.build_likelihood. rewrite fitc_line_terms. cbn.
    eexists. reflexivity.
Qed.

Lemma fitc_nu_unchecked_witness :
  (GPRFITC.build_common_terms (-3) Examples.fitc_line =
     Ok ([[1]; [1]], [-2; 1 / 4], [[1]], [[sqrt 3]], [[3]],
         [[- (1 / 2)]; [4]], [[3 / sqrt 3]]) /\
   exists Kuu V,
     Spec.stabilized_Kuu (-3) Examples.fitc_line = Ok Kuu /\
     tf.cholesky Kuu = Ok [[1]] /\
     tf.matrix_triangular_solve [[1]]
       (Kzx (kern Examples.fitc_line) (Z Examples.fitc_line)
          (X Examples.fitc_line)) true = Ok V /\
     Spec.fitc_nu Examples.fitc_line V = Ok [-2; 1 / 4] /\
     tf.div [[1]; [1]] (tf.expand_dims1 [-2; 1 / 4]) = Ok [[- (1 / 2)]; [4]]) /\
  (GPRFITC.build_common_terms (-4) Examples.fitc_line = Err NumericalError /\
   fitc_factorisation_fails (-4) Examples.fitc_line).
Proof.
  split; split.
  - apply fitc_line_terms.
  - apply (proj1 (fitc_nu_unchecked (-3) Examples.fitc_line)
             _ _ _ _ _ _ _ fitc_line_terms).
  - apply fitc_line_singular.
  - apply (proj1 (proj2 (fitc_nu_unchecked (-4) Examples.fitc_line))
             fitc_line_singular).
Defined.

(** C8 does not hold as stated: [Z] has one column and [X] has two, the
    model is constructed, and its bound is computed. *)
Lemma sgpr_columns_accepted :
  tf.shape1 (Z Examples.sgpr_columns) <> tf.shape1 (X Examples.sgpr_columns) /\
  SGPR.build_likelihood 0 Examples.sgpr_columns =
    Ok (- ln (2 * PI) - ln (sqrt 3) - 1).
Proof.
  split; [cbn; lia|].
  unfold SGPR.build_likelihood, Examples.sgpr_columns, SGPR.init. cbn.
  rewrite (cholesky_1x1 _ 1) by lra. cbn. rewrite sqrt_1.
  rewrite (cholesky_1x1_sqrt _ 3) by lra. cbn.
  apply f_equal. rewrite ln_1.
  pose proof (sqrt_sqrt 3 ltac:(lra)) as Hs.
  assert (Hp : 0 < sqrt 3) by (apply sqrt_lt_R0; lra).
  set (s := sqrt 3) in *. set (l := ln s). set (p := ln (2 * PI)).
  halves. field_simplify_eq; [|lra]. nra.
Qed.

Lemma row_mismatch_surfaces_witness :
  length (Examples.zero_mean [[1]; [2]]) = length [[1]; [2]] /\
  length [[1]; [2]] <> length [[1]; [2]; [3]] /\
  length [[1]; [2]] <> 1%nat /\
  length [[1]; [2]; [3]] <> 1%nat /\
  SGPR.build_likelihood 0
    (SGPR.init Examples.unit_noise [[1]; [2]] [[1]; [2]; [3]]
       Examples.linear_kern [[2]] Examples.zero_mean) = Err ShapeMismatch /\
  SGPR.build_predict 0
    (SGPR.init Examples.unit_noise [[1]; [2]] [[1]; [2]; [3]]
       Examples.linear_kern [[2]] Examples.zero_mean) [[1]] false
    = Err ShapeMismatch /\
  GPRFITC.build_likelihood 0
    (GPRFITC.init Examples.unit_noise [[1]; [2]] [[1]; [2]; [3]]
       Examples.linear_kern [[2]] Examples.zero_mean) = Err ShapeMismatch /\
  GPRFITC.build_predict 0
    (GPRFITC.init Examples.unit_noise [[1]; [2]] [[1]; [2]; [3]]
       Examples.linear_kern [[2]] Examples.zero_mean) [[1]] false
    = Err ShapeMismatch.
Proof.
  split; [reflexivity|]. split; [simpl; lia|]. split; [simpl; lia|].
  split; [simpl; lia|].
  apply (row_mismatch_surfaces 0 Examples.unit_noise [[1]; [2]]
           [[1]; [2]; [3]] Examples.linear_kern [[2]] Examples.zero_mean
           [[1]] false); simpl; lia.
Defined.

Ltac valid_line :=
  constructor; cbn;
  [ split; [reflexivity | repeat constructor]
  | split; [reflexivity | repeat constructor]
  | split; [reflexivity | repeat constructor]
  | lra
  | reflexivity
  | reflexivity ].

Lemma sgpr_evidence_formula_witness :
  valid_state Examples.sgpr_line 2 1 1 1 /\
  SGPR.build_likelihood 0 Examples.sgpr_line =
    Spec.sgpr_evidence 0 Examples.sgpr_line.
Proof.
  assert (V : valid_state Examples.sgpr_line 2 1 1 1) by valid_line.
  split; [exact V|].
  apply (sgpr_evidence_formula 0 Examples.sgpr_line 2 1 1 1 V).
Defined.

Lemma fitc_evidence_formula_witness :
  valid_state Examples.fitc_line 2 1 1 1 /\
  GPRFITC.build_likelihood 0 Examples.fitc_line =
    Spec.fitc_evidence 0 Examples.fitc_line.
Proof.
  assert (V : valid_state Examples.fitc_line 2 1 1 1) by valid_line.
  split; [exact V|].
  apply (fitc_evidence_formula 0 Examples.fitc_line 2 1 1 1 V).
Defined.

Lemma predict_full_cov_diagonal_witness :
  valid_kern_at (kern Examples.sgpr_line) (Z Examples.sgpr_line) [[1]; [3]] /\
  (0 < length (Z Examples.sgpr_line))%nat /\
  (0 < length [[1]; [3]])%nat /\
  SGPR.build_predict 0 Examples.sgpr_line [[1]; [3]] false =
    fmap (fun p => (fst p, diag_of_var (snd p)))
      (SGPR.build_predict 0 Examples.sgpr_line [[1]; [3]] true) /\
  GPRFITC.build_predict 0 Examples.sgpr_line [[1]; [3]] false =
    fmap (fun p => (fst p, diag_of_var (snd p)))
      (GPRFITC.build_predict 0 Examples.sgpr_line [[1]; [3]] true).
Proof.
  assert (HK : valid_kern_at (kern Examples.sgpr_line) (Z Examples.sgpr_line)
                 [[1]; [3]]).
  { constructor; cbn.
    - split; [reflexivity | repeat constructor].
    - split; [reflexivity | repeat constructor].
    - reflexivity. }
  split; [exact HK|]. split; [simpl; lia|]. split; [simpl; lia|].
  apply (predict_full_cov_diagonal 0 Examples.sgpr_line [[1]; [3]] HK);
    simpl; lia.
Defined.

Lemma predict_variance_independent_of_Y_witness :
  same_shape (Y Examples.sgpr_line) [[5]; [7]] /\
  fmap snd (SGPR.build_predict 0 Examples.sgpr_line [[1]; [3]] true) =
    fmap snd
      (SGPR.build_predict 0 (set_Y Examples.sgpr_line [[5]; [7]]) [[1]; [3]] true) /\
  fmap snd (GPRFITC.build_predict 0 Examples.sgpr_line [[1]; [3]] true) =
    fmap snd
      (GPRFITC.build_predict 0 (set_Y Examples.sgpr_line [[5]; [7]])
         [[1]; [3]] true).
Proof.
  split; [reflexivity|].
  apply (predict_variance_independent_of_Y 0 Examples.sgpr_line [[5]; [7]]
           [[1]; [3]] true).
  reflexivity.
Defined.

(** * Further properties of the two models *)

(** ** Numerical errors *)

Lemma bind_numerical {A B : Type} (r : result A) (k : A -> result B) :
  (forall a, shape_errors_only (k a)) ->
  bind r k = Err NumericalError <-> r = Err NumericalError.
Proof.
  intros Hk. destruct r as [a|e]; simpl.
  - split; intros H; [apply Hk in H|]; discriminate.
  - split; intros H; injection H as ->; reflexivity.
Qed.

Lemma sgpr_predict_of_terms_shape_errors (self : GPModel) (Xnew : mat)
  (fc : bool) (t : sgpr_terms) :
  shape_errors_only (SGPR.predict_of_terms self Xnew fc t).
Proof. unfold SGPR.predict_of_terms. destruct fc; shape_errors. Qed.

Lemma fitc_predict_of_terms_shape_errors (self : GPModel) (Xnew : mat)
  (fc : bool) (Luu L gamma : mat) :
  shape_errors_only (GPRFITC.predict_of_terms self Xnew fc Luu L gamma).
Proof. unfold GPRFITC.predict_of_terms. destruct fc; shape_errors. Qed.

(** The steps named in [sgpr_factorisation_fails] are those of the method:
    with the outcomes of the method's steps at hand, the two agree. *)
Ltac refute_fails :=
  let H := fresh "H" in
  intros [? [? [? [? [H|H]]]]];
  [ congruence
  | destruct H as [? [? [? [? [? [? [? [? ?]]]]]]]]; congruence ].

Lemma sgpr_terms_numerical (j : R) (self : GPModel) :
  SGPR.likelihood_terms j self = Err NumericalError <->
  sgpr_factorisation_fails j self.
Proof.
  unfold SGPR.likelihood_terms, sgpr_factorisation_fails.
  destruct (tf.sub _ _) as [err|e] eqn:E0; simpl.
  2:{ split; [intros H; not_numerical E0 H|].
      intros [? [? [H _]]]. discriminate. }
  destruct (tf.add _ _) as [Kuu|e] eqn:E1; simpl.
  2:{ split; [intros H; not_numerical E1 H|].
      intros [? [? [_ [H _]]]]. discriminate. }
  destruct (tf.cholesky Kuu) as [L|e] eqn:E2; simpl.
  2:{ split; [|refute_fails].
      intros H. injection H as ->. exists err, Kuu. auto. }
  destruct (tf.matrix_triangular_solve L _ true) as [S|e] eqn:E3; simpl.
  2:{ split; [intros H; not_numerical E3 H | refute_fails]. }
  destruct (tf.matmul _ _ false true) as [AAT|e] eqn:E4; simpl.
  2:{ split; [intros H; not_numerical E4 H | refute_fails]. }
  destruct (tf.add AAT _) as [B|e] eqn:E5; simpl.
  2:{ split; [intros H; not_numerical E5 H | refute_fails]. }
  destruct (tf.cholesky B) as [LB|e] eqn:E6; simpl.
  2:{ split; [|refute_fails].
      intros H. injection H as ->. exists err, Kuu.
      split; [reflexivity|]. split; [reflexivity|]. right.
      exists L, S, AAT, B. auto. }
  destruct (tf.matmul _ err false false) as [Aerr|e] eqn:E7; simpl.
  2:{ split; [intros H; not_numerical E7 H | refute_fails]. }
  destruct (tf.matrix_triangular_solve LB Aerr true) as [c|e] eqn:E8; simpl.
  2:{ split; [intros H; not_numerical E8 H | refute_fails]. }
  split; [discriminate | refute_fails].
Qed.

(** X1. [SGPR]: the bound and the prediction end in a numerical error on the
    same model states, those on which one of the two Cholesky
    factorisations (of [Kzz + jitter I], or of [B = A A^T + I]) does not
    succeed; no later step raises one, and none is caught. *)
Theorem sgpr_numerical_error_iff (j : R) (self : GPModel) :
  (SGPR.build_likelihood j self = Err NumericalError <->
   sgpr_factorisation_fails j self) /\
  (forall Xnew fc,
     SGPR.build_predict j self Xnew fc = Err NumericalError <->
     sgpr_factorisation_fails j self).
Proof.
  split; [|intros Xnew fc].
  - rewrite build_likelihood_terms, bind_numerical.
    + apply sgpr_terms_numerical.
    + intros t. apply shape_errors_only_Ok.
  - rewrite build_predict_terms, predict_terms_likelihood_terms, bind_numerical.
    + apply sgpr_terms_numerical.
    + intros t. apply sgpr_predict_of_terms_shape_errors.
Qed.

(** X2. [GPRFITC]: the likelihood and the prediction end in a numerical
    error on the same model states, those on which [build_common_terms]
    does. *)
Theorem fitc_numerical_error_iff (j : R) (self : GPModel) :
  (GPRFITC.build_likelihood j self = Err NumericalError <->
   GPRFITC.build_common_terms j self = Err NumericalError) /\
  (forall Xnew fc,
     GPRFITC.build_predict j self Xnew fc = Err NumericalError <->
     GPRFITC.build_common_terms j self = Err NumericalError).
Proof.
  split; [|intros Xnew fc].
  - unfold GPRFITC.build_likelihood. apply bind_numerical.
    intros [[[[[[err nu] Luu] L] alpha] beta] gamma]. shape_errors.
  - rewrite fitc_build_predict_terms. apply bind_numerical.
    intros [[[[[[err nu] Luu] L] alpha] beta] gamma].
    apply fitc_predict_of_terms_shape_errors.
Qed.

(** ** The variance does not depend on the mean function *)

Lemma zip_rows_shape2 (f g : R -> R -> R) (d : nat) (A A' B B' : mat) :
  same_shape A A' -> same_shape B B' ->
  same_shape
    (zip_with (fun ra rb => zip_with f (tf.stretch d ra) (tf.stretch d rb)) A B)
    (zip_with (fun ra rb => zip_with g (tf.stretch d ra) (tf.stretch d rb)) A' B').
Proof.
  unfold same_shape. revert A' B B'.
  induction A as [|a A IH]; intros [|a' A'] B B' HA HB; simpl in HA;
    try discriminate; auto.
  destruct B as [|b B], B' as [|b' B']; simpl in HB; try discriminate; auto.
  injection HA as Ha HA. injection HB as Hb HB. simpl.
  f_equal; [|apply IH; assumption].
  rewrite !zip_with_length, !stretch_length, Ha, Hb. reflexivity.
Qed.

Lemma bcast2_congr2 (f g : R -> R -> R) (A A' B B' : mat) :
  same_shape A A' -> same_shape B B' ->
  result_rel same_shape (tf.bcast2 f A B) (tf.bcast2 g A' B').
Proof.
  intros HA HB. unfold tf.bcast2, tf.shape0.
  rewrite <- (same_shape_length _ _ HA), <- (same_shape_shape1 _ _ HA),
    <- (same_shape_length _ _ HB), <- (same_shape_shape1 _ _ HB).
  destruct (tf.bdim (length A) (length B)) as [n|]; simpl; [|reflexivity].
  destruct (tf.bdim (tf.shape1 A) (tf.shape1 B)) as [d|]; simpl; [|reflexivity].
  apply zip_rows_shape2; apply stretch_same_shape; assumption.
Qed.

Lemma sgpr_predict_var_mean_rel (j : R) (self : GPModel) (mf' : mat -> mat)
  (Xnew : mat) (fc : bool) :
  same_shape (mean_function self (X self)) (mf' (X self)) ->
  same_shape (mean_function self Xnew) (mf' Xnew) ->
  result_rel (fun p p' => snd p = snd p')
    (SGPR.build_predict j self Xnew fc)
    (SGPR.build_predict j (set_mean_function self mf') Xnew fc).
Proof.
  intros HX HN. unfold SGPR.build_predict.
  cbn [set_mean_function X Y kern likelihood mean_function Z].
  apply (result_rel_bind same_shape);
    [apply bcast2_congr2; [apply same_shape_refl | exact HX]
    | intros err err' Herr].
  do 6 same_step.
  apply (result_rel_bind same_shape);
    [apply matmul_congr_r; exact Herr | intros Aerr Aerr' HAerr].
  apply (result_rel_bind same_shape);
    [apply triangular_solve_congr; exact HAerr | intros c c' Hc].
  do 2 same_step.
  apply (result_rel_bind same_shape);
    [apply matmul_congr_r, same_shape_map2; exact Hc | intros mean mean' Hm].
  same_step.
  apply (result_rel_bind same_shape);
    [apply bcast2_congr2; assumption | intros mu mu' _].
  reflexivity.
Qed.

Lemma fitc_common_terms_mean_rel (j : R) (self : GPModel) (mf' : mat -> mat) :
  same_shape (mean_function self (X self)) (mf' (X self)) ->
  result_rel
    (fun t t' =>
       let '(_, _, Luu, L, _, _, gamma) := t in
       let '(_, _, Luu', L', _, _, gamma') := t' in
       Luu = Luu' /\ L = L' /\ same_shape gamma gamma')
    (GPRFITC.build_common_terms j self)
    (GPRFITC.build_common_terms j (set_mean_function self mf')).
Proof.
  intros HX. unfold GPRFITC.build_common_terms.
  cbn [set_mean_function X Y kern likelihood mean_function Z].
  apply (result_rel_bind same_shape);
    [apply bcast2_congr2; [apply same_shape_refl | exact HX]
    | intros err err' Herr].
  do 8 same_step.
  apply (result_rel_bind same_shape);
    [apply bcast2_congr; exact Herr | intros beta beta' Hbeta].
  apply (result_rel_bind same_shape);
    [apply matmul_congr_r; exact Hbeta | intros alpha alpha' Halpha].
  apply (result_rel_bind same_shape);
    [apply triangular_solve_congr; exact Halpha | intros gamma gamma' Hgamma].
  simpl. auto.
Qed.

Lemma fitc_predict_var_mean_rel (j : R) (self : GPModel) (mf' : mat -> mat)
  (Xnew : mat) (fc : bool) :
  same_shape (mean_function self (X self)) (mf' (X self)) ->
  same_shape (mean_function self Xnew) (mf' Xnew) ->
  result_rel (fun p p' => snd p = snd p')
    (GPRFITC.build_predict j self Xnew fc)
    (GPRFITC.build_predict j (set_mean_function self mf') Xnew fc).
Proof.
  intros HX HN. rewrite !fitc_build_predict_terms.
  eapply result_rel_bind; [apply fitc_common_terms_mean_rel; exact HX|].
  intros [[[[[[err nu] Luu] L] alpha] beta] gamma]
         [[[[[[err' nu'] Luu'] L'] alpha'] beta'] gamma'] [<- [<- Hg]].
  unfold GPRFITC.predict_of_terms.
  cbn [set_mean_function X Y kern likelihood mean_function Z].
  same_step.
  apply (result_rel_bind same_shape);
    [apply triangular_solve_congr; exact Hg | intros tmp tmp' Ht].
  apply (result_rel_bind same_shape);
    [apply matmul_congr_r; exact Ht | intros p p' Hp].
  apply (result_rel_bind same_shape);
    [apply bcast2_congr2; assumption | intros mean mean' _].
  do 2 same_step.
  reflexivity.
Qed.

(** X3. The variance that [build_predict] returns does not depend on the
    mean function: with another mean function whose values at [X] and at
    [Xnew] have the same shapes, both models return the same variance and
    fail on the same inputs. *)
Theorem predict_variance_independent_of_mean (j : R) (self : GPModel)
  (mf' : mat -> mat) (Xnew : mat) (fc : bool) :
  same_shape (mean_function self (X self)) (mf' (X self)) ->
  same_shape (mean_function self Xnew) (mf' Xnew) ->
  fmap snd (SGPR.build_predict j self Xnew fc) =
    fmap snd (SGPR.build_predict j (set_mean_function self mf') Xnew fc) /\
  fmap snd (GPRFITC.build_predict j self Xnew fc) =
    fmap snd (GPRFITC.build_predict j (set_mean_function self mf') Xnew fc).
Proof.
  intros HX HN. split; apply result_rel_snd.
  - apply sgpr_predict_var_mean_rel; assumption.
  - apply fitc_predict_var_mean_rel; assumption.
Qed.

(** ** Shape and symmetry of the predicted variance *)

(** The variance with [full_cov], in closed form. *)
Lemma variance_full_form (f g : R -> R -> R) (m s r : nat) (KXX Ta Tb : mat) :
  is_mat s s KXX -> is_mat m s Ta -> is_mat m s Tb ->
  (0 < m)%nat -> (0 < s)%nat ->
  (ta <- tf.matmul Ta Ta true false ;;
   s1 <- tf.bcast2 f KXX ta ;;
   tb <- tf.matmul Tb Tb true false ;;
   var <- tf.bcast2 g s1 tb ;;
   Ok (FullCov (tf.tile3 (tf.expand_dims2 var) 1 1 r)))
  = Ok (FullCov
          (Spec.replicate3 r
             (zip_with (zip_with g)
                (zip_with (zip_with f) KXX (gram s Ta)) (gram s Tb)))).
Proof.
  intros HK Ha Hb Hm Hs.
  rewrite (matmul_gram m s Ta Ha Hm Hs). simpl.
  fold (gram s Ta).
  assert (HGa : is_mat s s (gram s Ta))
    by apply (is_mat_tabulate s (fun i j => dot (col i Ta) (col j Ta))).
  assert (HGb : is_mat s s (gram s Tb))
    by apply (is_mat_tabulate s (fun i j => dot (col i Tb) (col j Tb))).
  rewrite (bcast2_same f s s KXX (gram s Ta) HK HGa). simpl.
  rewrite (matmul_gram m s Tb Hb Hm Hs). simpl. fold (gram s Tb).
  rewrite (bcast2_same g s s _ (gram s Tb) (is_mat_zip f s s _ _ HK HGa) HGb).
  simpl. rewrite tile3_expand. reflexivity.
Qed.

(** The variance without [full_cov], in closed form. *)
Lemma variance_diag_form (f g : R -> R -> R) (m s r : nat) (Kd : vec)
  (Ta Tb : mat) :
  length Kd = s -> is_mat m s Ta -> is_mat m s Tb -> (0 < m)%nat ->
  (s1 <- tf.bcast1 f Kd (tf.reduce_sum_axis0 (tf.square Ta)) ;;
   var <- tf.bcast1 g s1 (tf.reduce_sum_axis0 (tf.square Tb)) ;;
   Ok (DiagCov (tf.tile2 (tf.expand_dims1 var) 1 r)))
  = Ok (DiagCov
          (Spec.replicate2 r
             (zip_with g
                (zip_with f Kd (tf.reduce_sum_axis0 (tf.square Ta)))
                (tf.reduce_sum_axis0 (tf.square Tb))))) /\
  length (zip_with g
            (zip_with f Kd (tf.reduce_sum_axis0 (tf.square Ta)))
            (tf.reduce_sum_axis0 (tf.square Tb))) = s.
Proof.
  intros HK Ha Hb Hm.
  assert (La : length (tf.reduce_sum_axis0 (tf.square Ta)) = s).
  { rewrite (colsum_square m s Ta Ha Hm), length_map, length_seq. reflexivity. }
  assert (Lb : length (tf.reduce_sum_axis0 (tf.square Tb)) = s).
  { rewrite (colsum_square m s Tb Hb Hm), length_map, length_seq. reflexivity. }
  rewrite (bcast1_same f) by congruence. simpl.
  rewrite (bcast1_same g) by (rewrite zip_with_length; lia). simpl.
  rewrite tile2_expand. split; [reflexivity|].
  rewrite !zip_with_length. lia.
Qed.

Lemma is_mat_replicate2 (r : nat) (u : vec) :
  is_mat (length u) r (Spec.replicate2 r u).
Proof.
  unfold Spec.replicate2. split.
  - apply length_map.
  - rewrite Forall_forall. intros row H. apply in_map_iff in H.
    destruct H as [x [<- _]]. apply repeat_length.
Qed.

Lemma is_tensor3_replicate3 (r s : nat) (V : mat) :
  is_mat s s V -> is_tensor3 s s r (Spec.replicate3 r V).
Proof.
  intros [HL HF]. unfold Spec.replicate3. split.
  - rewrite length_map. exact HL.
  - rewrite Forall_forall in *. intros A H. apply in_map_iff in H.
    destruct H as [u [<- Hu]]. rewrite <- (HF u Hu).
    apply is_mat_replicate2.
Qed.

(** An index outside a square matrix reads the default. *)
Lemma nth_outside {A : Type} (s : nat) (M : list (list A)) (i j : nat) (d : A) :
  length M = s -> Forall (fun r => length r = s) M ->
  ~ ((i < s)%nat /\ (j < s)%nat) ->
  nth j (nth i M []) d = d.
Proof.
  intros HL HF H.
  destruct (Nat.lt_ge_cases i s) as [Hi|Hi].
  - apply nth_overflow. rewrite Forall_forall in HF.
    rewrite (HF (nth i M [])) by (apply nth_In; lia). lia.
  - rewrite (nth_overflow M) by lia. destruct j; reflexivity.
Qed.

Lemma dot_comm (u v : vec) : dot u v = dot v u.
Proof.
  unfold dot. f_equal. revert v.
  induction u as [|a u IH]; intros [|b v]; simpl; auto.
  rewrite IH, Rmult_comm. reflexivity.
Qed.

Lemma symmetric_gram (s : nat) (T : mat) : symmetric (gram s T).
Proof.
  intros i j.
  assert (HG : is_mat s s (gram s T))
    by apply (is_mat_tabulate s (fun i j => dot (col i T) (col j T))).
  destruct HG as [HL HF].
  destruct (Nat.lt_ge_cases i s) as [Hi|Hi];
    [destruct (Nat.lt_ge_cases j s) as [Hj|Hj]|].
  - unfold gram.
    rewrite (nth_map_seq (fun i => map (fun j => dot (col i T) (col j T))
                                     (seq 0 s)) s i) by assumption.
    rewrite (nth_map_seq (fun i => map (fun j => dot (col i T) (col j T))
                                     (seq 0 s)) s j) by assumption.
    rewrite !nth_map_seq by assumption. apply dot_comm.
  - rewrite !(nth_outside s (gram s T)) by (auto; lia). reflexivity.
  - rewrite !(nth_outside s (gram s T)) by (auto; lia). reflexivity.
Qed.

Lemma symmetric_zip (f : R -> R -> R) (s : nat) (A B : mat) :
  is_mat s s A -> is_mat s s B -> symmetric A -> symmetric B ->
  symmetric (zip_with (zip_with f) A B).
Proof.
  intros HA HB SA SB i j.
  destruct (is_mat_zip f s s A B HA HB) as [HL HF].
  destruct (Nat.lt_ge_cases i s) as [Hi|Hi];
    [destruct (Nat.lt_ge_cases j s) as [Hj|Hj]|].
  - destruct HA as [LA FA], HB as [LB FB].
    rewrite (zip_with_nth (zip_with f) A B i [] [] []) by lia.
    rewrite (zip_with_nth (zip_with f) A B j [] [] []) by lia.
    pose proof (is_mat_row s s A i (conj LA FA) Hi) as HAi.
    pose proof (is_mat_row s s A j (conj LA FA) Hj) as HAj.
    pose proof (is_mat_row s s B i (conj LB FB) Hi) as HBi.
    pose proof (is_mat_row s s B j (conj LB FB) Hj) as HBj.
    rewrite (zip_with_nth f _ _ j 0 0 0) by lia.
    rewrite (zip_with_nth f _ _ i 0 0 0) by lia.
    rewrite SA, SB. reflexivity.
  - rewrite !(nth_outside s (zip_with (zip_with f) A B)) by (auto; lia).
    reflexivity.
  - rewrite !(nth_outside s (zip_with (zip_with f) A B)) by (auto; lia).
    reflexivity.
Qed.

Lemma symmetric3_replicate3 (r s : nat) (V : mat) :
  is_mat s s V -> symmetric V -> symmetric3 (Spec.replicate3 r V).
Proof.
  intros HV SV i j. destruct (is_tensor3_replicate3 r s V HV) as [HL HF].
  assert (HF' : Forall (fun A => length A = s) (Spec.replicate3 r V)).
  { eapply Forall_impl; [|exact HF]. intros A [H _]. exact H. }
  destruct (Nat.lt_ge_cases i s) as [Hi|Hi];
    [destruct (Nat.lt_ge_cases j s) as [Hj|Hj]|].
  - destruct HV as [LV FV]. unfold Spec.replicate3.
    change (@nil (list R)) with (Spec.replicate2 r []).
    rewrite !map_nth. unfold Spec.replicate2.
    rewrite !(nth_indep (map _ _) [] (repeat 0 r))
      by (rewrite length_map, (is_mat_row s s V _ (conj LV FV)) by lia; lia).
    rewrite !(map_nth (fun x => repeat x r)), SV. reflexivity.
  - rewrite !(nth_outside s (Spec.replicate3 r V)) by (auto; lia). reflexivity.
  - rewrite !(nth_outside s (Spec.replicate3 r V)) by (auto; lia). reflexivity.
Qed.

(** ** Matrices of zeros *)

Lemma nth_zero (u : vec) (j : nat) : Forall (fun x => x = 0) u -> nth j u 0 = 0.
Proof.
  intros H. revert j. induction H as [|x u Hx H IH]; intros [|j]; simpl; auto.
Qed.

Lemma col_zero (j : nat) (A : mat) :
  all_zero A -> Forall (fun x => x = 0) (col j A).
Proof.
  intros H. unfold col. induction H as [|r A Hr H IH]; simpl; constructor; auto.
  apply nth_zero. exact Hr.
Qed.

Lemma dot_zero_r (u v : vec) : Forall (fun x => x = 0) v -> dot u v = 0.
Proof.
  intros H. unfold dot, vsum. revert u.
  induction H as [|x v Hx H IH]; intros [|a u]; simpl; auto.
  rewrite IH, Hx. ring.
Qed.

Lemma all_zero_mul_r (A B : mat) : all_zero B -> all_zero (tf.mul A B).
Proof.
  intros H. unfold all_zero, tf.mul. rewrite Forall_forall. intros r Hr.
  apply in_map_iff in Hr. destruct Hr as [a [<- _]].
  rewrite Forall_forall. intros x Hx. apply in_map_iff in Hx.
  destruct Hx as [j [<- _]]. apply dot_zero_r, col_zero. exact H.
Qed.

Lemma Forall_imap {A B : Type} (P : A -> Prop) (Q : B -> Prop)
  (f : nat -> A -> B) (l : list A) :
  (forall j x, P x -> Q (f j x)) -> Forall P l -> Forall Q (tf.imap f l).
Proof.
  intros Hf Hl. unfold tf.imap. rewrite Forall_forall in *. intros y Hy.
  apply in_map_iff in Hy. destruct Hy as [[j x] [<- Hin]]. simpl.
  apply Hf, Hl. eapply in_combine_r. exact Hin.
Qed.

Lemma all_zero_app (A B : mat) : all_zero A -> all_zero B -> all_zero (A ++ B).
Proof. unfold all_zero. intros HA HB. apply Forall_app. auto. Qed.

Lemma all_zero_solve_lower (L B X : mat) :
  all_zero B -> all_zero X -> all_zero (tf.solve_lower L B X).
Proof.
  revert B X. induction L as [|l L IH]; intros B X HB HX; simpl; auto.
  destruct HB as [|b B Hb HB]; auto.
  apply IH; auto. apply all_zero_app; auto. constructor; [|constructor].
  apply (Forall_imap (fun x => x = 0)); auto.
  intros j x ->. rewrite (dot_zero_r l (col j X)) by (apply col_zero; exact HX).
  unfold Rdiv. ring.
Qed.

Lemma all_zero_solve_upper (i : nat) (U B : mat) :
  all_zero B -> all_zero (tf.solve_upper i U B).
Proof.
  revert i B. induction U as [|u U IH]; intros i B HB; simpl;
    [constructor|].
  destruct HB as [|b B Hb HB]; constructor.
  - apply (Forall_imap (fun x => x = 0)); auto.
    intros j x ->.
    rewrite (dot_zero_r _ (col j (tf.solve_upper (S i) U B)))
      by (apply col_zero, IH; exact HB).
    unfold Rdiv. ring.
  - apply IH. exact HB.
Qed.

Lemma all_zero_triangular_solve (L B X : mat) (lower : bool) :
  tf.matrix_triangular_solve L B lower = Ok X -> all_zero B -> all_zero X.
Proof.
  unfold tf.matrix_triangular_solve. destruct (_ && _); [|discriminate].
  intros H HB. injection H as <-. destruct lower.
  - apply all_zero_solve_lower; [exact HB | constructor].
  - apply all_zero_solve_upper. exact HB.
Qed.

Lemma all_zero_div_scalar (A : mat) (s : R) :
  all_zero A -> all_zero (tf.div_scalar A s).
Proof.
  intros H. unfold tf.div_scalar. induction H as [|r A Hr H IH]; simpl;
    constructor; auto.
  clear - Hr. induction Hr as [|x r Hx Hr IH]; simpl; constructor; auto.
  rewrite Hx. unfold Rdiv. ring.
Qed.

Lemma Forall_stretch {A : Type} (P : A -> Prop) (n : nat) (l : list A) :
  Forall P l -> Forall P (tf.stretch n l).
Proof.
  intros H. destruct l as [|x [|y l]]; simpl; auto.
  inversion H; subst. clear H. induction n; simpl; constructor; auto.
Qed.

Lemma zip_with_zero_l (f : R -> R -> R) (u v : vec) :
  (forall y, f 0 y = 0) -> Forall (fun x => x = 0) u ->
  Forall (fun x => x = 0) (zip_with f u v).
Proof.
  intros Hf H. revert v. induction H as [|x u Hx H IH]; intros [|y v]; simpl;
    constructor; auto.
  rewrite Hx. apply Hf.
Qed.

(** An element-wise operation that maps a zero on its left to zero keeps a
    matrix of zeros, however the operands are broadcast. *)
Lemma all_zero_bcast2 (f : R -> R -> R) (A B C : mat) :
  (forall y, f 0 y = 0) ->
  tf.bcast2 f A B = Ok C -> all_zero A -> all_zero C.
Proof.
  intros Hf H HA. unfold tf.bcast2 in H.
  destruct (tf.bdim _ _) as [n|]; [|discriminate].
  destruct (tf.bdim _ _) as [d|]; [|discriminate].
  injection H as <-.
  apply (Forall_stretch _ n) in HA. revert HA.
  generalize (tf.stretch n A) (tf.stretch n B). intros A' B' HA.
  revert B'. induction HA as [|ra A' Hr HA IH]; intros [|rb B']; simpl;
    constructor; auto.
  - apply zip_with_zero_l; [exact Hf | apply Forall_stretch; exact Hr].
  - apply IH.
Qed.

Lemma zip_zero_plus_row (u v : vec) :
  Forall (fun x => x = 0) u -> length u = length v -> zip_with Rplus u v = v.
Proof.
  intros H. revert v. induction H as [|x u Hx H IH]; intros [|y v] E;
    simpl in *; try discriminate; auto.
  rewrite Hx, Rplus_0_l. f_equal. apply IH. lia.
Qed.

Lemma zip_zero_plus (n d : nat) (A B : mat) :
  is_mat n d A -> is_mat n d B -> all_zero A ->
  zip_with (zip_with Rplus) A B = B.
Proof.
  intros [LA FA] [LB FB] HA.
  assert (E : length A = length B) by lia. clear LA LB.
  revert B FB E. induction A as [|ra A IH]; intros [|rb B] FB E; simpl in *;
    try discriminate; auto.
  inversion FA; subst. inversion FB; subst. inversion HA; subst.
  f_equal.
  - apply zip_zero_plus_row; [assumption | lia].
  - apply IH; auto.
Qed.

Lemma zip_minus_self (A : mat) : all_zero (zip_with (zip_with Rminus) A A).
Proof.
  induction A as [|r A IH]; simpl; constructor; auto.
  clear. induction r as [|x r IH]; simpl; constructor; auto. ring.
Qed.

(** ** Shapes through the operations *)

Lemma is_mat_mul (a : nat) (A B : mat) :
  length A = a -> is_mat a (tf.shape1 B) (tf.mul A B).
Proof.
  intros HA. unfold tf.mul. split.
  - rewrite length_map. exact HA.
  - rewrite Forall_forall. intros r Hr. apply in_map_iff in Hr.
    destruct Hr as [x [<- _]]. rewrite length_map, length_seq. reflexivity.
Qed.

Lemma length_transpose (A : mat) : length (tf.transpose A) = tf.shape1 A.
Proof. unfold tf.transpose. rewrite length_map, length_seq. reflexivity. Qed.

Lemma matmul_inv (A B C : mat) (ta tb : bool) :
  tf.matmul A B ta tb = Ok C ->
  C = tf.mul (if ta then tf.transpose A else A)
             (if tb then tf.transpose B else B).
Proof.
  unfold tf.matmul. destruct (Nat.eqb _ _); [|discriminate].
  intros H. injection H as <-. reflexivity.
Qed.

Lemma is_mat_div_scalar (n d : nat) (A : mat) (s : R) :
  is_mat n d A -> is_mat n d (tf.div_scalar A s).
Proof.
  intros H. apply (is_mat_same_shape n d A); [exact H|].
  unfold tf.div_scalar. apply same_shape_map_l, same_shape_refl.
Qed.

Lemma is_mat_triangular_solve (n d : nat) (L B X : mat) (lower : bool) :
  tf.matrix_triangular_solve L B lower = Ok X -> is_mat n d B -> is_mat n d X.
Proof.
  intros H HB. apply (is_mat_same_shape n d B); [exact HB|].
  apply (triangular_solve_shape L B X lower H).
Qed.

Lemma bdim_1_r (r : nat) : tf.bdim r 1 = Some r.
Proof.
  unfold tf.bdim. destruct (Nat.eqb_spec r 1) as [->|]; [reflexivity|].
  reflexivity.
Qed.

(** A column is broadcast over the columns of a matrix of as many rows. *)
Lemma is_mat_bcast2_column (f : R -> R -> R) (n r : nat) (A B C : mat) :
  is_mat n r A -> is_mat n 1 B -> (0 < n)%nat ->
  tf.bcast2 f A B = Ok C -> is_mat n r C.
Proof.
  intros HA HB Hn H. unfold tf.bcast2, tf.shape0 in H.
  rewrite (shape1_is_mat n r A HA Hn), (shape1_is_mat n 1 B HB Hn) in H.
  destruct HA as [LA FA], HB as [LB FB].
  rewrite LA, LB, bdim_same, bdim_1_r, !stretch_id in H by assumption.
  injection H as <-. split.
  - rewrite zip_with_length. lia.
  - clear LA LB Hn. revert B FB.
    induction FA as [|ra A Hra FA IH]; intros B FB; simpl; [constructor|].
    destruct FB as [|rb B Hrb FB]; constructor.
    + rewrite zip_with_length, !stretch_length, Hra, Hrb. simpl.
      destruct (Nat.eqb r 1); lia.
    + apply IH. exact FB.
Qed.

Lemma is_mat_expand_dims1 (u : vec) : is_mat (length u) 1 (tf.expand_dims1 u).
Proof.
  unfold tf.expand_dims1. split.
  - apply length_map.
  - rewrite Forall_forall. intros r Hr. apply in_map_iff in Hr.
    destruct Hr as [x [<- _]]. reflexivity.
Qed.

Tactic Notation "bind_step" hyp(H) ident(x) ident(E) :=
  match type of H with
  | bind ?e _ = Ok _ => destruct e as [x|] eqn:E; simpl in H; [|discriminate]
  end.

(** What a successful prediction of [SGPR] returns, from inputs of the
    sizes of [valid_shapes]. *)
Lemma sgpr_predict_inv (j : R) (self : GPModel) (Xnew mu : mat) (fc : bool)
  (v : pred_var) (n r m s : nat) :
  valid_shapes self Xnew n r m s ->
  SGPR.build_predict j self Xnew fc = Ok (mu, v) ->
  exists err c tmp1 tmp2 : mat,
    tf.sub (Y self) (mean_function self (X self)) = Ok err /\
    (all_zero err -> all_zero c) /\
    is_mat m s tmp1 /\ is_mat m s tmp2 /\
    is_mat s r (tf.mul (tf.transpose tmp2) c) /\
    mu = zip_with (zip_with Rplus) (tf.mul (tf.transpose tmp2) c)
           (mean_function self Xnew) /\
    v = (if fc
         then FullCov
                (Spec.replicate3 r
                   (zip_with (zip_with Rminus)
                      (zip_with (zip_with Rplus) (K (kern self) Xnew)
                         (gram s tmp2)) (gram s tmp1)))
         else DiagCov
                (Spec.replicate2 r
                   (zip_with Rminus
                      (zip_with Rplus (Kdiag (kern self) Xnew)
                         (tf.reduce_sum_axis0 (tf.square tmp2)))
                      (tf.reduce_sum_axis0 (tf.square tmp1))))) /\
    length (zip_with Rminus
              (zip_with Rplus (Kdiag (kern self) Xnew)
                 (tf.reduce_sum_axis0 (tf.square tmp2)))
              (tf.reduce_sum_axis0 (tf.square tmp1))) = s.
Proof.
  intros VS H.
  destruct VS as [sY sM sMn sKzx sKzs sKd sK sKdn sn sm ss].
  unfold SGPR.build_predict in H.
  rewrite (shape1_is_mat n r _ sY sn) in H.
  bind_step H err E0. bind_step H Kuu E1. bind_step H L E2.
  bind_step H LinvKuf E3. bind_step H AAT E4. bind_step H B E5.
  bind_step H LB E6. bind_step H Aerr E7. bind_step H LBinvAerr E8.
  bind_step H tmp1 E9. bind_step H tmp2 E10. bind_step H mean E11.
  set (sigma := sqrt (variance (likelihood self))) in *.
  assert (Herr : is_mat n r err).
  { unfold tf.sub in E0. rewrite (bcast2_same _ n r) in E0 by assumption.
    injection E0 as <-. apply is_mat_zip; assumption. }
  assert (HA : is_mat m n (tf.div_scalar LinvKuf sigma)).
  { apply is_mat_div_scalar.
    apply (is_mat_triangular_solve _ _ _ _ _ _ E3). assumption. }
  assert (Hc : is_mat m r (tf.div_scalar LBinvAerr sigma)).
  { apply is_mat_div_scalar.
    apply (is_mat_triangular_solve _ _ _ _ _ _ E8).
    rewrite (matmul_inv _ _ _ _ _ E7).
    rewrite <- (shape1_is_mat n r err Herr sn).
    apply is_mat_mul. destruct HA as [HA _]. exact HA. }
  assert (H1 : is_mat m s tmp1)
    by (apply (is_mat_triangular_solve _ _ _ _ _ _ E9); assumption).
  assert (H2 : is_mat m s tmp2)
    by (apply (is_mat_triangular_solve _ _ _ _ _ _ E10); assumption).
  assert (Hmean : is_mat s r (tf.mul (tf.transpose tmp2)
                                (tf.div_scalar LBinvAerr sigma))).
  { rewrite <- (shape1_is_mat m r _ Hc sm).
    apply is_mat_mul.
    rewrite length_transpose. apply (shape1_is_mat m s tmp2 H2 sm). }
  rewrite (matmul_inv _ _ _ _ _ E11) in H.
  exists err, (tf.div_scalar LBinvAerr sigma), tmp1, tmp2.
  split; [reflexivity|]. split.
  { intros Hz. apply all_zero_div_scalar.
    apply (all_zero_triangular_solve _ _ _ _ E8).
    rewrite (matmul_inv _ _ _ _ _ E7). apply all_zero_mul_r. exact Hz. }
  split; [exact H1|]. split; [exact H2|]. split; [exact Hmean|].
  destruct (variance_diag_form Rplus Rminus m s r (Kdiag (kern self) Xnew)
              tmp2 tmp1 sKdn H2 H1 sm) as [HD HDl].
  destruct fc.
  - unfold tf.add at 1, tf.sub in H.
    rewrite (variance_full_form Rplus Rminus m s r _ tmp2 tmp1 sK H2 H1
               sm ss) in H.
    simpl in H. unfold tf.add in H.
    rewrite (bcast2_same Rplus s r _ _ Hmean sMn) in H.
    simpl in H. injection H as <- <-. auto.
  - unfold tf.add1, tf.sub1 in H. rewrite HD in H.
    simpl in H. unfold tf.add in H.
    rewrite (bcast2_same Rplus s r _ _ Hmean sMn) in H.
    simpl in H. injection H as <- <-. auto.
Qed.

(** What [build_common_terms] returns of [gamma], from inputs of the sizes of
    [valid_shapes]. *)
Lemma fitc_common_terms_inv (j : R) (self : GPModel) (Xnew : mat)
  (n r m s : nat) (err : mat) (nu : vec) (Luu L alpha beta gamma : mat) :
  valid_shapes self Xnew n r m s ->
  GPRFITC.build_common_terms j self =
    Ok (err, nu, Luu, L, alpha, beta, gamma) ->
  tf.sub (Y self) (mean_function self (X self)) = Ok err /\
  is_mat n r err /\ length nu = n /\
  is_mat m r gamma /\ (all_zero err -> all_zero gamma).
Proof.
  intros VS H.
  destruct VS as [sY sM sMn sKzx sKzs sKd sK sKdn sn sm ss].
  unfold GPRFITC.build_common_terms in H.
  bind_step H err0 E0. bind_step H Kuu E1. bind_step H Luu0 E2.
  bind_step H V E3. bind_step H d E4. bind_step H Vnu E5.
  bind_step H VnuVT E6. bind_step H B E7. bind_step H L0 E8.
  bind_step H beta0 E9. bind_step H alpha0 E10. bind_step H gamma0 E11.
  injection H as <- <- <- <- <- <- <-.
  assert (Herr : is_mat n r err0).
  { unfold tf.sub in E0. rewrite (bcast2_same _ n r) in E0 by assumption.
    injection E0 as <-. apply is_mat_zip; assumption. }
  assert (HV : is_mat m n V)
    by (apply (is_mat_triangular_solve _ _ _ _ _ _ E3); assumption).
  assert (Hnu : length (tf.add_scalar d (variance (likelihood self))) = n).
  { unfold tf.add_scalar. rewrite length_map.
    assert (Lq : length (tf.reduce_sum_axis0 (tf.square V)) = n).
    { rewrite (colsum_square m n V HV sm), length_map, length_seq.
      reflexivity. }
    unfold tf.sub1 in E4. rewrite bcast1_same in E4 by congruence.
    injection E4 as <-. rewrite zip_with_length. lia. }
  assert (Hbeta : is_mat n r beta0).
  { unfold tf.div in E9.
    refine (is_mat_bcast2_column Rdiv n r err0 _ beta0 Herr _ sn E9).
    rewrite <- Hnu at 1. apply is_mat_expand_dims1. }
  assert (Hgamma : is_mat m r gamma0).
  { apply (is_mat_triangular_solve _ _ _ _ _ _ E11).
    rewrite (matmul_inv _ _ _ _ _ E10).
    rewrite <- (shape1_is_mat n r beta0 Hbeta sn).
    apply is_mat_mul. destruct HV as [HV _]. exact HV. }
  split; [reflexivity|]. split; [exact Herr|]. split; [exact Hnu|].
  split; [exact Hgamma|].
  intros Hz. apply (all_zero_triangular_solve _ _ _ _ E11).
  rewrite (matmul_inv _ _ _ _ _ E10). apply all_zero_mul_r.
  apply (all_zero_bcast2 Rdiv _ _ _ (fun y => Rmult_0_l (/ y)) E9 Hz).
Qed.

(** What a successful prediction of [GPRFITC] returns. *)
Lemma fitc_predict_inv (j : R) (self : GPModel) (Xnew mu : mat) (fc : bool)
  (v : pred_var) (n r m s : nat) :
  valid_shapes self Xnew n r m s ->
  GPRFITC.build_predict j self Xnew fc = Ok (mu, v) ->
  exists err tmp w iA : mat,
    tf.sub (Y self) (mean_function self (X self)) = Ok err /\
    (all_zero err -> all_zero tmp) /\
    is_mat m s w /\ is_mat m s iA /\
    is_mat s r (tf.mul (tf.transpose w) tmp) /\
    mu = zip_with (zip_with Rplus) (tf.mul (tf.transpose w) tmp)
           (mean_function self Xnew) /\
    v = (if fc
         then FullCov
                (Spec.replicate3 r
                   (zip_with (zip_with Rplus)
                      (zip_with (zip_with Rminus) (K (kern self) Xnew)
                         (gram s w)) (gram s iA)))
         else DiagCov
                (Spec.replicate2 r
                   (zip_with Rplus
                      (zip_with Rminus (Kdiag (kern self) Xnew)
                         (tf.reduce_sum_axis0 (tf.square w)))
                      (tf.reduce_sum_axis0 (tf.square iA))))) /\
    length (zip_with Rplus
              (zip_with Rminus (Kdiag (kern self) Xnew)
                 (tf.reduce_sum_axis0 (tf.square w)))
              (tf.reduce_sum_axis0 (tf.square iA))) = s.
Proof.
  intros VS H. rewrite fitc_build_predict_terms in H.
  bind_step H t Et. destruct t as [[[[[[err nu] Luu] L] alpha] beta] gamma].
  destruct (fitc_common_terms_inv j self Xnew n r m s _ _ _ _ _ _ _ VS Et)
    as [Herr [_ [_ [Hgamma Hz]]]].
  destruct VS as [sY sM sMn sKzx sKzs sKd sK sKdn sn sm ss].
  unfold GPRFITC.predict_of_terms in H.
  rewrite (shape1_is_mat n r _ sY sn) in H.
  bind_step H w E1. bind_step H tmp E2. bind_step H wTtmp E3.
  bind_step H mean E4. bind_step H iA E5.
  assert (Hw : is_mat m s w)
    by (apply (is_mat_triangular_solve _ _ _ _ _ _ E1); assumption).
  assert (HiA : is_mat m s iA)
    by (apply (is_mat_triangular_solve _ _ _ _ _ _ E5); assumption).
  assert (Htmp : is_mat m r tmp)
    by (apply (is_mat_triangular_solve _ _ _ _ _ _ E2); assumption).
  assert (Hmean : is_mat s r (tf.mul (tf.transpose w) tmp)).
  { rewrite <- (shape1_is_mat m r _ Htmp sm). apply is_mat_mul.
    rewrite length_transpose. apply (shape1_is_mat m s w Hw sm). }
  rewrite (matmul_inv _ _ _ _ _ E3) in E4. unfold tf.add in E4.
  rewrite (bcast2_same Rplus s r _ _ Hmean sMn) in E4. injection E4 as <-.
  exists err, tmp, w, iA.
  split; [exact Herr|]. split.
  { intros Hzero. apply (all_zero_triangular_solve _ _ _ _ E2). auto. }
  split; [exact Hw|]. split; [exact HiA|]. split; [exact Hmean|].
  destruct (variance_diag_form Rminus Rplus m s r (Kdiag (kern self) Xnew)
              w iA sKdn Hw HiA sm) as [HD HDl].
  destruct fc.
  - unfold tf.add, tf.sub in H.
    rewrite (variance_full_form Rminus Rplus m s r _ w iA sK Hw HiA sm ss) in H.
    simpl in H. injection H as <- <-. auto.
  - unfold tf.add1, tf.sub1 in H. rewrite HD in H.
    simpl in H. injection H as <- <-. auto.
Qed.

Lemma is_mat_gram (s : nat) (T : mat) : is_mat s s (gram s T).
Proof. apply (is_mat_tabulate s (fun i j => dot (col i T) (col j T))). Qed.

(** ** Properties of the predictions *)

(** X4. With inputs of the sizes of [valid_shapes] and a kernel whose matrix
    at [Xnew] is symmetric, the full covariance that [build_predict] returns
    is symmetric in its first two axes, [var[i][j][:] = var[j][i][:]], for
    [SGPR] and for [GPRFITC]. *)
Theorem predict_full_cov_symmetric (j : R) (self : GPModel) (Xnew mu : mat)
  (T : tensor3) (n r m s : nat) :
  valid_shapes self Xnew n r m s ->
  symmetric (K (kern self) Xnew) ->
  (SGPR.build_predict j self Xnew true = Ok (mu, FullCov T) -> symmetric3 T) /\
  (GPRFITC.build_predict j self Xnew true = Ok (mu, FullCov T) ->
   symmetric3 T).
Proof.
  intros VS SK. pose proof (shapes_K _ _ _ _ _ _ VS) as HK. split; intros H.
  - destruct (sgpr_predict_inv j self Xnew mu true _ n r m s VS H)
      as [err [c [tmp1 [tmp2 [_ [_ [_ [_ [_ [_ [Hv _]]]]]]]]]]].
    injection Hv as ->.
    apply (symmetric3_replicate3 r s).
    + repeat apply is_mat_zip; auto using is_mat_gram.
    + repeat apply (symmetric_zip _ s);
        auto using is_mat_gram, is_mat_zip, symmetric_gram.
  - destruct (fitc_predict_inv j self Xnew mu true _ n r m s VS H)
      as [err [tmp [w [iA [_ [_ [_ [_ [_ [_ [Hv _]]]]]]]]]]].
    injection Hv as ->.
    apply (symmetric3_replicate3 r s).
    + repeat apply is_mat_zip; auto using is_mat_gram.
    + repeat apply (symmetric_zip _ s);
        auto using is_mat_gram, is_mat_zip, symmetric_gram.
Qed.

(** X5. When the outputs are the values of the mean function at [X], the
    mean that [build_predict] returns is the mean function at [Xnew], for
    [SGPR] and for [GPRFITC], with or without [full_cov]. *)
Theorem predict_mean_of_prior_data (j : R) (self : GPModel) (Xnew mu : mat)
  (fc : bool) (v : pred_var) (n r m s : nat) :
  valid_shapes self Xnew n r m s ->
  Y self = mean_function self (X self) ->
  (SGPR.build_predict j self Xnew fc = Ok (mu, v) ->
   mu = mean_function self Xnew) /\
  (GPRFITC.build_predict j self Xnew fc = Ok (mu, v) ->
   mu = mean_function self Xnew).
Proof.
  intros VS HY.
  pose proof (shapes_Y _ _ _ _ _ _ VS) as sY.
  pose proof (shapes_mean_new _ _ _ _ _ _ VS) as sMn.
  assert (Hz : forall err,
             tf.sub (Y self) (mean_function self (X self)) = Ok err ->
             all_zero err).
  { intros err E. rewrite <- HY in E. unfold tf.sub in E.
    rewrite (bcast2_same _ n r) in E by assumption.
    injection E as <-. apply zip_minus_self. }
  split; intros H.
  - destruct (sgpr_predict_inv j self Xnew mu fc v n r m s VS H)
      as [err [c [tmp1 [tmp2 [E [Hc [_ [_ [Hm [-> _]]]]]]]]]].
    apply (zip_zero_plus s r); auto.
    apply all_zero_mul_r, Hc, Hz, E.
  - destruct (fitc_predict_inv j self Xnew mu fc v n r m s VS H)
      as [err [tmp [w [iA [E [Ht [_ [_ [Hm [-> _]]]]]]]]]].
    apply (zip_zero_plus s r); auto.
    apply all_zero_mul_r, Ht, Hz, E.
Qed.

(** X6. With inputs of the sizes of [valid_shapes], a prediction that is
    returned has a mean of [s] rows and [r] columns, and a variance of [s]
    by [s] by [r] with [full_cov] and of [s] by [r] without, for [SGPR] and
    for [GPRFITC]. *)
Theorem predict_shapes (j : R) (self : GPModel) (Xnew mu : mat) (fc : bool)
  (v : pred_var) (n r m s : nat) :
  valid_shapes self Xnew n r m s ->
  (SGPR.build_predict j self Xnew fc = Ok (mu, v) ->
   is_mat s r mu /\ var_has_shape fc s r v) /\
  (GPRFITC.build_predict j self Xnew fc = Ok (mu, v) ->
   is_mat s r mu /\ var_has_shape fc s r v).
Proof.
  intros VS.
  pose proof (shapes_K _ _ _ _ _ _ VS) as sK.
  pose proof (shapes_mean_new _ _ _ _ _ _ VS) as sMn.
  split; intros H.
  - destruct (sgpr_predict_inv j self Xnew mu fc v n r m s VS H)
      as [err [c [tmp1 [tmp2 [_ [_ [_ [_ [Hm [-> [-> HL]]]]]]]]]]].
    split; [apply is_mat_zip; assumption|].
    destruct fc; simpl; split; try reflexivity.
    + apply is_tensor3_replicate3.
      repeat apply is_mat_zip; auto using is_mat_gram.
    + rewrite <- HL at 1. apply is_mat_replicate2.
  - destruct (fitc_predict_inv j self Xnew mu fc v n r m s VS H)
      as [err [tmp [w [iA [_ [_ [_ [_ [Hm [-> [-> HL]]]]]]]]]]].
    split; [apply is_mat_zip; assumption|].
    destruct fc; simpl; split; try reflexivity.
    + apply is_tensor3_replicate3.
      repeat apply is_mat_zip; auto using is_mat_gram.
    + rewrite <- HL at 1. apply is_mat_replicate2.
Qed.

(** ** What the methods read *)

(** X7. The covariance of the training inputs among themselves is never
    formed: the two likelihoods, and the predictions without [full_cov], do
    not depend on the method [K] of the kernel at all, and the predictions
    with [full_cov] depend on it through its value at [Xnew] only. *)
Theorem kernel_K_only_at_Xnew (j : R) (self : GPModel) (K' : mat -> mat)
  (Xnew : mat) :
  SGPR.build_likelihood j (set_kern self (set_K (kern self) K')) =
    SGPR.build_likelihood j self /\
  GPRFITC.build_likelihood j (set_kern self (set_K (kern self) K')) =
    GPRFITC.build_likelihood j self /\
  SGPR.build_predict j (set_kern self (set_K (kern self) K')) Xnew false =
    SGPR.build_predict j self Xnew false /\
  GPRFITC.build_predict j (set_kern self (set_K (kern self) K')) Xnew false =
    GPRFITC.build_predict j self Xnew false /\
  (K' Xnew = K (kern self) Xnew ->
   SGPR.build_predict j (set_kern self (set_K (kern self) K')) Xnew true =
     SGPR.build_predict j self Xnew true /\
   GPRFITC.build_predict j (set_kern self (set_K (kern self) K')) Xnew true =
     GPRFITC.build_predict j self Xnew true).
Proof.
  repeat split; try reflexivity.
  - unfold SGPR.build_predict.
    cbn [set_kern set_K X Y kern likelihood mean_function Z K Kdiag Kzx Kzz].
    rewrite H. reflexivity.
  - unfold GPRFITC.build_predict, GPRFITC.build_common_terms.
    cbn [set_kern set_K X Y kern likelihood mean_function Z K Kdiag Kzx Kzz].
    rewrite H. reflexivity.
Qed.

(** ** A single row of outputs *)

Lemma sub_single_row (y : vec) (n r : nat) (M : mat) :
  length y = r -> is_mat n r M -> (0 < n)%nat ->
  tf.sub [y] M = tf.sub (repeat y n) M.
Proof.
  intros Hy HM Hn. unfold tf.sub, tf.bcast2, tf.shape0.
  assert (S1 : tf.shape1 (repeat y n) = tf.shape1 [y]).
  { destruct n; [lia|]. reflexivity. }
  rewrite S1, repeat_length.
  destruct HM as [LM FM]. rewrite LM, bdim_same.
  assert (B1 : tf.bdim (length [y]) n = Some n).
  { unfold tf.bdim. simpl. destruct n as [|[|n]]; [lia| |]; reflexivity. }
  rewrite B1, (stretch_id n (repeat y n)) by apply repeat_length.
  reflexivity.
Qed.

(** X8. A matrix of outputs with a single row, next to [n] data points, is
    no error: the row is broadcast over the data points. The predictions of
    both models, and the likelihood of [GPRFITC], are those of the model
    whose outputs repeat that row [n] times. *)
Theorem single_row_Y_is_broadcast (j : R) (self : GPModel) (y : vec)
  (n r : nat) (Xnew : mat) (fc : bool) :
  Y self = [y] -> length y = r ->
  is_mat n r (mean_function self (X self)) -> (0 < n)%nat ->
  SGPR.build_predict j self Xnew fc =
    SGPR.build_predict j (set_Y self (repeat y n)) Xnew fc /\
  GPRFITC.build_predict j self Xnew fc =
    GPRFITC.build_predict j (set_Y self (repeat y n)) Xnew fc /\
  GPRFITC.build_likelihood j self =
    GPRFITC.build_likelihood j (set_Y self (repeat y n)).
Proof.
  intros HY Hy HM Hn.
  assert (S1 : tf.shape1 (repeat y n) = tf.shape1 [y]).
  { destruct n; [lia|]. reflexivity. }
  pose proof (sub_single_row y n r _ Hy HM Hn) as E.
  unfold SGPR.build_predict, GPRFITC.build_predict, GPRFITC.build_likelihood,
    GPRFITC.build_common_terms.
  cbn [set_Y X Y kern likelihood mean_function Z num_data num_latent].
  rewrite HY, S1, E. repeat split; reflexivity.
Qed.

(** ** The residual *)

(** X9. The likelihoods depend on the outputs and on the mean function
    through the residual [Y - mean_function(X)] and the size of [Y] only,
    and so do the predictions, next to the value of the mean function at
    [Xnew]. *)
Theorem evidence_depends_on_residual (j : R) (self : GPModel) (Y' : mat)
  (mf' : mat -> mat) (Xnew : mat) (fc : bool) :
  tf.sub Y' (mf' (X self)) = tf.sub (Y self) (mean_function self (X self)) ->
  tf.shape0 Y' = tf.shape0 (Y self) ->
  tf.shape1 Y' = tf.shape1 (Y self) ->
  (SGPR.build_likelihood j (set_mean_function (set_Y self Y') mf') =
     SGPR.build_likelihood j self /\
   GPRFITC.build_likelihood j (set_mean_function (set_Y self Y') mf') =
     GPRFITC.build_likelihood j self) /\
  (mf' Xnew = mean_function self Xnew ->
   SGPR.build_predict j (set_mean_function (set_Y self Y') mf') Xnew fc =
     SGPR.build_predict j self Xnew fc /\
   GPRFITC.build_predict j (set_mean_function (set_Y self Y') mf') Xnew fc =
     GPRFITC.build_predict j self Xnew fc).
Proof.
  intros E H0 H1.
  unfold SGPR.build_likelihood, GPRFITC.build_likelihood, SGPR.build_predict,
    GPRFITC.build_predict, GPRFITC.build_common_terms.
  cbn [set_mean_function set_Y X Y kern likelihood mean_function Z num_data
       num_latent].
  rewrite E, H0, H1. split; [split; reflexivity|].
  intros ->. split; reflexivity.
Qed.

(** ** The further properties on the example models *)

Ltac line_shapes :=
  constructor; cbn;
  try (split; [reflexivity | repeat constructor]);
  try reflexivity; try lia.

Lemma linear_kern_symmetric_2 (a b : R) :
  symmetric (K Examples.linear_kern [[a]; [b]]).
Proof.
  intros i j.
  destruct i as [|[|[|i]]], j as [|[|[|j]]]; cbn; try reflexivity; ring.
Qed.

Lemma sgpr_line_fails_at_minus_4 :
  sgpr_factorisation_fails (-4) Examples.sgpr_line.
Proof.
  unfold sgpr_factorisation_fails. eexists. eexists.
  split; [cbn; reflexivity|]. split; [cbn; reflexivity|].
  left. apply cholesky_1x1_fails. lra.
Qed.

Lemma sgpr_numerical_error_iff_witness :
  sgpr_factorisation_fails (-4) Examples.sgpr_line /\
  SGPR.build_likelihood (-4) Examples.sgpr_line = Err NumericalError /\
  SGPR.build_predict (-4) Examples.sgpr_line [[1]; [3]] true
    = Err NumericalError.
Proof.
  split; [apply sgpr_line_fails_at_minus_4|]. split.
  - apply (proj2 (proj1 (sgpr_numerical_error_iff (-4) Examples.sgpr_line))).
    apply sgpr_line_fails_at_minus_4.
  - apply (proj2 (proj2 (sgpr_numerical_error_iff (-4) Examples.sgpr_line)
                    [[1]; [3]] true)).
    apply sgpr_line_fails_at_minus_4.
Defined.

Lemma fitc_numerical_error_iff_witness :
  GPRFITC.build_common_terms (-4) Examples.fitc_line = Err NumericalError /\
  GPRFITC.build_likelihood (-4) Examples.fitc_line = Err NumericalError /\
  GPRFITC.build_predict (-4) Examples.fitc_line [[1]; [3]] false
    = Err NumericalError.
Proof.
  split; [apply fitc_line_singular|]. split.
  - apply (proj2 (proj1 (fitc_numerical_error_iff (-4) Examples.fitc_line))).
    apply fitc_line_singular.
  - apply (proj2 (proj2 (fitc_numerical_error_iff (-4) Examples.fitc_line)
                    [[1]; [3]] false)).
    apply fitc_line_singular.
Defined.

Lemma predict_variance_independent_of_mean_witness :
  same_shape (mean_function Examples.sgpr_line (X Examples.sgpr_line))
    ((fun A => map (fun _ => [1]) A) (X Examples.sgpr_line)) /\
  same_shape (mean_function Examples.sgpr_line [[1]; [3]])
    ((fun A => map (fun _ => [1]) A) [[1]; [3]]) /\
  fmap snd (SGPR.build_predict 0 Examples.sgpr_line [[1]; [3]] true) =
    fmap snd
      (SGPR.build_predict 0
         (set_mean_function Examples.sgpr_line (fun A => map (fun _ => [1]) A))
         [[1]; [3]] true) /\
  fmap snd (GPRFITC.build_predict 0 Examples.sgpr_line [[1]; [3]] true) =
    fmap snd
      (GPRFITC.build_predict 0
         (set_mean_function Examples.sgpr_line (fun A => map (fun _ => [1]) A))
         [[1]; [3]] true).
Proof.
  split; [reflexivity|]. split; [reflexivity|].
  apply (predict_variance_independent_of_mean 0 Examples.sgpr_line
           (fun A => map (fun _ => [1]) A) [[1]; [3]] true); reflexivity.
Defined.

Lemma predict_full_cov_symmetric_witness :
  valid_shapes Examples.sgpr_line [[1]; [3]] 2 1 1 2 /\
  symmetric (K (kern Examples.sgpr_line) [[1]; [3]]) /\
  SGPR.build_predict 0 Examples.sgpr_line [[1]; [3]] true =
    Ok ([[2 / 3]; [2]], FullCov [[[4 / 9]; [4 / 3]]; [[4 / 3]; [4]]]) /\
  GPRFITC.build_predict 0 Examples.sgpr_line [[1]; [3]] true =
    Ok ([[2 / 3]; [2]], FullCov [[[4 / 9]; [4 / 3]]; [[4 / 3]; [4]]]) /\
  symmetric3 [[[4 / 9]; [4 / 3]]; [[4 / 3]; [4]]].
Proof.
  assert (VS : valid_shapes Examples.sgpr_line [[1]; [3]] 2 1 1 2)
    by line_shapes.
  split; [exact VS|]. split; [apply linear_kern_symmetric_2|].
  split; [apply sgpr_line_predict_full|].
  split; [apply fitc_line_predict_full|].
  apply (proj1 (predict_full_cov_symmetric 0 Examples.sgpr_line [[1]; [3]]
                  [[2 / 3]; [2]] [[[4 / 9]; [4 / 3]]; [[4 / 3]; [4]]]
                  2 1 1 2 VS (linear_kern_symmetric_2 1 3))).
  apply sgpr_line_predict_full.
Defined.

(** The line with outputs equal to the mean function at the inputs. *)
Lemma sgpr_line_predict_prior :
  SGPR.build_predict 0 (set_Y Examples.sgpr_line [[0]; [0]]) [[1]; [3]] false =
  Ok ([[0]; [0]], DiagCov [[4 / 9]; [4]]).
Proof.
  unfold SGPR.build_predict, Examples.sgpr_line, SGPR.init. cbn.
  rewrite (cholesky_1x1 _ 2) by lra. cbn. rewrite sqrt_1.
  rewrite (cholesky_1x1 _ (3 / 2)) by lra. cbn.
  tensor_eq; lra.
Qed.

Lemma fitc_line_predict_prior :
  GPRFITC.build_predict 0 (set_Y Examples.sgpr_line [[0]; [0]]) [[1]; [3]] false =
  Ok ([[0]; [0]], DiagCov [[4 / 9]; [4]]).
Proof.
  unfold GPRFITC.build_predict, GPRFITC.build_common_terms,
    Examples.sgpr_line, SGPR.init. cbn.
  rewrite (cholesky_1x1 _ 2) by lra. cbn.
  rewrite (cholesky_1x1 _ (3 / 2)) by lra. cbn.
  tensor_eq; lra.
Qed.

Lemma predict_mean_of_prior_data_witness :
  valid_shapes (set_Y Examples.sgpr_line [[0]; [0]]) [[1]; [3]] 2 1 1 2 /\
  Y (set_Y Examples.sgpr_line [[0]; [0]]) =
    mean_function (set_Y Examples.sgpr_line [[0]; [0]])
      (X (set_Y Examples.sgpr_line [[0]; [0]])) /\
  [[0]; [0]] = mean_function (set_Y Examples.sgpr_line [[0]; [0]]) [[1]; [3]].
Proof.
  assert (VS : valid_shapes (set_Y Examples.sgpr_line [[0]; [0]]) [[1]; [3]]
                 2 1 1 2) by line_shapes.
  split; [exact VS|]. split; [reflexivity|].
  apply (proj1 (predict_mean_of_prior_data 0
                  (set_Y Examples.sgpr_line [[0]; [0]]) [[1]; [3]] [[0]; [0]]
                  false (DiagCov [[4 / 9]; [4]]) 2 1 1 2 VS eq_refl)).
  apply sgpr_line_predict_prior.
Defined.

Lemma predict_shapes_witness :
  valid_shapes Examples.sgpr_line [[1]; [3]] 2 1 1 2 /\
  (is_mat 2 1 [[2 / 3]; [2]] /\
   var_has_shape true 2 1 (FullCov [[[4 / 9]; [4 / 3]]; [[4 / 3]; [4]]])) /\
  (is_mat 2 1 [[2 / 3]; [2]] /\
   var_has_shape true 2 1 (FullCov [[[4 / 9]; [4 / 3]]; [[4 / 3]; [4]]])).
Proof.
  assert (VS : valid_shapes Examples.sgpr_line [[1]; [3]] 2 1 1 2)
    by line_shapes.
  split; [exact VS|]. split.
  - apply (proj1 (predict_shapes 0 Examples.sgpr_line [[1]; [3]] [[2 / 3]; [2]]
                    true (FullCov [[[4 / 9]; [4 / 3]]; [[4 / 3]; [4]]])
                    2 1 1 2 VS)).
    apply sgpr_line_predict_full.
  - apply (proj2 (predict_shapes 0 Examples.sgpr_line [[1]; [3]] [[2 / 3]; [2]]
                    true (FullCov [[[4 / 9]; [4 / 3]]; [[4 / 3]; [4]]])
                    2 1 1 2 VS)).
    apply fitc_line_predict_full.
Defined.

Lemma kernel_K_only_at_Xnew_witness :
  (fun _ : list (list R) => K Examples.linear_kern [[1]; [3]]) [[1]; [3]] =
    K (kern Examples.sgpr_line) [[1]; [3]] /\
  SGPR.build_predict 0
    (set_kern Examples.sgpr_line
       (set_K (kern Examples.sgpr_line)
          (fun _ => K Examples.linear_kern [[1]; [3]]))) [[1]; [3]] true =
    SGPR.build_predict 0 Examples.sgpr_line [[1]; [3]] true.
Proof.
  split; [reflexivity|].
  apply (proj1 (proj2 (proj2 (proj2 (proj2
           (kernel_K_only_at_Xnew 0 Examples.sgpr_line
              (fun _ => K Examples.linear_kern [[1]; [3]]) [[1]; [3]]))))
           eq_refl)).
Defined.

Lemma single_row_Y_is_broadcast_witness :
  Y (set_Y Examples.sgpr_line [[1]]) = [[1]] /\
  length [1] = 1%nat /\
  is_mat 2 1 (mean_function (set_Y Examples.sgpr_line [[1]])
                (X (set_Y Examples.sgpr_line [[1]]))) /\
  (0 < 2)%nat /\
  SGPR.build_predict 0 (set_Y Examples.sgpr_line [[1]]) [[1]; [3]] false =
    SGPR.build_predict 0
      (set_Y (set_Y Examples.sgpr_line [[1]]) (repeat [1] 2)) [[1]; [3]] false.
Proof.
  assert (HM : is_mat 2 1 (mean_function (set_Y Examples.sgpr_line [[1]])
                             (X (set_Y Examples.sgpr_line [[1]]))))
    by (split; [reflexivity | repeat constructor]).
  split; [reflexivity|]. split; [reflexivity|]. split; [exact HM|].
  split; [lia|].
  apply (proj1 (single_row_Y_is_broadcast 0 (set_Y Examples.sgpr_line [[1]])
                  [1] 2 1 [[1]; [3]] false eq_refl eq_refl HM
                  (Nat.lt_0_succ 1))).
Defined.

Lemma evidence_depends_on_residual_witness :
  tf.sub [[2]; [2]] ((fun A => map (fun _ => [1]) A) (X Examples.sgpr_line)) =
    tf.sub (Y Examples.sgpr_line)
      (mean_function Examples.sgpr_line (X Examples.sgpr_line)) /\
  SGPR.build_likelihood 0
    (set_mean_function (set_Y Examples.sgpr_line [[2]; [2]])
       (fun A => map (fun _ => [1]) A)) =
    SGPR.build_likelihood 0 Examples.sgpr_line.
Proof.
  assert (E : tf.sub [[2]; [2]]
                ((fun A => map (fun _ => [1]) A) (X Examples.sgpr_line)) =
              tf.sub (Y Examples.sgpr_line)
                (mean_function Examples.sgpr_line (X Examples.sgpr_line))).
  { cbn. tensor_eq; lra. }
  split; [exact E|].
  apply (proj1 (proj1 (evidence_depends_on_residual 0 Examples.sgpr_line
                         [[2]; [2]] (fun A => map (fun _ => [1]) A)
                         [[1]; [3]] false E eq_refl eq_refl))).
Defined.

(** ** Linearity of the predicted mean in the outputs *)

Section Linear.

Variables a b : R.

Lemma vlin_length (u v : vec) :
  length u = length v -> length (vlin a b u v) = length u.
Proof. intros H. unfold vlin. rewrite zip_with_length. lia. Qed.

Lemma lincomb_shape (A B : mat) :
  same_shape A B -> same_shape (lincomb a b A B) A.
Proof.
  unfold same_shape, lincomb. revert B.
  induction A as [|u A IH]; intros [|v B] H; simpl in *; try discriminate; auto.
  injection H as Hu HA. rewrite vlin_length by assumption.
  f_equal. apply IH. exact HA.
Qed.

Lemma nth_vlin (u v : vec) (j : nat) :
  length u = length v ->
  nth j (vlin a b u v) 0 = a * nth j u 0 + b * nth j v 0.
Proof.
  unfold vlin. revert v j.
  induction u as [|x u IH]; intros [|y v] j H; simpl in *; try discriminate.
  - destruct j; ring.
  - destruct j; [reflexivity|]. apply IH. lia.
Qed.

Lemma col_lincomb (A B : mat) (j : nat) :
  same_shape A B -> col j (lincomb a b A B) = vlin a b (col j A) (col j B).
Proof.
  unfold same_shape, lincomb, col. revert B.
  induction A as [|u A IH]; intros [|v B] H; simpl in *; try discriminate; auto.
  injection H as Hu HA. rewrite nth_vlin by assumption.
  specialize (IH B HA). unfold vlin in *. simpl. f_equal. exact IH.
Qed.

Lemma dot_vlin_r (w u v : vec) :
  length u = length v ->
  dot w (vlin a b u v) = a * dot w u + b * dot w v.
Proof.
  unfold dot, vsum, vlin. revert u v.
  induction w as [|x w IH]; intros [|y u] [|z v] H; simpl in *;
    try discriminate; try ring.
  rewrite IH by lia. ring.
Qed.

Lemma mul_lincomb (A E1 E2 : mat) :
  same_shape E1 E2 ->
  tf.mul A (lincomb a b E1 E2) = lincomb a b (tf.mul A E1) (tf.mul A E2).
Proof.
  intros HS. unfold tf.mul.
  rewrite (same_shape_shape1 _ _ (lincomb_shape E1 E2 HS)),
    <- (same_shape_shape1 _ _ HS).
  unfold lincomb. rewrite zip_with_map. fold (lincomb a b E1 E2).
  apply map_ext. intros r.
  unfold vlin. rewrite zip_with_map. fold (vlin a b).
  apply map_ext. intros j.
  rewrite col_lincomb by assumption. apply dot_vlin_r.
  unfold col. rewrite !length_map. apply same_shape_length. exact HS.
Qed.

Lemma imap_vlin (f1 f2 f3 : nat -> R -> R) (u v : vec) :
  length u = length v ->
  (forall j x y, f3 j (a * x + b * y) = a * f1 j x + b * f2 j y) ->
  tf.imap f3 (vlin a b u v) = vlin a b (tf.imap f1 u) (tf.imap f2 v).
Proof.
  intros HL Hf. unfold tf.imap. rewrite vlin_length by assumption.
  rewrite <- HL. generalize 0%nat as k. revert v HL.
  unfold vlin.
  induction u as [|x u IH]; intros [|y v] HL k; simpl in *; try discriminate;
    auto.
  rewrite Hf. f_equal. apply IH. lia.
Qed.

Lemma lincomb_app (A1 A2 B1 B2 : mat) :
  length A1 = length A2 ->
  lincomb a b (A1 ++ B1) (A2 ++ B2) = lincomb a b A1 A2 ++ lincomb a b B1 B2.
Proof.
  unfold lincomb. revert A2.
  induction A1 as [|u A1 IH]; intros [|v A2] H; simpl in *; try discriminate;
    auto.
  f_equal. apply IH. lia.
Qed.

Lemma same_shape_app (A1 A2 B1 B2 : mat) :
  same_shape A1 A2 -> same_shape B1 B2 -> same_shape (A1 ++ B1) (A2 ++ B2).
Proof. unfold same_shape. intros H1 H2. rewrite !map_app, H1, H2. reflexivity. Qed.

Lemma solve_lower_lincomb (L B1 B2 X1 X2 : mat) :
  same_shape B1 B2 -> same_shape X1 X2 ->
  tf.solve_lower L (lincomb a b B1 B2) (lincomb a b X1 X2) =
  lincomb a b (tf.solve_lower L B1 X1) (tf.solve_lower L B2 X2).
Proof.
  revert B1 B2 X1 X2.
  induction L as [|l L IH]; intros B1 B2 X1 X2 HB HX; simpl; auto.
  destruct B1 as [|b1 B1], B2 as [|b2 B2]; try discriminate; auto.
  injection HB as Hb HB. fold (same_shape B1 B2) in HB.
  change (lincomb a b (b1 :: B1) (b2 :: B2))
    with (vlin a b b1 b2 :: lincomb a b B1 B2).
  cbv iota beta.
  rewrite <- IH.
  - f_equal. rewrite lincomb_app by (apply same_shape_length; exact HX).
    f_equal. unfold lincomb at 3. simpl. f_equal.
    apply imap_vlin; [exact Hb|].
    intros j x y. rewrite col_lincomb, dot_vlin_r by
      (try assumption; unfold col; rewrite !length_map;
       apply same_shape_length; exact HX).
    rewrite (same_shape_length _ _ (lincomb_shape X1 X2 HX)),
      <- (same_shape_length _ _ HX).
    unfold Rdiv. ring.
  - exact HB.
  - apply same_shape_app; [exact HX|].
    unfold same_shape. simpl. rewrite !imap_length, Hb. reflexivity.
Qed.

Lemma solve_upper_same_shape (i : nat) (U B1 B2 : mat) :
  same_shape B1 B2 ->
  same_shape (tf.solve_upper i U B1) (tf.solve_upper i U B2).
Proof.
  intros H. unfold same_shape in *. rewrite !solve_upper_shape.
  rewrite <- !firstn_map, H. reflexivity.
Qed.

Lemma solve_upper_lincomb (i : nat) (U B1 B2 : mat) :
  same_shape B1 B2 ->
  tf.solve_upper i U (lincomb a b B1 B2) =
  lincomb a b (tf.solve_upper i U B1) (tf.solve_upper i U B2).
Proof.
  revert i B1 B2.
  induction U as [|u U IH]; intros i B1 B2 HB; simpl; auto.
  destruct B1 as [|b1 B1], B2 as [|b2 B2]; try discriminate; auto.
  injection HB as Hb HB. fold (same_shape B1 B2) in HB.
  change (lincomb a b (b1 :: B1) (b2 :: B2))
    with (vlin a b b1 b2 :: lincomb a b B1 B2).
  cbv iota beta. rewrite IH by exact HB.
  unfold lincomb at 3. simpl. fold (lincomb a b). f_equal.
  apply imap_vlin; [exact Hb|].
  intros j x y.
  pose proof (solve_upper_same_shape (S i) U B1 B2 HB) as HS.
  rewrite col_lincomb, dot_vlin_r by
    (try assumption; unfold col; rewrite !length_map;
     apply same_shape_length; exact HS).
  unfold Rdiv. ring.
Qed.

Lemma div_scalar_lincomb (A B : mat) (s : R) :
  tf.div_scalar (lincomb a b A B) s =
  lincomb a b (tf.div_scalar A s) (tf.div_scalar B s).
Proof.
  unfold tf.div_scalar, lincomb. revert B.
  induction A as [|u A IH]; intros [|v B]; simpl; auto.
  f_equal; [|apply IH].
  clear. unfold vlin. revert v.
  induction u as [|x u IH]; intros [|y v]; simpl; auto.
  f_equal; [unfold Rdiv; ring | apply IH].
Qed.

End Linear.

Lemma rel3_bind {A B : Type} (P : A -> A -> A -> Prop)
  (Q : B -> B -> B -> Prop) (r1 r2 r3 : result A) (k1 k2 k3 : A -> result B) :
  rel3 P r1 r2 r3 ->
  (forall x1 x2 x3, P x1 x2 x3 -> rel3 Q (k1 x1) (k2 x2) (k3 x3)) ->
  rel3 Q (bind r1 k1) (bind r2 k2) (bind r3 k3).
Proof.
  unfold rel3 at 1. intros H Hk.
  destruct r1 as [x1|]; [|exact I].
  destruct r2 as [x2|]; [|simpl; unfold rel3; destruct (k1 x1); exact I].
  destruct H as [x3 [-> HP]]. simpl. apply Hk. exact HP.
Qed.

Lemma rel3_same {A B : Type} (Q : B -> B -> B -> Prop) (r : result A)
  (k1 k2 k3 : A -> result B) :
  (forall x, rel3 Q (k1 x) (k2 x) (k3 x)) ->
  rel3 Q (bind r k1) (bind r k2) (bind r k3).
Proof. intros H. destruct r as [x|]; simpl; [apply H | exact I]. Qed.

Lemma rel3_Ok {A : Type} (P : A -> A -> A -> Prop) (r1 r2 r3 : result A)
  (x1 x2 : A) :
  rel3 P r1 r2 r3 -> r1 = Ok x1 -> r2 = Ok x2 ->
  exists x3, r3 = Ok x3 /\ P x1 x2 x3.
Proof. intros H -> ->. exact H. Qed.

Lemma stretch_vlin (a b : R) (d : nat) (u v : vec) :
  length u = length v ->
  tf.stretch d (vlin a b u v) = vlin a b (tf.stretch d u) (tf.stretch d v).
Proof.
  destruct u as [|x [|x' u]], v as [|y [|y' v]]; simpl; intros H;
    try discriminate; auto.
  unfold vlin. clear H. induction d; simpl; congruence.
Qed.

Lemma stretch_lincomb (a b : R) (n : nat) (A B : mat) :
  same_shape A B ->
  tf.stretch n (lincomb a b A B) =
  lincomb a b (tf.stretch n A) (tf.stretch n B).
Proof.
  intros H. apply same_shape_length in H.
  destruct A as [|x [|x' A]], B as [|y [|y' B]]; simpl in *;
    try discriminate; auto.
  unfold lincomb. clear H. induction n; simpl; congruence.
Qed.

Lemma zip_vlin (a b : R) (f : R -> R -> R) (P : R -> Prop) (u v z : vec) :
  (forall x y t, P t -> f (a * x + b * y) t = a * f x t + b * f y t) ->
  length u = length v -> Forall P z ->
  zip_with f (vlin a b u v) z = vlin a b (zip_with f u z) (zip_with f v z).
Proof.
  intros Hf HL HP. unfold vlin. revert u v HL.
  induction HP as [|t z Ht HP IH]; intros [|x u] [|y v] HL; simpl in *;
    try discriminate; auto.
  rewrite Hf by assumption. f_equal. apply IH. lia.
Qed.

Lemma zip_rows_lincomb (a b : R) (f : R -> R -> R) (P : R -> Prop) (d : nat)
  (A1 A2 Z : mat) :
  (forall x y t, P t -> f (a * x + b * y) t = a * f x t + b * f y t) ->
  same_shape A1 A2 -> Forall (Forall P) Z ->
  zip_with (fun ra rb => zip_with f (tf.stretch d ra) (tf.stretch d rb))
    (lincomb a b A1 A2) Z =
  lincomb a b
    (zip_with (fun ra rb => zip_with f (tf.stretch d ra) (tf.stretch d rb)) A1 Z)
    (zip_with (fun ra rb => zip_with f (tf.stretch d ra) (tf.stretch d rb)) A2 Z).
Proof.
  intros Hf HS HZ. unfold same_shape, lincomb in *. revert A1 A2 HS.
  induction HZ as [|z Z Hz HZ IH]; intros [|u A1] [|v A2] HS; simpl in *;
    try discriminate; auto.
  injection HS as Hu HS. f_equal; [|apply IH; exact HS].
  rewrite stretch_vlin by assumption.
  apply (zip_vlin a b f P).
  - exact Hf.
  - rewrite !stretch_length, Hu. reflexivity.
  - apply Forall_stretch. exact Hz.
Qed.

(** An element-wise operation that is linear in its left operand, for the
    right operands at hand, maps a combination to the combination. *)
Lemma bcast2_lin3 (a b : R) (f : R -> R -> R) (P : R -> Prop)
  (A1 A2 A3 Z : mat) :
  (forall x y t, P t -> f (a * x + b * y) t = a * f x t + b * f y t) ->
  Forall (Forall P) Z -> lin3 a b A1 A2 A3 ->
  rel3 (lin3 a b) (tf.bcast2 f A1 Z) (tf.bcast2 f A2 Z) (tf.bcast2 f A3 Z).
Proof.
  intros Hf HZ [HS ->]. unfold rel3, tf.bcast2, tf.shape0.
  pose proof (lincomb_shape a b A1 A2 HS) as H3.
  rewrite (same_shape_length _ _ H3), (same_shape_shape1 _ _ H3),
    <- (same_shape_length _ _ HS), <- (same_shape_shape1 _ _ HS).
  destruct (tf.bdim (length A1) (length Z)) as [n|]; [|exact I].
  destruct (tf.bdim (tf.shape1 A1) (tf.shape1 Z)) as [d|]; [|exact I].
  eexists. split; [reflexivity|]. split.
  - apply zip_rows_shape, stretch_same_shape. exact HS.
  - rewrite stretch_lincomb by exact HS.
    apply (zip_rows_lincomb a b f P).
    + exact Hf.
    + apply stretch_same_shape. exact HS.
    + apply Forall_stretch. exact HZ.
Qed.

Lemma matmul_lin3 (a b : R) (A E1 E2 E3 : mat) (ta : bool) :
  lin3 a b E1 E2 E3 ->
  rel3 (lin3 a b) (tf.matmul A E1 ta false) (tf.matmul A E2 ta false)
    (tf.matmul A E3 ta false).
Proof.
  intros [HS ->]. unfold rel3, tf.matmul, tf.shape0.
  rewrite (same_shape_length _ _ (lincomb_shape a b E1 E2 HS)),
    <- (same_shape_length _ _ HS).
  destruct (Nat.eqb _ (length E1)); [|exact I].
  eexists. split; [reflexivity|]. split.
  - unfold same_shape. rewrite !mul_shape, (same_shape_shape1 _ _ HS).
    reflexivity.
  - apply mul_lincomb. exact HS.
Qed.

Lemma triangular_solve_lin3 (a b : R) (L B1 B2 B3 : mat) (lower : bool) :
  lin3 a b B1 B2 B3 ->
  rel3 (lin3 a b) (tf.matrix_triangular_solve L B1 lower)
    (tf.matrix_triangular_solve L B2 lower)
    (tf.matrix_triangular_solve L B3 lower).
Proof.
  intros [HS ->].
  pose proof (triangular_solve_congr L B1 B2 lower HS) as HC.
  unfold rel3. unfold result_rel in HC.
  destruct (tf.matrix_triangular_solve L B1 lower) as [X1|] eqn:E1; [|exact I].
  destruct (tf.matrix_triangular_solve L B2 lower) as [X2|] eqn:E2; [|exact I].
  unfold tf.matrix_triangular_solve, tf.shape0 in *.
  rewrite (same_shape_length _ _ (lincomb_shape a b B1 B2 HS)).
  rewrite <- (same_shape_length _ _ HS) in E2.
  destruct (tf.is_square L && Nat.eqb (length L) (length B1)); [|discriminate].
  injection E1 as <-. injection E2 as <-.
  eexists. split; [reflexivity|]. split; [exact HC|].
  destruct lower.
  - apply (solve_lower_lincomb a b L B1 B2 [] [] HS). reflexivity.
  - apply solve_upper_lincomb. exact HS.
Qed.

Lemma div_scalar_lin3 (a b : R) (A1 A2 A3 : mat) (s : R) :
  lin3 a b A1 A2 A3 ->
  lin3 a b (tf.div_scalar A1 s) (tf.div_scalar A2 s) (tf.div_scalar A3 s).
Proof.
  intros [HS ->]. split.
  - unfold tf.div_scalar. apply same_shape_map2. exact HS.
  - apply div_scalar_lincomb.
Qed.

Lemma Forall_Forall_True (Z : mat) : Forall (Forall (fun _ => True)) Z.
Proof.
  induction Z as [|z Z IH]; constructor; auto.
  induction z; constructor; auto.
Qed.

Lemma linear_at_zero (a b : R) (f : R -> R -> R) :
  (forall x, f x 0 = x) ->
  forall x y t, t = 0 -> f (a * x + b * y) t = a * f x t + b * f y t.
Proof. intros Hf x y t ->. rewrite !Hf. reflexivity. Qed.

Lemma linear_div (a b : R) :
  forall x y t, True -> (a * x + b * y) / t = a * (x / t) + b * (y / t).
Proof. intros x y t _. unfold Rdiv. ring. Qed.

Ltac same3 := apply rel3_same; intro.

Lemma sgpr_predict_lin3 (j a b : R) (self : GPModel) (Y1 Y2 Xnew : mat)
  (fc : bool) :
  same_shape Y1 Y2 ->
  all_zero (mean_function self (X self)) ->
  all_zero (mean_function self Xnew) ->
  rel3 (fun p1 p2 p3 => p3 = (lincomb a b (fst p1) (fst p2), snd p1))
    (SGPR.build_predict j (set_Y self Y1) Xnew fc)
    (SGPR.build_predict j (set_Y self Y2) Xnew fc)
    (SGPR.build_predict j (set_Y self (lincomb a b Y1 Y2)) Xnew fc).
Proof.
  intros HS HX HN. unfold SGPR.build_predict.
  cbn [set_Y X Y kern likelihood mean_function Z].
  rewrite (same_shape_shape1 _ _ (lincomb_shape a b Y1 Y2 HS)),
    <- (same_shape_shape1 _ _ HS).
  apply (rel3_bind (lin3 a b)).
  { apply (bcast2_lin3 a b Rminus (fun t => t = 0)).
    - apply linear_at_zero. intros x. ring.
    - exact HX.
    - split; [exact HS | reflexivity]. }
  intros err1 err2 err3 Herr.
  do 6 same3.
  apply (rel3_bind (lin3 a b)); [apply matmul_lin3; exact Herr|].
  intros Aerr1 Aerr2 Aerr3 HAerr.
  apply (rel3_bind (lin3 a b)); [apply triangular_solve_lin3; exact HAerr|].
  intros c1 c2 c3 Hc.
  do 2 same3.
  apply (rel3_bind (lin3 a b));
    [apply matmul_lin3, div_scalar_lin3; exact Hc|].
  intros mean1 mean2 mean3 Hmean.
  same3.
  apply (rel3_bind (lin3 a b)).
  { apply (bcast2_lin3 a b Rplus (fun t => t = 0)).
    - apply linear_at_zero. intros y. ring.
    - exact HN.
    - exact Hmean. }
  intros m1 m2 m3 [_ ->].
  unfold rel3. eexists. split; reflexivity.
Qed.

Lemma fitc_common_terms_lin3 (j a b : R) (self : GPModel) (Y1 Y2 : mat) :
  same_shape Y1 Y2 ->
  all_zero (mean_function self (X self)) ->
  rel3
    (fun t1 t2 t3 =>
       let '(_, _, Luu1, L1, _, _, gamma1) := t1 in
       let '(_, _, Luu2, L2, _, _, gamma2) := t2 in
       let '(_, _, Luu3, L3, _, _, gamma3) := t3 in
       Luu1 = Luu2 /\ Luu1 = Luu3 /\ L1 = L2 /\ L1 = L3 /\
       lin3 a b gamma1 gamma2 gamma3)
    (GPRFITC.build_common_terms j (set_Y self Y1))
    (GPRFITC.build_common_terms j (set_Y self Y2))
    (GPRFITC.build_common_terms j (set_Y self (lincomb a b Y1 Y2))).
Proof.
  intros HS HX. unfold GPRFITC.build_common_terms.
  cbn [set_Y X Y kern likelihood mean_function Z].
  apply (rel3_bind (lin3 a b)).
  { apply (bcast2_lin3 a b Rminus (fun t => t = 0)).
    - apply linear_at_zero. intros x. ring.
    - exact HX.
    - split; [exact HS | reflexivity]. }
  intros err1 err2 err3 Herr.
  do 8 same3.
  apply (rel3_bind (lin3 a b)).
  { apply (bcast2_lin3 a b Rdiv (fun _ => True)).
    - apply linear_div.
    - apply Forall_Forall_True.
    - exact Herr. }
  intros beta1 beta2 beta3 Hbeta.
  apply (rel3_bind (lin3 a b)); [apply matmul_lin3; exact Hbeta|].
  intros alpha1 alpha2 alpha3 Halpha.
  apply (rel3_bind (lin3 a b)); [apply triangular_solve_lin3; exact Halpha|].
  intros gamma1 gamma2 gamma3 Hgamma.
  unfold rel3. eexists. split; [reflexivity|]. simpl. auto.
Qed.

Lemma fitc_predict_lin3 (j a b : R) (self : GPModel) (Y1 Y2 Xnew : mat)
  (fc : bool) :
  same_shape Y1 Y2 ->
  all_zero (mean_function self (X self)) ->
  all_zero (mean_function self Xnew) ->
  rel3 (fun p1 p2 p3 => p3 = (lincomb a b (fst p1) (fst p2), snd p1))
    (GPRFITC.build_predict j (set_Y self Y1) Xnew fc)
    (GPRFITC.build_predict j (set_Y self Y2) Xnew fc)
    (GPRFITC.build_predict j (set_Y self (lincomb a b Y1 Y2)) Xnew fc).
Proof.
  intros HS HX HN. rewrite !fitc_build_predict_terms.
  eapply rel3_bind; [apply (fitc_common_terms_lin3 j a b); assumption|].
  intros [[[[[[e1 n1] Luu] L] al1] be1] gamma1]
         [[[[[[e2 n2] Luu2] L2] al2] be2] gamma2]
         [[[[[[e3 n3] Luu3] L3] al3] be3] gamma3]
         [<- [<- [<- [<- Hg]]]].
  unfold GPRFITC.predict_of_terms.
  cbn [set_Y X Y kern likelihood mean_function Z].
  rewrite (same_shape_shape1 _ _ (lincomb_shape a b Y1 Y2 HS)),
    <- (same_shape_shape1 _ _ HS).
  same3.
  apply (rel3_bind (lin3 a b)); [apply triangular_solve_lin3; exact Hg|].
  intros tmp1 tmp2 tmp3 Htmp.
  apply (rel3_bind (lin3 a b)); [apply matmul_lin3; exact Htmp|].
  intros p1 p2 p3 Hp.
  apply (rel3_bind (lin3 a b)).
  { apply (bcast2_lin3 a b Rplus (fun t => t = 0)).
    - apply linear_at_zero. intros y. ring.
    - exact HN.
    - exact Hp. }
  intros m1 m2 m3 [_ ->].
  do 2 same3.
  unfold rel3. eexists. split; reflexivity.
Qed.

(** X10. With a mean function that is zero at [X] and at [Xnew], the
    predicted mean is linear in the outputs: for two matrices of outputs of
    the same shape whose predictions are returned, the prediction for
    [a Y1 + b Y2] is returned too, its mean is [a] times the first mean plus
    [b] times the second, and its variance is theirs; for [SGPR] and for
    [GPRFITC]. *)
Theorem predict_mean_linear (j a b : R) (self : GPModel) (Y1 Y2 Xnew : mat)
  (fc : bool) (mu1 mu2 : mat) (v1 v2 : pred_var) :
  same_shape Y1 Y2 ->
  all_zero (mean_function self (X self)) ->
  all_zero (mean_function self Xnew) ->
  (SGPR.build_predict j (set_Y self Y1) Xnew fc = Ok (mu1, v1) ->
   SGPR.build_predict j (set_Y self Y2) Xnew fc = Ok (mu2, v2) ->
   SGPR.build_predict j (set_Y self (lincomb a b Y1 Y2)) Xnew fc =
     Ok (lincomb a b mu1 mu2, v1)) /\
  (GPRFITC.build_predict j (set_Y self Y1) Xnew fc = Ok (mu1, v1) ->
   GPRFITC.build_predict j (set_Y self Y2) Xnew fc = Ok (mu2, v2) ->
   GPRFITC.build_predict j (set_Y self (lincomb a b Y1 Y2)) Xnew fc =
     Ok (lincomb a b mu1 mu2, v1)).
Proof.
  intros HS HX HN. split; intros H1 H2.
  - destruct (rel3_Ok _ _ _ _ _ _
                (sgpr_predict_lin3 j a b self Y1 Y2 Xnew fc HS HX HN) H1 H2)
      as [p [-> ->]]. reflexivity.
  - destruct (rel3_Ok _ _ _ _ _ _
                (fitc_predict_lin3 j a b self Y1 Y2 Xnew fc HS HX HN) H1 H2)
      as [p [-> ->]]. reflexivity.
Qed.

Lemma predict_mean_linear_witness :
  same_shape [[1]; [1]] [[5]; [7]] /\
  all_zero (mean_function Examples.sgpr_line (X Examples.sgpr_line)) /\
  all_zero (mean_function Examples.sgpr_line [[1]; [3]]) /\
  SGPR.build_predict 0
    (set_Y Examples.sgpr_line (lincomb 2 (-1) [[1]; [1]] [[5]; [7]]))
    [[1]; [3]] false =
    Ok (lincomb 2 (-1) [[2 / 3]; [2]] [[34 / 9]; [34 / 3]],
        DiagCov [[4 / 9]; [4]]).
Proof.
  assert (HX : all_zero (mean_function Examples.sgpr_line
                           (X Examples.sgpr_line)))
    by (repeat constructor).
  assert (HN : all_zero (mean_function Examples.sgpr_line [[1]; [3]]))
    by (repeat constructor).
  split; [reflexivity|]. split; [exact HX|]. split; [exact HN|].
  apply (proj1 (predict_mean_linear 0 2 (-1) Examples.sgpr_line
                  [[1]; [1]] [[5]; [7]] [[1]; [3]] false
                  [[2 / 3]; [2]] [[34 / 9]; [34 / 3]]
                  (DiagCov [[4 / 9]; [4]]) (DiagCov [[4 / 9]; [4]])
                  eq_refl HX HN)).
  - exact sgpr_line_predict_diag.
  - exact sgpr_line_predict_other_Y.
Defined.
